(** * Intent router and hybrid retrieval: a shallow embedding

    The development follows the three agent modules of the API:
    [router.py] (intent classification, filter extraction, the two-branch
    LangGraph workflow), [sql_agent.py] (the guarded SQL executor and the
    candidate resolver [get_asins_by_filter]) and [hybrid.py] (constrained
    semantic search, context formatting and the composed pipeline).

    Python values are embedded as the inductive [PyVal]; dictionaries used as
    maps are [gmap string PyVal]; [str] is [string], holding the UTF-8
    encoding of the text.
    Effects (the [@traceable] runs, the calls to the text-generation service,
    the relational store, the embedding service and the vector store) are
    threaded explicitly as a trace of events together with a result that is
    either a value or a raised exception.  The services are oracles of the
    environment; what the two stores promise is stated apart, the
    relational store's over the text of the statement the code sends. *)

From Stdlib Require Import ZArith QArith Ascii String List Bool Lia.
From Stdlib Require Import DecimalString.
From stdpp Require Import base option list gmap strings.

Local Open Scope string_scope.
Local Open Scope Z_scope.

(* ===================================================================== *)
(** ** Python [str] methods used by the agents *)
(* ===================================================================== *)

Module PyStr.

Definition code (c : ascii) : N := N_of_ascii c.

(** A [str] is held as its UTF-8 encoding.  One character of the text is
    one ASCII byte, or a byte outside ASCII together with the continuation
    bytes (10xxxxxx) that follow it; on well-formed UTF-8 these are the
    code points. *)
Definition is_ascii (c : ascii) : bool := (code c <? 128)%N.

Definition is_cont (c : ascii) : bool := ((128 <=? code c) && (code c <? 192))%N.

Definition starts_cont (s : string) : bool :=
  match s with
  | EmptyString => false
  | String c _ => is_cont c
  end.

Fixpoint chars (s : string) : list string :=
  match s with
  | EmptyString => []
  | String c s' =>
      if negb (is_ascii c) && starts_cont s' then
        match chars s' with
        | u :: us => String c u :: us
        | [] => [String c EmptyString]
        end
      else String c EmptyString :: chars s'
  end.

Definition concat (l : list string) : string :=
  fold_right String.append EmptyString l.

Definition of_codes (l : list N) : string :=
  fold_right (fun n s => String (ascii_of_N n) s) EmptyString l.

Definition is_empty (s : string) : bool :=
  match s with EmptyString => true | String _ _ => false end.

(** The whitespace of the ASCII range: TAB, LF, VT, FF, CR, the four
    separators FS..US, and SPACE. *)
Definition ascii_space (c : ascii) : bool :=
  ((9 <=? code c) && (code c <=? 13) || (28 <=? code c) && (code c <=? 32))%N.

(** The whitespace outside ASCII, as [str.isspace] has it: U+0085, U+00A0,
    U+1680, U+2000..U+200A, U+2028, U+2029, U+202F, U+205F, U+3000. *)
Definition wide_spaces : list string :=
  map of_codes
    [[194; 133]; [194; 160]; [225; 154; 128]; [226; 128; 128];
     [226; 128; 129]; [226; 128; 130]; [226; 128; 131]; [226; 128; 132];
     [226; 128; 133]; [226; 128; 134]; [226; 128; 135]; [226; 128; 136];
     [226; 128; 137]; [226; 128; 138]; [226; 128; 168]; [226; 128; 169];
     [226; 128; 175]; [226; 129; 159]; [227; 128; 128]]%N.

(** [c.isspace()] for one character. *)
Definition isspace (u : string) : bool :=
  match u with
  | String c EmptyString => ascii_space c
  | _ => existsb (String.eqb u) wide_spaces
  end.

Fixpoint lstrip_chars (l : list string) : list string :=
  match l with
  | [] => []
  | u :: l' => if isspace u then lstrip_chars l' else l
  end.

Definition rstrip_chars (l : list string) : list string :=
  rev (lstrip_chars (rev l)).

(** [s.strip()]: the whitespace characters at both ends are dropped. *)
Definition strip (s : string) : string :=
  concat (rstrip_chars (lstrip_chars (chars s))).

(** Upper case of the ASCII letters. *)
Definition upper_char (c : ascii) : ascii :=
  if ((97 <=? code c) && (code c <=? 122))%N
  then ascii_of_N (code c - 32) else c.

(** Upper case of the characters outside ASCII that have one, as
    [str.upper] of CPython 3.11 maps them (Unicode 14.0, full case
    mapping: one character may become several). *)
Definition special_upper : list (string * string) :=
  [("µ", "Μ"); ("ß", "SS"); ("à", "À"); ("á", "Á"); ("â", "Â"); ("ã", "Ã");
   ("ä", "Ä"); ("å", "Å"); ("æ", "Æ"); ("ç", "Ç"); ("è", "È"); ("é", "É");
   ("ê", "Ê"); ("ë", "Ë"); ("ì", "Ì"); ("í", "Í"); ("î", "Î"); ("ï", "Ï");
   ("ð", "Ð"); ("ñ", "Ñ"); ("ò", "Ò"); ("ó", "Ó"); ("ô", "Ô"); ("õ", "Õ");
   ("ö", "Ö"); ("ø", "Ø"); ("ù", "Ù"); ("ú", "Ú"); ("û", "Û"); ("ü", "Ü");
   ("ý", "Ý"); ("þ", "Þ"); ("ÿ", "Ÿ"); ("ā", "Ā"); ("ă", "Ă"); ("ą", "Ą");
   ("ć", "Ć"); ("ĉ", "Ĉ"); ("ċ", "Ċ"); ("č", "Č"); ("ď", "Ď"); ("đ", "Đ");
   ("ē", "Ē"); ("ĕ", "Ĕ"); ("ė", "Ė"); ("ę", "Ę"); ("ě", "Ě"); ("ĝ", "Ĝ");
   ("ğ", "Ğ"); ("ġ", "Ġ"); ("ģ", "Ģ"); ("ĥ", "Ĥ"); ("ħ", "Ħ"); ("ĩ", "Ĩ");
   ("ī", "Ī"); ("ĭ", "Ĭ"); ("į", "Į"); ("ı", "I"); ("ĳ", "Ĳ"); ("ĵ", "Ĵ");
   ("ķ", "Ķ"); ("ĺ", "Ĺ"); ("ļ", "Ļ"); ("ľ", "Ľ"); ("ŀ", "Ŀ"); ("ł", "Ł");
   ("ń", "Ń"); ("ņ", "Ņ"); ("ň", "Ň"); ("ŉ", "ʼN"); ("ŋ", "Ŋ");
   ("ō", "Ō"); ("ŏ", "Ŏ"); ("ő", "Ő"); ("œ", "Œ"); ("ŕ", "Ŕ"); ("ŗ", "Ŗ");
   ("ř", "Ř"); ("ś", "Ś"); ("ŝ", "Ŝ"); ("ş", "Ş"); ("š", "Š"); ("ţ", "Ţ");
   ("ť", "Ť"); ("ŧ", "Ŧ"); ("ũ", "Ũ"); ("ū", "Ū"); ("ŭ", "Ŭ"); ("ů", "Ů");
   ("ű", "Ű"); ("ų", "Ų"); ("ŵ", "Ŵ"); ("ŷ", "Ŷ"); ("ź", "Ź"); ("ż", "Ż");
   ("ž", "Ž"); ("ſ", "S"); ("ƀ", "Ƀ"); ("ƃ", "Ƃ"); ("ƅ", "Ƅ"); ("ƈ", "Ƈ");
   ("ƌ", "Ƌ"); ("ƒ", "Ƒ"); ("ƕ", "Ƕ"); ("ƙ", "Ƙ"); ("ƚ", "Ƚ"); ("ƞ", "Ƞ");
   ("ơ", "Ơ"); ("ƣ", "Ƣ"); ("ƥ", "Ƥ"); ("ƨ", "Ƨ"); ("ƭ", "Ƭ"); ("ư", "Ư");
   ("ƴ", "Ƴ"); ("ƶ", "Ƶ"); ("ƹ", "Ƹ"); ("ƽ", "Ƽ"); ("ƿ", "Ƿ"); ("ǅ", "Ǆ");
   ("ǆ", "Ǆ"); ("ǈ", "Ǉ"); ("ǉ", "Ǉ"); ("ǋ", "Ǌ"); ("ǌ", "Ǌ"); ("ǎ", "Ǎ");
   ("ǐ", "Ǐ"); ("ǒ", "Ǒ"); ("ǔ", "Ǔ"); ("ǖ", "Ǖ"); ("ǘ", "Ǘ"); ("ǚ", "Ǚ");
   ("ǜ", "Ǜ"); ("ǝ", "Ǝ"); ("ǟ", "Ǟ"); ("ǡ", "Ǡ"); ("ǣ", "Ǣ"); ("ǥ", "Ǥ");
   ("ǧ", "Ǧ"); ("ǩ", "Ǩ"); ("ǫ", "Ǫ"); ("ǭ", "Ǭ"); ("ǯ", "Ǯ");
   ("ǰ", "J̌"); ("ǲ", "Ǳ"); ("ǳ", "Ǳ"); ("ǵ", "Ǵ"); ("ǹ", "Ǹ");
   ("ǻ", "Ǻ"); ("ǽ", "Ǽ"); ("ǿ", "Ǿ"); ("ȁ", "Ȁ"); ("ȃ", "Ȃ"); ("ȅ", "Ȅ");
   ("ȇ", "Ȇ"); ("ȉ", "Ȉ"); ("ȋ", "Ȋ"); ("ȍ", "Ȍ"); ("ȏ", "Ȏ"); ("ȑ", "Ȑ");
   ("ȓ", "Ȓ"); ("ȕ", "Ȕ"); ("ȗ", "Ȗ"); ("ș", "Ș"); ("ț", "Ț"); ("ȝ", "Ȝ");
   ("ȟ", "Ȟ"); ("ȣ", "Ȣ"); ("ȥ", "Ȥ"); ("ȧ", "Ȧ"); ("ȩ", "Ȩ"); ("ȫ", "Ȫ");
   ("ȭ", "Ȭ"); ("ȯ", "Ȯ"); ("ȱ", "Ȱ"); ("ȳ", "Ȳ"); ("ȼ", "Ȼ");
   ("ȿ", "Ȿ"); ("ɀ", "Ɀ"); ("ɂ", "Ɂ"); ("ɇ", "Ɇ"); ("ɉ", "Ɉ");
   ("ɋ", "Ɋ"); ("ɍ", "Ɍ"); ("ɏ", "Ɏ"); ("ɐ", "Ɐ"); ("ɑ", "Ɑ");
   ("ɒ", "Ɒ"); ("ɓ", "Ɓ"); ("ɔ", "Ɔ"); ("ɖ", "Ɖ"); ("ɗ", "Ɗ");
   ("ə", "Ə"); ("ɛ", "Ɛ"); ("ɜ", "Ɜ"); ("ɠ", "Ɠ"); ("ɡ", "Ɡ");
   ("ɣ", "Ɣ"); ("ɥ", "Ɥ"); ("ɦ", "Ɦ"); ("ɨ", "Ɨ"); ("ɩ", "Ɩ");
   ("ɪ", "Ɪ"); ("ɫ", "Ɫ"); ("ɬ", "Ɬ"); ("ɯ", "Ɯ"); ("ɱ", "Ɱ");
   ("ɲ", "Ɲ"); ("ɵ", "Ɵ"); ("ɽ", "Ɽ"); ("ʀ", "Ʀ"); ("ʂ", "Ʂ");
   ("ʃ", "Ʃ"); ("ʇ", "Ʇ"); ("ʈ", "Ʈ"); ("ʉ", "Ʉ"); ("ʊ", "Ʊ");
   ("ʋ", "Ʋ"); ("ʌ", "Ʌ"); ("ʒ", "Ʒ"); ("ʝ", "Ʝ"); ("ʞ", "Ʞ");
   ("ͅ", "Ι"); ("ͱ", "Ͱ"); ("ͳ", "Ͳ"); ("ͷ", "Ͷ"); ("ͻ", "Ͻ"); ("ͼ", "Ͼ");
   ("ͽ", "Ͽ"); ("ΐ", "Ϊ́"); ("ά", "Ά"); ("έ", "Έ"); ("ή", "Ή");
   ("ί", "Ί"); ("ΰ", "Ϋ́"); ("α", "Α"); ("β", "Β"); ("γ", "Γ");
   ("δ", "Δ"); ("ε", "Ε"); ("ζ", "Ζ"); ("η", "Η"); ("θ", "Θ"); ("ι", "Ι");
   ("κ", "Κ"); ("λ", "Λ"); ("μ", "Μ"); ("ν", "Ν"); ("ξ", "Ξ"); ("ο", "Ο");
   ("π", "Π"); ("ρ", "Ρ"); ("ς", "Σ"); ("σ", "Σ"); ("τ", "Τ"); ("υ", "Υ");
   ("φ", "Φ"); ("χ", "Χ"); ("ψ", "Ψ"); ("ω", "Ω"); ("ϊ", "Ϊ"); ("ϋ", "Ϋ");
   ("ό", "Ό"); ("ύ", "Ύ"); ("ώ", "Ώ"); ("ϐ", "Β"); ("ϑ", "Θ"); ("ϕ", "Φ");
   ("ϖ", "Π"); ("ϗ", "Ϗ"); ("ϙ", "Ϙ"); ("ϛ", "Ϛ"); ("ϝ", "Ϝ"); ("ϟ", "Ϟ");
   ("ϡ", "Ϡ"); ("ϣ", "Ϣ"); ("ϥ", "Ϥ"); ("ϧ", "Ϧ"); ("ϩ", "Ϩ"); ("ϫ", "Ϫ");
   ("ϭ", "Ϭ"); ("ϯ", "Ϯ"); ("ϰ", "Κ"); ("ϱ", "Ρ"); ("ϲ", "Ϲ"); ("ϳ", "Ϳ");
   ("ϵ", "Ε"); ("ϸ", "Ϸ"); ("ϻ", "Ϻ"); ("а", "А"); ("б", "Б"); ("в", "В");
   ("г", "Г"); ("д", "Д"); ("е", "Е"); ("ж", "Ж"); ("з", "З"); ("и", "И");
   ("й", "Й"); ("к", "К"); ("л", "Л"); ("м", "М"); ("н", "Н"); ("о", "О");
   ("п", "П"); ("р", "Р"); ("с", "С"); ("т", "Т"); ("у", "У"); ("ф", "Ф");
   ("х", "Х"); ("ц", "Ц"); ("ч", "Ч"); ("ш", "Ш"); ("щ", "Щ"); ("ъ", "Ъ");
   ("ы", "Ы"); ("ь", "Ь"); ("э", "Э"); ("ю", "Ю"); ("я", "Я"); ("ѐ", "Ѐ");
   ("ё", "Ё"); ("ђ", "Ђ"); ("ѓ", "Ѓ"); ("є", "Є"); ("ѕ", "Ѕ"); ("і", "І");
   ("ї", "Ї"); ("ј", "Ј"); ("љ", "Љ"); ("њ", "Њ"); ("ћ", "Ћ"); ("ќ", "Ќ");
   ("ѝ", "Ѝ"); ("ў", "Ў"); ("џ", "Џ"); ("ѡ", "Ѡ"); ("ѣ", "Ѣ"); ("ѥ", "Ѥ");
   ("ѧ", "Ѧ"); ("ѩ", "Ѩ"); ("ѫ", "Ѫ"); ("ѭ", "Ѭ"); ("ѯ", "Ѯ"); ("ѱ", "Ѱ");
   ("ѳ", "Ѳ"); ("ѵ", "Ѵ"); ("ѷ", "Ѷ"); ("ѹ", "Ѹ"); ("ѻ", "Ѻ"); ("ѽ", "Ѽ");
   ("ѿ", "Ѿ"); ("ҁ", "Ҁ"); ("ҋ", "Ҋ"); ("ҍ", "Ҍ"); ("ҏ", "Ҏ"); ("ґ", "Ґ");
   ("ғ", "Ғ"); ("ҕ", "Ҕ"); ("җ", "Җ"); ("ҙ", "Ҙ"); ("қ", "Қ"); ("ҝ", "Ҝ");
   ("ҟ", "Ҟ"); ("ҡ", "Ҡ"); ("ң", "Ң"); ("ҥ", "Ҥ"); ("ҧ", "Ҧ"); ("ҩ", "Ҩ");
   ("ҫ", "Ҫ"); ("ҭ", "Ҭ"); ("ү", "Ү"); ("ұ", "Ұ"); ("ҳ", "Ҳ"); ("ҵ", "Ҵ");
   ("ҷ", "Ҷ"); ("ҹ", "Ҹ"); ("һ", "Һ"); ("ҽ", "Ҽ"); ("ҿ", "Ҿ"); ("ӂ", "Ӂ");
   ("ӄ", "Ӄ"); ("ӆ", "Ӆ"); ("ӈ", "Ӈ"); ("ӊ", "Ӊ"); ("ӌ", "Ӌ"); ("ӎ", "Ӎ");
   ("ӏ", "Ӏ"); ("ӑ", "Ӑ"); ("ӓ", "Ӓ"); ("ӕ", "Ӕ"); ("ӗ", "Ӗ"); ("ә", "Ә");
   ("ӛ", "Ӛ"); ("ӝ", "Ӝ"); ("ӟ", "Ӟ"); ("ӡ", "Ӡ"); ("ӣ", "Ӣ"); ("ӥ", "Ӥ");
   ("ӧ", "Ӧ"); ("ө", "Ө"); ("ӫ", "Ӫ"); ("ӭ", "Ӭ"); ("ӯ", "Ӯ"); ("ӱ", "Ӱ");
   ("ӳ", "Ӳ"); ("ӵ", "Ӵ"); ("ӷ", "Ӷ"); ("ӹ", "Ӹ"); ("ӻ", "Ӻ"); ("ӽ", "Ӽ");
   ("ӿ", "Ӿ"); ("ԁ", "Ԁ"); ("ԃ", "Ԃ"); ("ԅ", "Ԅ"); ("ԇ", "Ԇ"); ("ԉ", "Ԉ");
   ("ԋ", "Ԋ"); ("ԍ", "Ԍ"); ("ԏ", "Ԏ"); ("ԑ", "Ԑ"); ("ԓ", "Ԓ"); ("ԕ", "Ԕ");
   ("ԗ", "Ԗ"); ("ԙ", "Ԙ"); ("ԛ", "Ԛ"); ("ԝ", "Ԝ"); ("ԟ", "Ԟ"); ("ԡ", "Ԡ");
   ("ԣ", "Ԣ"); ("ԥ", "Ԥ"); ("ԧ", "Ԧ"); ("ԩ", "Ԩ"); ("ԫ", "Ԫ"); ("ԭ", "Ԭ");
   ("ԯ", "Ԯ"); ("ա", "Ա"); ("բ", "Բ"); ("գ", "Գ"); ("դ", "Դ"); ("ե", "Ե");
   ("զ", "Զ"); ("է", "Է"); ("ը", "Ը"); ("թ", "Թ"); ("ժ", "Ժ"); ("ի", "Ի");
   ("լ", "Լ"); ("խ", "Խ"); ("ծ", "Ծ"); ("կ", "Կ"); ("հ", "Հ"); ("ձ", "Ձ");
   ("ղ", "Ղ"); ("ճ", "Ճ"); ("մ", "Մ"); ("յ", "Յ"); ("ն", "Ն"); ("շ", "Շ");
   ("ո", "Ո"); ("չ", "Չ"); ("պ", "Պ"); ("ջ", "Ջ"); ("ռ", "Ռ"); ("ս", "Ս");
   ("վ", "Վ"); ("տ", "Տ"); ("ր", "Ր"); ("ց", "Ց"); ("ւ", "Ւ"); ("փ", "Փ");
   ("ք", "Ք"); ("օ", "Օ"); ("ֆ", "Ֆ"); ("և", "ԵՒ"); ("ა", "Ა");
   ("ბ", "Ბ"); ("გ", "Გ"); ("დ", "Დ"); ("ე", "Ე"); ("ვ", "Ვ");
   ("ზ", "Ზ"); ("თ", "Თ"); ("ი", "Ი"); ("კ", "Კ"); ("ლ", "Ლ");
   ("მ", "Მ"); ("ნ", "Ნ"); ("ო", "Ო"); ("პ", "Პ"); ("ჟ", "Ჟ");
   ("რ", "Რ"); ("ს", "Ს"); ("ტ", "Ტ"); ("უ", "Უ"); ("ფ", "Ფ");
   ("ქ", "Ქ"); ("ღ", "Ღ"); ("ყ", "Ყ"); ("შ", "Შ"); ("ჩ", "Ჩ");
   ("ც", "Ც"); ("ძ", "Ძ"); ("წ", "Წ"); ("ჭ", "Ჭ"); ("ხ", "Ხ");
   ("ჯ", "Ჯ"); ("ჰ", "Ჰ"); ("ჱ", "Ჱ"); ("ჲ", "Ჲ"); ("ჳ", "Ჳ");
   ("ჴ", "Ჴ"); ("ჵ", "Ჵ"); ("ჶ", "Ჶ"); ("ჷ", "Ჷ"); ("ჸ", "Ჸ");
   ("ჹ", "Ჹ"); ("ჺ", "Ჺ"); ("ჽ", "Ჽ"); ("ჾ", "Ჾ"); ("ჿ", "Ჿ");
   ("ᏸ", "Ᏸ"); ("ᏹ", "Ᏹ"); ("ᏺ", "Ᏺ"); ("ᏻ", "Ᏻ"); ("ᏼ", "Ᏼ");
   ("ᏽ", "Ᏽ"); ("ᲀ", "В"); ("ᲁ", "Д"); ("ᲂ", "О"); ("ᲃ", "С");
   ("ᲄ", "Т"); ("ᲅ", "Т"); ("ᲆ", "Ъ"); ("ᲇ", "Ѣ"); ("ᲈ", "Ꙋ");
   ("ᵹ", "Ᵹ"); ("ᵽ", "Ᵽ"); ("ᶎ", "Ᶎ"); ("ḁ", "Ḁ"); ("ḃ", "Ḃ");
   ("ḅ", "Ḅ"); ("ḇ", "Ḇ"); ("ḉ", "Ḉ"); ("ḋ", "Ḋ"); ("ḍ", "Ḍ");
   ("ḏ", "Ḏ"); ("ḑ", "Ḑ"); ("ḓ", "Ḓ"); ("ḕ", "Ḕ"); ("ḗ", "Ḗ");
   ("ḙ", "Ḙ"); ("ḛ", "Ḛ"); ("ḝ", "Ḝ"); ("ḟ", "Ḟ"); ("ḡ", "Ḡ");
   ("ḣ", "Ḣ"); ("ḥ", "Ḥ"); ("ḧ", "Ḧ"); ("ḩ", "Ḩ"); ("ḫ", "Ḫ");
   ("ḭ", "Ḭ"); ("ḯ", "Ḯ"); ("ḱ", "Ḱ"); ("ḳ", "Ḳ"); ("ḵ", "Ḵ");
   ("ḷ", "Ḷ"); ("ḹ", "Ḹ"); ("ḻ", "Ḻ"); ("ḽ", "Ḽ"); ("ḿ", "Ḿ");
   ("ṁ", "Ṁ"); ("ṃ", "Ṃ"); ("ṅ", "Ṅ"); ("ṇ", "Ṇ"); ("ṉ", "Ṉ");
   ("ṋ", "Ṋ"); ("ṍ", "Ṍ"); ("ṏ", "Ṏ"); ("ṑ", "Ṑ"); ("ṓ", "Ṓ");
   ("ṕ", "Ṕ"); ("ṗ", "Ṗ"); ("ṙ", "Ṙ"); ("ṛ", "Ṛ"); ("ṝ", "Ṝ");
   ("ṟ", "Ṟ"); ("ṡ", "Ṡ"); ("ṣ", "Ṣ"); ("ṥ", "Ṥ"); ("ṧ", "Ṧ");
   ("ṩ", "Ṩ"); ("ṫ", "Ṫ"); ("ṭ", "Ṭ"); ("ṯ", "Ṯ"); ("ṱ", "Ṱ");
   ("ṳ", "Ṳ"); ("ṵ", "Ṵ"); ("ṷ", "Ṷ"); ("ṹ", "Ṹ"); ("ṻ", "Ṻ");
   ("ṽ", "Ṽ"); ("ṿ", "Ṿ"); ("ẁ", "Ẁ"); ("ẃ", "Ẃ"); ("ẅ", "Ẅ");
   ("ẇ", "Ẇ"); ("ẉ", "Ẉ"); ("ẋ", "Ẋ"); ("ẍ", "Ẍ"); ("ẏ", "Ẏ");
   ("ẑ", "Ẑ"); ("ẓ", "Ẓ"); ("ẕ", "Ẕ"); ("ẖ", "H̱"); ("ẗ", "T̈");
   ("ẘ", "W̊"); ("ẙ", "Y̊"); ("ẚ", "Aʾ"); ("ẛ", "Ṡ"); ("ạ", "Ạ");
   ("ả", "Ả"); ("ấ", "Ấ"); ("ầ", "Ầ"); ("ẩ", "Ẩ"); ("ẫ", "Ẫ");
   ("ậ", "Ậ"); ("ắ", "Ắ"); ("ằ", "Ằ"); ("ẳ", "Ẳ"); ("ẵ", "Ẵ");
   ("ặ", "Ặ"); ("ẹ", "Ẹ"); ("ẻ", "Ẻ"); ("ẽ", "Ẽ"); ("ế", "Ế");
   ("ề", "Ề"); ("ể", "Ể"); ("ễ", "Ễ"); ("ệ", "Ệ"); ("ỉ", "Ỉ");
   ("ị", "Ị"); ("ọ", "Ọ"); ("ỏ", "Ỏ"); ("ố", "Ố"); ("ồ", "Ồ");
   ("ổ", "Ổ"); ("ỗ", "Ỗ"); ("ộ", "Ộ"); ("ớ", "Ớ"); ("ờ", "Ờ");
   ("ở", "Ở"); ("ỡ", "Ỡ"); ("ợ", "Ợ"); ("ụ", "Ụ"); ("ủ", "Ủ");
   ("ứ", "Ứ"); ("ừ", "Ừ"); ("ử", "Ử"); ("ữ", "Ữ"); ("ự", "Ự");
   ("ỳ", "Ỳ"); ("ỵ", "Ỵ"); ("ỷ", "Ỷ"); ("ỹ", "Ỹ"); ("ỻ", "Ỻ");
   ("ỽ", "Ỽ"); ("ỿ", "Ỿ"); ("ἀ", "Ἀ"); ("ἁ", "Ἁ"); ("ἂ", "Ἂ");
   ("ἃ", "Ἃ"); ("ἄ", "Ἄ"); ("ἅ", "Ἅ"); ("ἆ", "Ἆ"); ("ἇ", "Ἇ");
   ("ἐ", "Ἐ"); ("ἑ", "Ἑ"); ("ἒ", "Ἒ"); ("ἓ", "Ἓ"); ("ἔ", "Ἔ");
   ("ἕ", "Ἕ"); ("ἠ", "Ἠ"); ("ἡ", "Ἡ"); ("ἢ", "Ἢ"); ("ἣ", "Ἣ");
   ("ἤ", "Ἤ"); ("ἥ", "Ἥ"); ("ἦ", "Ἦ"); ("ἧ", "Ἧ"); ("ἰ", "Ἰ");
   ("ἱ", "Ἱ"); ("ἲ", "Ἲ"); ("ἳ", "Ἳ"); ("ἴ", "Ἴ"); ("ἵ", "Ἵ");
   ("ἶ", "Ἶ"); ("ἷ", "Ἷ"); ("ὀ", "Ὀ"); ("ὁ", "Ὁ"); ("ὂ", "Ὂ");
   ("ὃ", "Ὃ"); ("ὄ", "Ὄ"); ("ὅ", "Ὅ"); ("ὐ", "Υ̓"); ("ὑ", "Ὑ");
   ("ὒ", "Υ̓̀"); ("ὓ", "Ὓ"); ("ὔ", "Υ̓́"); ("ὕ", "Ὕ");
   ("ὖ", "Υ̓͂"); ("ὗ", "Ὗ"); ("ὠ", "Ὠ"); ("ὡ", "Ὡ"); ("ὢ", "Ὢ");
   ("ὣ", "Ὣ"); ("ὤ", "Ὤ"); ("ὥ", "Ὥ"); ("ὦ", "Ὦ"); ("ὧ", "Ὧ");
   ("ὰ", "Ὰ"); ("ά", "Ά"); ("ὲ", "Ὲ"); ("έ", "Έ"); ("ὴ", "Ὴ");
   ("ή", "Ή"); ("ὶ", "Ὶ"); ("ί", "Ί"); ("ὸ", "Ὸ"); ("ό", "Ό");
   ("ὺ", "Ὺ"); ("ύ", "Ύ"); ("ὼ", "Ὼ"); ("ώ", "Ώ"); ("ᾀ", "ἈΙ");
   ("ᾁ", "ἉΙ"); ("ᾂ", "ἊΙ"); ("ᾃ", "ἋΙ"); ("ᾄ", "ἌΙ");
   ("ᾅ", "ἍΙ"); ("ᾆ", "ἎΙ"); ("ᾇ", "ἏΙ"); ("ᾈ", "ἈΙ");
   ("ᾉ", "ἉΙ"); ("ᾊ", "ἊΙ"); ("ᾋ", "ἋΙ"); ("ᾌ", "ἌΙ");
   ("ᾍ", "ἍΙ"); ("ᾎ", "ἎΙ"); ("ᾏ", "ἏΙ"); ("ᾐ", "ἨΙ");
   ("ᾑ", "ἩΙ"); ("ᾒ", "ἪΙ"); ("ᾓ", "ἫΙ"); ("ᾔ", "ἬΙ");
   ("ᾕ", "ἭΙ"); ("ᾖ", "ἮΙ"); ("ᾗ", "ἯΙ"); ("ᾘ", "ἨΙ");
   ("ᾙ", "ἩΙ"); ("ᾚ", "ἪΙ"); ("ᾛ", "ἫΙ"); ("ᾜ", "ἬΙ");
   ("ᾝ", "ἭΙ"); ("ᾞ", "ἮΙ"); ("ᾟ", "ἯΙ"); ("ᾠ", "ὨΙ");
   ("ᾡ", "ὩΙ"); ("ᾢ", "ὪΙ"); ("ᾣ", "ὫΙ"); ("ᾤ", "ὬΙ");
   ("ᾥ", "ὭΙ"); ("ᾦ", "ὮΙ"); ("ᾧ", "ὯΙ"); ("ᾨ", "ὨΙ");
   ("ᾩ", "ὩΙ"); ("ᾪ", "ὪΙ"); ("ᾫ", "ὫΙ"); ("ᾬ", "ὬΙ");
   ("ᾭ", "ὭΙ"); ("ᾮ", "ὮΙ"); ("ᾯ", "ὯΙ"); ("ᾰ", "Ᾰ");
   ("ᾱ", "Ᾱ"); ("ᾲ", "ᾺΙ"); ("ᾳ", "ΑΙ"); ("ᾴ", "ΆΙ");
   ("ᾶ", "Α͂"); ("ᾷ", "Α͂Ι"); ("ᾼ", "ΑΙ"); ("ι", "Ι");
   ("ῂ", "ῊΙ"); ("ῃ", "ΗΙ"); ("ῄ", "ΉΙ"); ("ῆ", "Η͂");
   ("ῇ", "Η͂Ι"); ("ῌ", "ΗΙ"); ("ῐ", "Ῐ"); ("ῑ", "Ῑ");
   ("ῒ", "Ϊ̀"); ("ΐ", "Ϊ́"); ("ῖ", "Ι͂"); ("ῗ", "Ϊ͂");
   ("ῠ", "Ῠ"); ("ῡ", "Ῡ"); ("ῢ", "Ϋ̀"); ("ΰ", "Ϋ́");
   ("ῤ", "Ρ̓"); ("ῥ", "Ῥ"); ("ῦ", "Υ͂"); ("ῧ", "Ϋ͂");
   ("ῲ", "ῺΙ"); ("ῳ", "ΩΙ"); ("ῴ", "ΏΙ"); ("ῶ", "Ω͂");
   ("ῷ", "Ω͂Ι"); ("ῼ", "ΩΙ"); ("ⅎ", "Ⅎ"); ("ⅰ", "Ⅰ"); ("ⅱ", "Ⅱ");
   ("ⅲ", "Ⅲ"); ("ⅳ", "Ⅳ"); ("ⅴ", "Ⅴ"); ("ⅵ", "Ⅵ"); ("ⅶ", "Ⅶ");
   ("ⅷ", "Ⅷ"); ("ⅸ", "Ⅸ"); ("ⅹ", "Ⅹ"); ("ⅺ", "Ⅺ"); ("ⅻ", "Ⅻ");
   ("ⅼ", "Ⅼ"); ("ⅽ", "Ⅽ"); ("ⅾ", "Ⅾ"); ("ⅿ", "Ⅿ"); ("ↄ", "Ↄ");
   ("ⓐ", "Ⓐ"); ("ⓑ", "Ⓑ"); ("ⓒ", "Ⓒ"); ("ⓓ", "Ⓓ"); ("ⓔ", "Ⓔ");
   ("ⓕ", "Ⓕ"); ("ⓖ", "Ⓖ"); ("ⓗ", "Ⓗ"); ("ⓘ", "Ⓘ"); ("ⓙ", "Ⓙ");
   ("ⓚ", "Ⓚ"); ("ⓛ", "Ⓛ"); ("ⓜ", "Ⓜ"); ("ⓝ", "Ⓝ"); ("ⓞ", "Ⓞ");
   ("ⓟ", "Ⓟ"); ("ⓠ", "Ⓠ"); ("ⓡ", "Ⓡ"); ("ⓢ", "Ⓢ"); ("ⓣ", "Ⓣ");
   ("ⓤ", "Ⓤ"); ("ⓥ", "Ⓥ"); ("ⓦ", "Ⓦ"); ("ⓧ", "Ⓧ"); ("ⓨ", "Ⓨ");
   ("ⓩ", "Ⓩ"); ("ⰰ", "Ⰰ"); ("ⰱ", "Ⰱ"); ("ⰲ", "Ⰲ"); ("ⰳ", "Ⰳ");
   ("ⰴ", "Ⰴ"); ("ⰵ", "Ⰵ"); ("ⰶ", "Ⰶ"); ("ⰷ", "Ⰷ"); ("ⰸ", "Ⰸ");
   ("ⰹ", "Ⰹ"); ("ⰺ", "Ⰺ"); ("ⰻ", "Ⰻ"); ("ⰼ", "Ⰼ"); ("ⰽ", "Ⰽ");
   ("ⰾ", "Ⰾ"); ("ⰿ", "Ⰿ"); ("ⱀ", "Ⱀ"); ("ⱁ", "Ⱁ"); ("ⱂ", "Ⱂ");
   ("ⱃ", "Ⱃ"); ("ⱄ", "Ⱄ"); ("ⱅ", "Ⱅ"); ("ⱆ", "Ⱆ"); ("ⱇ", "Ⱇ");
   ("ⱈ", "Ⱈ"); ("ⱉ", "Ⱉ"); ("ⱊ", "Ⱊ"); ("ⱋ", "Ⱋ"); ("ⱌ", "Ⱌ");
   ("ⱍ", "Ⱍ"); ("ⱎ", "Ⱎ"); ("ⱏ", "Ⱏ"); ("ⱐ", "Ⱐ"); ("ⱑ", "Ⱑ");
   ("ⱒ", "Ⱒ"); ("ⱓ", "Ⱓ"); ("ⱔ", "Ⱔ"); ("ⱕ", "Ⱕ"); ("ⱖ", "Ⱖ");
   ("ⱗ", "Ⱗ"); ("ⱘ", "Ⱘ"); ("ⱙ", "Ⱙ"); ("ⱚ", "Ⱚ"); ("ⱛ", "Ⱛ");
   ("ⱜ", "Ⱜ"); ("ⱝ", "Ⱝ"); ("ⱞ", "Ⱞ"); ("ⱟ", "Ⱟ"); ("ⱡ", "Ⱡ");
   ("ⱥ", "Ⱥ"); ("ⱦ", "Ⱦ"); ("ⱨ", "Ⱨ"); ("ⱪ", "Ⱪ"); ("ⱬ", "Ⱬ");
   ("ⱳ", "Ⱳ"); ("ⱶ", "Ⱶ"); ("ⲁ", "Ⲁ"); ("ⲃ", "Ⲃ"); ("ⲅ", "Ⲅ");
   ("ⲇ", "Ⲇ"); ("ⲉ", "Ⲉ"); ("ⲋ", "Ⲋ"); ("ⲍ", "Ⲍ"); ("ⲏ", "Ⲏ");
   ("ⲑ", "Ⲑ"); ("ⲓ", "Ⲓ"); ("ⲕ", "Ⲕ"); ("ⲗ", "Ⲗ"); ("ⲙ", "Ⲙ");
   ("ⲛ", "Ⲛ"); ("ⲝ", "Ⲝ"); ("ⲟ", "Ⲟ"); ("ⲡ", "Ⲡ"); ("ⲣ", "Ⲣ");
   ("ⲥ", "Ⲥ"); ("ⲧ", "Ⲧ"); ("ⲩ", "Ⲩ"); ("ⲫ", "Ⲫ"); ("ⲭ", "Ⲭ");
   ("ⲯ", "Ⲯ"); ("ⲱ", "Ⲱ"); ("ⲳ", "Ⲳ"); ("ⲵ", "Ⲵ"); ("ⲷ", "Ⲷ");
   ("ⲹ", "Ⲹ"); ("ⲻ", "Ⲻ"); ("ⲽ", "Ⲽ"); ("ⲿ", "Ⲿ"); ("ⳁ", "Ⳁ");
   ("ⳃ", "Ⳃ"); ("ⳅ", "Ⳅ"); ("ⳇ", "Ⳇ"); ("ⳉ", "Ⳉ"); ("ⳋ", "Ⳋ");
   ("ⳍ", "Ⳍ"); ("ⳏ", "Ⳏ"); ("ⳑ", "Ⳑ"); ("ⳓ", "Ⳓ"); ("ⳕ", "Ⳕ");
   ("ⳗ", "Ⳗ"); ("ⳙ", "Ⳙ"); ("ⳛ", "Ⳛ"); ("ⳝ", "Ⳝ"); ("ⳟ", "Ⳟ");
   ("ⳡ", "Ⳡ"); ("ⳣ", "Ⳣ"); ("ⳬ", "Ⳬ"); ("ⳮ", "Ⳮ"); ("ⳳ", "Ⳳ");
   ("ⴀ", "Ⴀ"); ("ⴁ", "Ⴁ"); ("ⴂ", "Ⴂ"); ("ⴃ", "Ⴃ"); ("ⴄ", "Ⴄ");
   ("ⴅ", "Ⴅ"); ("ⴆ", "Ⴆ"); ("ⴇ", "Ⴇ"); ("ⴈ", "Ⴈ"); ("ⴉ", "Ⴉ");
   ("ⴊ", "Ⴊ"); ("ⴋ", "Ⴋ"); ("ⴌ", "Ⴌ"); ("ⴍ", "Ⴍ"); ("ⴎ", "Ⴎ");
   ("ⴏ", "Ⴏ"); ("ⴐ", "Ⴐ"); ("ⴑ", "Ⴑ"); ("ⴒ", "Ⴒ"); ("ⴓ", "Ⴓ");
   ("ⴔ", "Ⴔ"); ("ⴕ", "Ⴕ"); ("ⴖ", "Ⴖ"); ("ⴗ", "Ⴗ"); ("ⴘ", "Ⴘ");
   ("ⴙ", "Ⴙ"); ("ⴚ", "Ⴚ"); ("ⴛ", "Ⴛ"); ("ⴜ", "Ⴜ"); ("ⴝ", "Ⴝ");
   ("ⴞ", "Ⴞ"); ("ⴟ", "Ⴟ"); ("ⴠ", "Ⴠ"); ("ⴡ", "Ⴡ"); ("ⴢ", "Ⴢ");
   ("ⴣ", "Ⴣ"); ("ⴤ", "Ⴤ"); ("ⴥ", "Ⴥ"); ("ⴧ", "Ⴧ"); ("ⴭ", "Ⴭ");
   ("ꙁ", "Ꙁ"); ("ꙃ", "Ꙃ"); ("ꙅ", "Ꙅ"); ("ꙇ", "Ꙇ"); ("ꙉ", "Ꙉ");
   ("ꙋ", "Ꙋ"); ("ꙍ", "Ꙍ"); ("ꙏ", "Ꙏ"); ("ꙑ", "Ꙑ"); ("ꙓ", "Ꙓ");
   ("ꙕ", "Ꙕ"); ("ꙗ", "Ꙗ"); ("ꙙ", "Ꙙ"); ("ꙛ", "Ꙛ"); ("ꙝ", "Ꙝ");
   ("ꙟ", "Ꙟ"); ("ꙡ", "Ꙡ"); ("ꙣ", "Ꙣ"); ("ꙥ", "Ꙥ"); ("ꙧ", "Ꙧ");
   ("ꙩ", "Ꙩ"); ("ꙫ", "Ꙫ"); ("ꙭ", "Ꙭ"); ("ꚁ", "Ꚁ"); ("ꚃ", "Ꚃ");
   ("ꚅ", "Ꚅ"); ("ꚇ", "Ꚇ"); ("ꚉ", "Ꚉ"); ("ꚋ", "Ꚋ"); ("ꚍ", "Ꚍ");
   ("ꚏ", "Ꚏ"); ("ꚑ", "Ꚑ"); ("ꚓ", "Ꚓ"); ("ꚕ", "Ꚕ"); ("ꚗ", "Ꚗ");
   ("ꚙ", "Ꚙ"); ("ꚛ", "Ꚛ"); ("ꜣ", "Ꜣ"); ("ꜥ", "Ꜥ"); ("ꜧ", "Ꜧ");
   ("ꜩ", "Ꜩ"); ("ꜫ", "Ꜫ"); ("ꜭ", "Ꜭ"); ("ꜯ", "Ꜯ"); ("ꜳ", "Ꜳ");
   ("ꜵ", "Ꜵ"); ("ꜷ", "Ꜷ"); ("ꜹ", "Ꜹ"); ("ꜻ", "Ꜻ"); ("ꜽ", "Ꜽ");
   ("ꜿ", "Ꜿ"); ("ꝁ", "Ꝁ"); ("ꝃ", "Ꝃ"); ("ꝅ", "Ꝅ"); ("ꝇ", "Ꝇ");
   ("ꝉ", "Ꝉ"); ("ꝋ", "Ꝋ"); ("ꝍ", "Ꝍ"); ("ꝏ", "Ꝏ"); ("ꝑ", "Ꝑ");
   ("ꝓ", "Ꝓ"); ("ꝕ", "Ꝕ"); ("ꝗ", "Ꝗ"); ("ꝙ", "Ꝙ"); ("ꝛ", "Ꝛ");
   ("ꝝ", "Ꝝ"); ("ꝟ", "Ꝟ"); ("ꝡ", "Ꝡ"); ("ꝣ", "Ꝣ"); ("ꝥ", "Ꝥ");
   ("ꝧ", "Ꝧ"); ("ꝩ", "Ꝩ"); ("ꝫ", "Ꝫ"); ("ꝭ", "Ꝭ"); ("ꝯ", "Ꝯ");
   ("ꝺ", "Ꝺ"); ("ꝼ", "Ꝼ"); ("ꝿ", "Ꝿ"); ("ꞁ", "Ꞁ"); ("ꞃ", "Ꞃ");
   ("ꞅ", "Ꞅ"); ("ꞇ", "Ꞇ"); ("ꞌ", "Ꞌ"); ("ꞑ", "Ꞑ"); ("ꞓ", "Ꞓ");
   ("ꞔ", "Ꞔ"); ("ꞗ", "Ꞗ"); ("ꞙ", "Ꞙ"); ("ꞛ", "Ꞛ"); ("ꞝ", "Ꞝ");
   ("ꞟ", "Ꞟ"); ("ꞡ", "Ꞡ"); ("ꞣ", "Ꞣ"); ("ꞥ", "Ꞥ"); ("ꞧ", "Ꞧ");
   ("ꞩ", "Ꞩ"); ("ꞵ", "Ꞵ"); ("ꞷ", "Ꞷ"); ("ꞹ", "Ꞹ"); ("ꞻ", "Ꞻ");
   ("ꞽ", "Ꞽ"); ("ꞿ", "Ꞿ"); ("ꟁ", "Ꟁ"); ("ꟃ", "Ꟃ"); ("ꟈ", "Ꟈ");
   ("ꟊ", "Ꟊ"); ("ꟑ", "Ꟑ"); ("ꟗ", "Ꟗ"); ("ꟙ", "Ꟙ"); ("ꟶ", "Ꟶ");
   ("ꭓ", "Ꭓ"); ("ꭰ", "Ꭰ"); ("ꭱ", "Ꭱ"); ("ꭲ", "Ꭲ"); ("ꭳ", "Ꭳ");
   ("ꭴ", "Ꭴ"); ("ꭵ", "Ꭵ"); ("ꭶ", "Ꭶ"); ("ꭷ", "Ꭷ"); ("ꭸ", "Ꭸ");
   ("ꭹ", "Ꭹ"); ("ꭺ", "Ꭺ"); ("ꭻ", "Ꭻ"); ("ꭼ", "Ꭼ"); ("ꭽ", "Ꭽ");
   ("ꭾ", "Ꭾ"); ("ꭿ", "Ꭿ"); ("ꮀ", "Ꮀ"); ("ꮁ", "Ꮁ"); ("ꮂ", "Ꮂ");
   ("ꮃ", "Ꮃ"); ("ꮄ", "Ꮄ"); ("ꮅ", "Ꮅ"); ("ꮆ", "Ꮆ"); ("ꮇ", "Ꮇ");
   ("ꮈ", "Ꮈ"); ("ꮉ", "Ꮉ"); ("ꮊ", "Ꮊ"); ("ꮋ", "Ꮋ"); ("ꮌ", "Ꮌ");
   ("ꮍ", "Ꮍ"); ("ꮎ", "Ꮎ"); ("ꮏ", "Ꮏ"); ("ꮐ", "Ꮐ"); ("ꮑ", "Ꮑ");
   ("ꮒ", "Ꮒ"); ("ꮓ", "Ꮓ"); ("ꮔ", "Ꮔ"); ("ꮕ", "Ꮕ"); ("ꮖ", "Ꮖ");
   ("ꮗ", "Ꮗ"); ("ꮘ", "Ꮘ"); ("ꮙ", "Ꮙ"); ("ꮚ", "Ꮚ"); ("ꮛ", "Ꮛ");
   ("ꮜ", "Ꮜ"); ("ꮝ", "Ꮝ"); ("ꮞ", "Ꮞ"); ("ꮟ", "Ꮟ"); ("ꮠ", "Ꮠ");
   ("ꮡ", "Ꮡ"); ("ꮢ", "Ꮢ"); ("ꮣ", "Ꮣ"); ("ꮤ", "Ꮤ"); ("ꮥ", "Ꮥ");
   ("ꮦ", "Ꮦ"); ("ꮧ", "Ꮧ"); ("ꮨ", "Ꮨ"); ("ꮩ", "Ꮩ"); ("ꮪ", "Ꮪ");
   ("ꮫ", "Ꮫ"); ("ꮬ", "Ꮬ"); ("ꮭ", "Ꮭ"); ("ꮮ", "Ꮮ"); ("ꮯ", "Ꮯ");
   ("ꮰ", "Ꮰ"); ("ꮱ", "Ꮱ"); ("ꮲ", "Ꮲ"); ("ꮳ", "Ꮳ"); ("ꮴ", "Ꮴ");
   ("ꮵ", "Ꮵ"); ("ꮶ", "Ꮶ"); ("ꮷ", "Ꮷ"); ("ꮸ", "Ꮸ"); ("ꮹ", "Ꮹ");
   ("ꮺ", "Ꮺ"); ("ꮻ", "Ꮻ"); ("ꮼ", "Ꮼ"); ("ꮽ", "Ꮽ"); ("ꮾ", "Ꮾ");
   ("ꮿ", "Ꮿ"); ("ﬀ", "FF"); ("ﬁ", "FI"); ("ﬂ", "FL"); ("ﬃ", "FFI");
   ("ﬄ", "FFL"); ("ﬅ", "ST"); ("ﬆ", "ST"); ("ﬓ", "ՄՆ"); ("ﬔ", "ՄԵ");
   ("ﬕ", "ՄԻ"); ("ﬖ", "ՎՆ"); ("ﬗ", "ՄԽ"); ("ａ", "Ａ"); ("ｂ", "Ｂ");
   ("ｃ", "Ｃ"); ("ｄ", "Ｄ"); ("ｅ", "Ｅ"); ("ｆ", "Ｆ"); ("ｇ", "Ｇ");
   ("ｈ", "Ｈ"); ("ｉ", "Ｉ"); ("ｊ", "Ｊ"); ("ｋ", "Ｋ"); ("ｌ", "Ｌ");
   ("ｍ", "Ｍ"); ("ｎ", "Ｎ"); ("ｏ", "Ｏ"); ("ｐ", "Ｐ"); ("ｑ", "Ｑ");
   ("ｒ", "Ｒ"); ("ｓ", "Ｓ"); ("ｔ", "Ｔ"); ("ｕ", "Ｕ"); ("ｖ", "Ｖ");
   ("ｗ", "Ｗ"); ("ｘ", "Ｘ"); ("ｙ", "Ｙ"); ("ｚ", "Ｚ"); ("𐐨", "𐐀");
   ("𐐩", "𐐁"); ("𐐪", "𐐂"); ("𐐫", "𐐃"); ("𐐬", "𐐄");
   ("𐐭", "𐐅"); ("𐐮", "𐐆"); ("𐐯", "𐐇"); ("𐐰", "𐐈");
   ("𐐱", "𐐉"); ("𐐲", "𐐊"); ("𐐳", "𐐋"); ("𐐴", "𐐌");
   ("𐐵", "𐐍"); ("𐐶", "𐐎"); ("𐐷", "𐐏"); ("𐐸", "𐐐");
   ("𐐹", "𐐑"); ("𐐺", "𐐒"); ("𐐻", "𐐓"); ("𐐼", "𐐔");
   ("𐐽", "𐐕"); ("𐐾", "𐐖"); ("𐐿", "𐐗"); ("𐑀", "𐐘");
   ("𐑁", "𐐙"); ("𐑂", "𐐚"); ("𐑃", "𐐛"); ("𐑄", "𐐜");
   ("𐑅", "𐐝"); ("𐑆", "𐐞"); ("𐑇", "𐐟"); ("𐑈", "𐐠");
   ("𐑉", "𐐡"); ("𐑊", "𐐢"); ("𐑋", "𐐣"); ("𐑌", "𐐤");
   ("𐑍", "𐐥"); ("𐑎", "𐐦"); ("𐑏", "𐐧"); ("𐓘", "𐒰");
   ("𐓙", "𐒱"); ("𐓚", "𐒲"); ("𐓛", "𐒳"); ("𐓜", "𐒴");
   ("𐓝", "𐒵"); ("𐓞", "𐒶"); ("𐓟", "𐒷"); ("𐓠", "𐒸");
   ("𐓡", "𐒹"); ("𐓢", "𐒺"); ("𐓣", "𐒻"); ("𐓤", "𐒼");
   ("𐓥", "𐒽"); ("𐓦", "𐒾"); ("𐓧", "𐒿"); ("𐓨", "𐓀");
   ("𐓩", "𐓁"); ("𐓪", "𐓂"); ("𐓫", "𐓃"); ("𐓬", "𐓄");
   ("𐓭", "𐓅"); ("𐓮", "𐓆"); ("𐓯", "𐓇"); ("𐓰", "𐓈");
   ("𐓱", "𐓉"); ("𐓲", "𐓊"); ("𐓳", "𐓋"); ("𐓴", "𐓌");
   ("𐓵", "𐓍"); ("𐓶", "𐓎"); ("𐓷", "𐓏"); ("𐓸", "𐓐");
   ("𐓹", "𐓑"); ("𐓺", "𐓒"); ("𐓻", "𐓓"); ("𐖗", "𐕰");
   ("𐖘", "𐕱"); ("𐖙", "𐕲"); ("𐖚", "𐕳"); ("𐖛", "𐕴");
   ("𐖜", "𐕵"); ("𐖝", "𐕶"); ("𐖞", "𐕷"); ("𐖟", "𐕸");
   ("𐖠", "𐕹"); ("𐖡", "𐕺"); ("𐖣", "𐕼"); ("𐖤", "𐕽");
   ("𐖥", "𐕾"); ("𐖦", "𐕿"); ("𐖧", "𐖀"); ("𐖨", "𐖁");
   ("𐖩", "𐖂"); ("𐖪", "𐖃"); ("𐖫", "𐖄"); ("𐖬", "𐖅");
   ("𐖭", "𐖆"); ("𐖮", "𐖇"); ("𐖯", "𐖈"); ("𐖰", "𐖉");
   ("𐖱", "𐖊"); ("𐖳", "𐖌"); ("𐖴", "𐖍"); ("𐖵", "𐖎");
   ("𐖶", "𐖏"); ("𐖷", "𐖐"); ("𐖸", "𐖑"); ("𐖹", "𐖒");
   ("𐖻", "𐖔"); ("𐖼", "𐖕"); ("𐳀", "𐲀"); ("𐳁", "𐲁");
   ("𐳂", "𐲂"); ("𐳃", "𐲃"); ("𐳄", "𐲄"); ("𐳅", "𐲅");
   ("𐳆", "𐲆"); ("𐳇", "𐲇"); ("𐳈", "𐲈"); ("𐳉", "𐲉");
   ("𐳊", "𐲊"); ("𐳋", "𐲋"); ("𐳌", "𐲌"); ("𐳍", "𐲍");
   ("𐳎", "𐲎"); ("𐳏", "𐲏"); ("𐳐", "𐲐"); ("𐳑", "𐲑");
   ("𐳒", "𐲒"); ("𐳓", "𐲓"); ("𐳔", "𐲔"); ("𐳕", "𐲕");
   ("𐳖", "𐲖"); ("𐳗", "𐲗"); ("𐳘", "𐲘"); ("𐳙", "𐲙");
   ("𐳚", "𐲚"); ("𐳛", "𐲛"); ("𐳜", "𐲜"); ("𐳝", "𐲝");
   ("𐳞", "𐲞"); ("𐳟", "𐲟"); ("𐳠", "𐲠"); ("𐳡", "𐲡");
   ("𐳢", "𐲢"); ("𐳣", "𐲣"); ("𐳤", "𐲤"); ("𐳥", "𐲥");
   ("𐳦", "𐲦"); ("𐳧", "𐲧"); ("𐳨", "𐲨"); ("𐳩", "𐲩");
   ("𐳪", "𐲪"); ("𐳫", "𐲫"); ("𐳬", "𐲬"); ("𐳭", "𐲭");
   ("𐳮", "𐲮"); ("𐳯", "𐲯"); ("𐳰", "𐲰"); ("𐳱", "𐲱");
   ("𐳲", "𐲲"); ("𑣀", "𑢠"); ("𑣁", "𑢡"); ("𑣂", "𑢢");
   ("𑣃", "𑢣"); ("𑣄", "𑢤"); ("𑣅", "𑢥"); ("𑣆", "𑢦");
   ("𑣇", "𑢧"); ("𑣈", "𑢨"); ("𑣉", "𑢩"); ("𑣊", "𑢪");
   ("𑣋", "𑢫"); ("𑣌", "𑢬"); ("𑣍", "𑢭"); ("𑣎", "𑢮");
   ("𑣏", "𑢯"); ("𑣐", "𑢰"); ("𑣑", "𑢱"); ("𑣒", "𑢲");
   ("𑣓", "𑢳"); ("𑣔", "𑢴"); ("𑣕", "𑢵"); ("𑣖", "𑢶");
   ("𑣗", "𑢷"); ("𑣘", "𑢸"); ("𑣙", "𑢹"); ("𑣚", "𑢺");
   ("𑣛", "𑢻"); ("𑣜", "𑢼"); ("𑣝", "𑢽"); ("𑣞", "𑢾");
   ("𑣟", "𑢿"); ("𖹠", "𖹀"); ("𖹡", "𖹁"); ("𖹢", "𖹂");
   ("𖹣", "𖹃"); ("𖹤", "𖹄"); ("𖹥", "𖹅"); ("𖹦", "𖹆");
   ("𖹧", "𖹇"); ("𖹨", "𖹈"); ("𖹩", "𖹉"); ("𖹪", "𖹊");
   ("𖹫", "𖹋"); ("𖹬", "𖹌"); ("𖹭", "𖹍"); ("𖹮", "𖹎");
   ("𖹯", "𖹏"); ("𖹰", "𖹐"); ("𖹱", "𖹑"); ("𖹲", "𖹒");
   ("𖹳", "𖹓"); ("𖹴", "𖹔"); ("𖹵", "𖹕"); ("𖹶", "𖹖");
   ("𖹷", "𖹗"); ("𖹸", "𖹘"); ("𖹹", "𖹙"); ("𖹺", "𖹚");
   ("𖹻", "𖹛"); ("𖹼", "𖹜"); ("𖹽", "𖹝"); ("𖹾", "𖹞");
   ("𖹿", "𖹟"); ("𞤢", "𞤀"); ("𞤣", "𞤁"); ("𞤤", "𞤂");
   ("𞤥", "𞤃"); ("𞤦", "𞤄"); ("𞤧", "𞤅"); ("𞤨", "𞤆");
   ("𞤩", "𞤇"); ("𞤪", "𞤈"); ("𞤫", "𞤉"); ("𞤬", "𞤊");
   ("𞤭", "𞤋"); ("𞤮", "𞤌"); ("𞤯", "𞤍"); ("𞤰", "𞤎");
   ("𞤱", "𞤏"); ("𞤲", "𞤐"); ("𞤳", "𞤑"); ("𞤴", "𞤒");
   ("𞤵", "𞤓"); ("𞤶", "𞤔"); ("𞤷", "𞤕"); ("𞤸", "𞤖");
   ("𞤹", "𞤗"); ("𞤺", "𞤘"); ("𞤻", "𞤙"); ("𞤼", "𞤚");
   ("𞤽", "𞤛"); ("𞤾", "𞤜"); ("𞤿", "𞤝"); ("𞥀", "𞤞");
   ("𞥁", "𞤟"); ("𞥂", "𞤠"); ("𞥃", "𞤡")].

Definition upper_of (u : string) : string :=
  match u with
  | String c EmptyString => String (upper_char c) EmptyString
  | _ =>
      match List.find (fun e => String.eqb u e.1) special_upper with
      | Some e => e.2
      | None => u
      end
  end.

(** [s.upper()] *)
Definition upper (s : string) : string := concat (map upper_of (chars s)).

(** [s[:n]]: the first [n] characters. *)
Definition slice_to (n : nat) (s : string) : string := concat (take n (chars s)).

(** [s.startswith(p)] *)
Fixpoint startswith (s p : string) : bool :=
  match p, s with
  | EmptyString, _ => true
  | String _ _, EmptyString => false
  | String a p', String b s' => Ascii.eqb a b && startswith s' p'
  end.

(** [w in s] *)
Fixpoint contains (w s : string) : bool :=
  startswith s w ||
  match s with
  | EmptyString => false
  | String _ s' => contains w s'
  end.

Definition newline : ascii := ascii_of_N 10.

(** [s.split("\n")]: always at least one piece. *)
Fixpoint split_nl_aux (cur : string -> string) (s : string) : list string :=
  match s with
  | EmptyString => [cur EmptyString]
  | String c s' =>
      if Ascii.eqb c newline
      then cur EmptyString :: split_nl_aux (fun r => r) s'
      else split_nl_aux (fun r => cur (String c r)) s'
  end.

Definition split_nl (s : string) : list string := split_nl_aux (fun r => r) s.

(** [sep.join(l)] *)
Fixpoint join (sep : string) (l : list string) : string :=
  match l with
  | [] => EmptyString
  | [x] => x
  | x :: l' => x ++ sep ++ join sep l'
  end.

Definition join_nl : list string -> string := join (String newline EmptyString).

(** Slices and negative indexing on a list: [l[1:]], [l[1:-1]], [l[-1]]. *)
Definition slice_from_1 {A} (l : list A) : list A := List.tl l.
Definition slice_1_to_last {A} (l : list A) : list A := List.removelast (List.tl l).
Definition last_item (l : list string) : string := List.last l EmptyString.

(** Decimal rendering of an integer, as [str(int)] gives it. *)
Definition of_Z (z : Z) : string := NilZero.string_of_int (Z.to_int z).

End PyStr.

(* ===================================================================== *)
(** ** Values, exceptions and the effect trace *)
(* ===================================================================== *)

(** [class QueryIntent(str, Enum)] of router.py. *)
Inductive QueryIntent := RAG | SQL | HYBRID.

Definition intent_value (i : QueryIntent) : string :=
  match i with RAG => "rag" | SQL => "sql" | HYBRID => "hybrid" end.

Definition intent_eqb (i j : QueryIntent) : bool :=
  match i, j with
  | RAG, RAG | SQL, SQL | HYBRID, HYBRID => true
  | _, _ => false
  end.

(** The Python objects that flow through the agents.  A [float] is kept as
    the rational it denotes (NaN and the infinities do not occur). *)
#[warning="-register-all"] Inductive PyVal :=
| VNone
| VBool (b : bool)
| VInt (z : Z)
| VFloat (q : Q)
| VStr (s : string)
| VIntent (i : QueryIntent)
| VList (l : list PyVal)
| VDict (d : gmap string PyVal).

(** Truth value of an object, as [if x:] tests it. *)
Definition truthy (v : PyVal) : bool :=
  match v with
  | VNone => false
  | VBool b => b
  | VInt z => negb (z =? 0)
  | VFloat q => negb (Qnum q =? 0)
  | VStr s => negb (PyStr.is_empty s)
  | VIntent i => true
  | VList l => match l with [] => false | _ => true end
  | VDict d => negb (bool_decide (size d = 0%nat))
  end.

(** [d.get(k)]: [None] when the key is absent. *)
Definition dict_get (d : gmap string PyVal) (k : string) : PyVal :=
  default VNone (d !! k).

(** [d.get(k, dflt)]: the default is used only when the key is absent. *)
Definition dict_get_default (d : gmap string PyVal) (k : string) (dflt : PyVal) : PyVal :=
  default dflt (d !! k).

Inductive Exn :=
| ValueError (msg : string)
| JSONDecodeError
| AttributeError (msg : string)
| TypeError (msg : string)
| KeyError (key : string)
| GraphRecursionError
| RecursionError
| DatabaseError (msg : string)
| ServiceError (msg : string).

Inductive Res (A : Type) :=
| Ok (a : A)
| Raise (e : Exn).
Arguments Ok {A} a.
Arguments Raise {A} e.

(** The prompts sent to the text-generation service.  Each is a fixed
    template of the source; the embedding keeps which template it is and the
    values formatted into it. *)
Inductive Prompt :=
| INTENT_CLASSIFICATION_PROMPT (question : string)
| FILTER_EXTRACTION_PROMPT (question : string)
| SqlGenerationPrompt (question : string)
| SqlAnswerPrompt (question : string) (results : list (gmap string PyVal))
| HybridPrompt (criteria formatted_context question : string).

(** One hit of the vector store: [result.payload] and [result.score]. *)
Record ScoredPoint := { payload : gmap string PyVal; score : Q }.

Inductive Event :=
| Run (name : string)                                  (* a [@traceable] run *)
| LlmCall (p : Prompt)                                 (* openai.chat.completions.create *)
| DbConnect                                            (* get_db_connection(); the server accepts *)
| DbExecute (sql : string) (params : list PyVal)       (* cursor.execute *)
| DbClose                                              (* conn.close() *)
| Embed (text : PyVal)                                 (* get_embedding *)
| QueryPoints (ids : list string) (limit : Z).         (* qdrant_client.query_points *)

Definition Trace := list Event.

(** A computation reads the trace so far, appends its own events, and
    returns a value or raises. *)
Definition M (A : Type) : Type := Trace -> Res A * Trace.

Definition ret {A} (a : A) : M A := fun tr => (Ok a, tr).
Definition raise {A} (e : Exn) : M A := fun tr => (Raise e, tr).
Definition bind {A B} (m : M A) (k : A -> M B) : M B :=
  fun tr => match m tr with
            | (Ok a, tr') => k a tr'
            | (Raise e, tr') => (Raise e, tr')
            end.
Definition emit (e : Event) : M unit := fun tr => (Ok tt, (tr ++ [e])%list).

(** [try: m  except Exception as e: h e] *)
Definition try_except {A} (m : M A) (h : Exn -> M A) : M A :=
  fun tr => match m tr with
            | (Ok a, tr') => (Ok a, tr')
            | (Raise e, tr') => h e tr'
            end.

(** [try: m  finally: f] *)
Definition try_finally {A} (m : M A) (f : M unit) : M A :=
  fun tr => match m tr with
            | (r, tr') => match f tr' with
                          | (Ok _, tr'') => (r, tr'')
                          | (Raise e, tr'') => (Raise e, tr'')
                          end
            end.

(** A call to an external capability: the event is recorded, then the
    capability answers from the history before the call. *)
Definition call {A} (e : Event) (oracle : Trace -> Res A) : M A :=
  fun tr => (oracle tr, (tr ++ [e])%list).

(** The [@traceable(name=...)] decorator: the run is recorded on entry. *)
Definition traceable {A} (name : string) (body : M A) : M A :=
  bind (emit (Run name)) (fun _ => body).

Notation "'do' x <- m ; k" := (bind m (fun x => k))
  (at level 10, x name, m at level 100, k at level 200,
   format "'[v' 'do'  x  <-  m ; '/' k ']'").
Notation "'do_' m ; k" := (bind m (fun _ => k))
  (at level 10, m at level 100, k at level 200,
   format "'[v' 'do_'  m ; '/' k ']'").

(** [str(e)] for the exceptions the agents format into messages. *)
Definition exn_str (e : Exn) : string :=
  match e with
  | ValueError msg | AttributeError msg | TypeError msg
  | DatabaseError msg | ServiceError msg => msg
  | KeyError k => "'" ++ k ++ "'"
  | JSONDecodeError => "Expecting value"
  | GraphRecursionError => "Recursion limit reached"
  | RecursionError => "maximum recursion depth exceeded"
  end.

(** A product row of the relational store (the columns the resolver reads). *)
Record Product := {
  asin : string;
  parent_asin : option string;
  price : option Q;
  average_rating : option Q;
  main_category : option string
}.

(** The environment of one process: the external services and the library
    functions the agents call.  Services answer from the history of the
    request so far, so two calls with equal arguments may differ. *)
Record Env := {
  (** [openai.chat.completions.create(...).choices[0].message.content] *)
  openai_create : Trace -> Prompt -> Res string;
  (** [json.loads] of the standard library: the decoded value, or the
      exception it raises ([json.JSONDecodeError] for text that is not
      JSON; [ValueError] or [RecursionError] for JSON beyond the
      interpreter's limits) *)
  json_loads : string -> Res PyVal;
  (** [str()] of floats, enum members and containers *)
  py_repr : PyVal -> string;
  (** contents of table [products] *)
  products : list Product;
  (** the server's reading of a literal as a numeric *)
  pg_numeric_in : string -> option Q;
  (** the server's [text ILIKE pattern] *)
  pg_ilike : string -> string -> bool;
  (** [cursor.execute(sql); cursor.fetchall()] for a free-form statement *)
  pg_execute : Trace -> string -> Res (list (gmap string PyVal));
  (** [cursor.execute(sql, params); [row[0] for row in cursor.fetchall()]]
      for a statement that selects one text column; a NULL is [None] *)
  pg_query : Trace -> string -> list PyVal -> Res (list (option string));
  (** [get_embedding(text)] of the retrieval module *)
  embedding : Trace -> PyVal -> Res (list Q);
  (** [qdrant_client.query_points(...).points] with a [MatchAny] filter on
      [parent_asin] *)
  query_points : Trace -> list Q -> list string -> Z -> Res (list ScoredPoint)
}.

(* ===================================================================== *)
(** ** The workflow engine (LangGraph's [StateGraph], as router.py uses it) *)
(* ===================================================================== *)

Inductive Target := ToNode (name : string) | END.

(** A graph under construction: named nodes, an entry point, conditional
    edges (a routing function and its label-to-target table) and plain
    edges. *)
Record StateGraph := {
  nodes : gmap string (gmap string PyVal -> M (gmap string PyVal));
  entry_point : option string;
  conditional_edges :
    gmap string ((gmap string PyVal -> M string) * gmap string Target);
  edges : gmap string Target
}.

Definition empty_graph : StateGraph :=
  {| nodes := ∅; entry_point := None; conditional_edges := ∅; edges := ∅ |}.

Definition add_node (name : string)
    (f : gmap string PyVal -> M (gmap string PyVal)) (g : StateGraph) : StateGraph :=
  {| nodes := <[name := f]> (nodes g); entry_point := entry_point g;
     conditional_edges := conditional_edges g; edges := edges g |}.

Definition set_entry_point (name : string) (g : StateGraph) : StateGraph :=
  {| nodes := nodes g; entry_point := Some name;
     conditional_edges := conditional_edges g; edges := edges g |}.

Definition add_conditional_edges (src : string)
    (path : gmap string PyVal -> M string) (path_map : gmap string Target)
    (g : StateGraph) : StateGraph :=
  {| nodes := nodes g; entry_point := entry_point g;
     conditional_edges := <[src := (path, path_map)]> (conditional_edges g);
     edges := edges g |}.

Definition add_edge (src : string) (dst : Target) (g : StateGraph) : StateGraph :=
  {| nodes := nodes g; entry_point := entry_point g;
     conditional_edges := conditional_edges g;
     edges := <[src := dst]> (edges g) |}.

(** Where the run goes after node [n]: the conditional edge if there is
    one, else the plain edge, else the run ends. *)
Definition next_target (g : StateGraph) (n : string)
    (state : gmap string PyVal) : M Target :=
  match conditional_edges g !! n with
  | Some (path, path_map) =>
      do label <- path state;
      match path_map !! label with
      | Some t => ret t
      | None => raise (KeyError label)
      end
  | None => ret (default END (edges g !! n))
  end.

(** One run of the compiled graph: the node's returned dictionary is
    written over the state key by key, then the outgoing edge is followed.
    [fuel] is the engine's step limit. *)
Fixpoint run_graph (g : StateGraph) (fuel : nat) (cur : Target)
    (state : gmap string PyVal) : M (gmap string PyVal) :=
  match cur with
  | END => ret state
  | ToNode n =>
      match fuel with
      | O => raise GraphRecursionError
      | S fuel' =>
          match nodes g !! n with
          | None => raise (ValueError ("unknown node " ++ n))
          | Some f =>
              do update <- f state;
              let state' := update ∪ state in
              do next <- next_target g n state';
              run_graph g fuel' next state'
          end
      end
  end.

(** The engine's default [recursion_limit]. *)
Definition recursion_limit : nat := 25.

Definition invoke (g : StateGraph) (input : gmap string PyVal) : M (gmap string PyVal) :=
  match entry_point g with
  | None => raise (ValueError "graph has no entry point")
  | Some n => run_graph g recursion_limit (ToNode n) input
  end.

(* ===================================================================== *)
(** ** router.py *)
(* ===================================================================== *)

Definition triple_backtick : string := "```".

(** [parsed.pop(key, default)] on whatever [json.loads] returned. *)
Definition py_pop (parsed : PyVal) (key : string) (dflt : PyVal)
  : Res (PyVal * gmap string PyVal) :=
  match parsed with
  | VDict d => Ok (default dflt (d !! key), delete key d)
  | VList _ => Raise (TypeError "pop expected at most 1 argument, got 2")
  | _ => Raise (AttributeError "object has no attribute 'pop'")
  end.

(** [filters.get(key)] on a value that should be a dictionary. *)
Definition py_get (v : PyVal) (key : string) : Res PyVal :=
  match v with
  | VDict d => Ok (dict_get d key)
  | _ => Raise (AttributeError "object has no attribute 'get'")
  end.

Definition lift {A} (r : Res A) : M A := fun tr => (r, tr).

(** [v == QueryIntent.HYBRID]; the enum mixes in [str], so the member also
    equals its value string. *)
Definition eq_intent (v : PyVal) (i : QueryIntent) : bool :=
  match v with
  | VIntent j => intent_eqb j i
  | VStr s => String.eqb s (intent_value i)
  | _ => false
  end.

(** [state[key]] *)
Definition state_item (state : gmap string PyVal) (key : string) : M PyVal :=
  match state !! key with
  | Some v => ret v
  | None => raise (KeyError key)
  end.

(** [state["question"]]; the state schema types it as [str]. *)
Definition state_question (state : gmap string PyVal) : M string :=
  do v <- state_item state "question";
  match v with
  | VStr q => ret q
  | _ => raise (TypeError "question is not a str")
  end.

Section Router.
Context (env : Env).

Definition chat_completion (p : Prompt) : M string :=
  call (LlmCall p) (fun tr => openai_create env tr p).

Definition intent_map : gmap string QueryIntent :=
  list_to_map [("RAG", RAG); ("SQL", SQL); ("HYBRID", HYBRID)].

Definition classify_intent (question : string) : M (QueryIntent * Q) :=
  traceable "classify_intent" (
    do content <- chat_completion (INTENT_CLASSIFICATION_PROMPT question);
    let result := PyStr.upper (PyStr.strip content) in
    let intent := default RAG (intent_map !! result) in
    let confidence :=
      if bool_decide (is_Some (intent_map !! result)) then 9 # 10 else 1 # 2 in
    ret (intent, confidence)).

(** The markdown clean-up of [extract_filters]. *)
Definition clean_markdown (content : string) : string :=
  if PyStr.startswith content triple_backtick then
    let lines := PyStr.split_nl content in
    PyStr.join_nl
      (if String.eqb (PyStr.strip (PyStr.last_item lines)) triple_backtick
       then PyStr.slice_1_to_last lines
       else PyStr.slice_from_1 lines)
  else content.

Definition extract_filters (question : string) : M (gmap string PyVal * PyVal) :=
  traceable "extract_filters" (
    do response <- chat_completion (FILTER_EXTRACTION_PROMPT question);
    let content := clean_markdown (PyStr.strip response) in
    match json_loads env content with
    | Raise JSONDecodeError => ret (∅, VStr question)
    | Raise e => raise e
    | Ok parsed =>
        do popped <- lift (py_pop parsed "semantic_query" (VStr question));
        let semantic_query := popped.1 in
        let rest := popped.2 in
        let filters : gmap string PyVal :=
          list_to_map [("min_price", dict_get rest "min_price");
                       ("max_price", dict_get rest "max_price");
                       ("min_rating", dict_get rest "min_rating");
                       ("category", dict_get rest "category");
                       ("sort_by", dict_get rest "sort_by");
                       ("limit", dict_get rest "limit")] in
        ret (filters, semantic_query)
    end).

Definition classify_node (state : gmap string PyVal) : M (gmap string PyVal) :=
  do question <- state_question state;
  do r <- classify_intent question;
  ret (<["confidence" := VFloat r.2]> (<["intent" := VIntent r.1]> state)).

Definition extract_filters_node (state : gmap string PyVal) : M (gmap string PyVal) :=
  do question <- state_question state;
  do r <- extract_filters question;
  ret (<["semantic_query" := r.2]> (<["filters" := VDict r.1]> state)).

Definition should_extract_filters (state : gmap string PyVal) : M string :=
  do intent <- state_item state "intent";
  if eq_intent intent HYBRID then ret "extract" else ret "done".

Definition build_router_graph : StateGraph :=
  add_edge "extract_filters" END
    (add_conditional_edges "classify" should_extract_filters
       (list_to_map [("extract", ToNode "extract_filters"); ("done", END)])
       (set_entry_point "classify"
          (add_node "extract_filters" extract_filters_node
             (add_node "classify" classify_node empty_graph)))).

(** The module keeps the compiled graph in a global built on first use;
    building is deterministic, so every call sees this same graph. *)
Definition get_router : StateGraph := build_router_graph.

Definition initial_state (question : string) : gmap string PyVal :=
  list_to_map [("question", VStr question);
               ("intent", VNone);
               ("filters", VNone);
               ("semantic_query", VNone);
               ("confidence", VFloat 0)].

Definition route_query (question : string) : M (gmap string PyVal) :=
  traceable "route_query" (invoke get_router (initial_state question)).

End Router.

(* ===================================================================== *)
(** ** The relational store, as [get_asins_by_filter] queries it *)
(* ===================================================================== *)

Module Pg.

Definition percent : ascii := "%"%char.
Definition underscore : ascii := "_"%char.
Definition backslash : ascii := "\"%char.

(** Lower case of the ASCII letters; every other byte is left as it
    is. *)
Definition lower_char (c : ascii) : ascii :=
  if ((65 <=? PyStr.code c) && (PyStr.code c <=? 90))%N
  then ascii_of_N (PyStr.code c + 32) else c.

Fixpoint map_chars (f : ascii -> ascii) (s : string) : string :=
  match s with
  | EmptyString => EmptyString
  | String c s' => String (f c) (map_chars f s')
  end.

Definition lower : string -> string := map_chars lower_char.

(** [text LIKE pattern] on ASCII text: [%] matches any run of characters,
    [_] any one character, and a backslash makes the next pattern character
    literal.  A pattern that ends in a lone backslash is an error on the
    server; it matches nothing here (the patterns of this program end in
    a percent sign). *)
Fixpoint like (pattern text : string) : bool :=
  match pattern with
  | EmptyString => PyStr.is_empty text
  | String c rest =>
      if Ascii.eqb c percent then
        (fix any_suffix (t : string) : bool :=
           like rest t ||
           match t with
           | EmptyString => false
           | String _ t' => any_suffix t'
           end) text
      else if Ascii.eqb c underscore then
        match text with
        | EmptyString => false
        | String _ t' => like rest t'
        end
      else if Ascii.eqb c backslash then
        match rest with
        | EmptyString => false
        | String e rest' =>
            match text with
            | EmptyString => false
            | String d t' => Ascii.eqb e d && like rest' t'
            end
        end
      else
        match text with
        | EmptyString => false
        | String d t' => Ascii.eqb c d && like rest t'
        end
  end.

(** [text ILIKE pattern] on ASCII text: [LIKE] without regard to letter
    case. *)
Definition ilike (text pattern : string) : bool :=
  like (lower pattern) (lower text).

(** A pattern character that [LIKE] does not take literally. *)
Definition is_meta (c : ascii) : bool :=
  Ascii.eqb c percent || Ascii.eqb c underscore || Ascii.eqb c backslash.

Fixpoint no_meta (s : string) : bool :=
  match s with
  | EmptyString => true
  | String c s' => negb (is_meta c) && no_meta s'
  end.

(** A text of ASCII characters only. *)
Fixpoint is_ascii (s : string) : bool :=
  match s with
  | EmptyString => true
  | String c s' => PyStr.is_ascii c && is_ascii s'
  end.

End Pg.

Definition res_bind {A B} (r : Res A) (k : A -> Res B) : Res B :=
  match r with Ok a => k a | Raise e => Raise e end.

(** A comparison with a NULL column is not true. *)
Definition col_ge (col : option Q) (q : Q) : bool :=
  match col with Some x => Qle_bool q x | None => false end.
Definition col_le (col : option Q) (q : Q) : bool :=
  match col with Some x => Qle_bool x q | None => false end.
Definition col_ilike (env : Env) (col : option string) (pattern : string) : bool :=
  match col with Some x => pg_ilike env x pattern | None => false end.

(** The statements of the form
    [SELECT [DISTINCT] parent_asin FROM products WHERE <condition> LIMIT %s]
    and what they ask of the table.  The statement is read from its text:
    words separated by whitespace, the condition a disjunction ([OR]) of
    conjunctions ([AND]) of comparisons, each [%s] standing for the next
    bound parameter. *)
Module Sql.

Inductive Column := ParentAsin | Price | AverageRating | MainCategory.

Inductive Atom :=
| Ge (c : Column)          (* c >= %s *)
| Le (c : Column)          (* c <= %s *)
| ILike (c : Column)       (* c ILIKE %s *)
| NotNull (c : Column)     (* c IS NOT NULL *)
| TrueLit.                 (* TRUE *)

Record Select := {
  distinct : bool;
  condition : list (list Atom)
}.

(** Whitespace between the words of a statement. *)
Definition is_space (c : ascii) : bool :=
  let n := PyStr.code c in
  ((n =? 32) || (n =? 9) || (n =? 10) || (n =? 12) || (n =? 13))%N.

(** The word at the head of the text, possibly empty, and the words after
    it. *)
Fixpoint split_words (s : string) : string * list string :=
  match s with
  | EmptyString => (EmptyString, [])
  | String c s' =>
      match split_words s' with
      | (w, ws) =>
          if is_space c
          then (EmptyString, match w with EmptyString => ws | _ => w :: ws end)
          else (String c w, ws)
      end
  end.

Definition words (s : string) : list string :=
  match split_words s with
  | (EmptyString, ws) => ws
  | (w, ws) => w :: ws
  end.

Definition column_named (w : string) : option Column :=
  if String.eqb w "parent_asin" then Some ParentAsin
  else if String.eqb w "price" then Some Price
  else if String.eqb w "average_rating" then Some AverageRating
  else if String.eqb w "main_category" then Some MainCategory
  else None.

Definition parse_atom (ws : list string) : option Atom :=
  match ws with
  | [w] => if String.eqb w "TRUE" then Some TrueLit else None
  | [c; op; arg] =>
      if negb (String.eqb arg "%s") then None
      else if String.eqb op ">=" then Ge <$> column_named c
      else if String.eqb op "<=" then Le <$> column_named c
      else if String.eqb op "ILIKE" then ILike <$> column_named c
      else None
  | [c; w1; w2; w3] =>
      if String.eqb w1 "IS" && String.eqb w2 "NOT" && String.eqb w3 "NULL"
      then NotNull <$> column_named c
      else None
  | _ => None
  end.

(** The runs of words between occurrences of [kw]: always at least one
    run. *)
Fixpoint split_on (kw : string) (ws : list string) : list (list string) :=
  match ws with
  | [] => [[]]
  | w :: ws' =>
      if String.eqb w kw then [] :: split_on kw ws'
      else match split_on kw ws' with
           | g :: gs => (w :: g) :: gs
           | [] => [[w]]
           end
  end.

(** [AND] binds tighter than [OR]. *)
Definition parse_condition (ws : list string) : option (list (list Atom)) :=
  mapM (fun group => mapM parse_atom (split_on "AND" group)) (split_on "OR" ws).

Definition parse (sql : string) : option Select :=
  match words sql with
  | sel :: rest =>
      if negb (String.eqb sel "SELECT") then None
      else
        let d := match rest with
                 | w :: _ => String.eqb w "DISTINCT"
                 | [] => false
                 end in
        match (if d then List.tl rest else rest) with
        | col :: from :: tbl :: wh :: body =>
            if String.eqb col "parent_asin" && String.eqb from "FROM" &&
               String.eqb tbl "products" && String.eqb wh "WHERE"
            then
              match rev body with
              | arg :: lim :: rcond =>
                  if String.eqb arg "%s" && String.eqb lim "LIMIT"
                  then (fun c => {| distinct := d; condition := c |})
                         <$> parse_condition (rev rcond)
                  else None
              | _ => None
              end
            else None
        | _ => None
        end
  | [] => None
  end.

Section Meaning.
Context (env : Env).

(** How the server reads a bound parameter where a numeric is expected:
    the number, or NULL.  The driver sends an [int] as its digits, a
    [float] as its [repr] and a [str] as a quoted literal; other objects
    are not read here. *)
Definition read_number (v : PyVal) : option (option Q) :=
  match v with
  | VNone => Some None
  | VInt z => Some (Some (inject_Z z))
  | VFloat _ => Some <$> pg_numeric_in env (py_repr env v)
  | VStr s => Some <$> pg_numeric_in env s
  | _ => None
  end.

(** The same where a text is expected. *)
Definition read_text (v : PyVal) : option (option string) :=
  match v with
  | VNone => Some None
  | VStr s => Some (Some s)
  | _ => None
  end.

Definition numeric (c : Column) : option (Product -> option Q) :=
  match c with
  | Price => Some price
  | AverageRating => Some average_rating
  | _ => None
  end.

Definition textual (c : Column) : option (Product -> option string) :=
  match c with
  | ParentAsin => Some parent_asin
  | MainCategory => Some main_category
  | _ => None
  end.

Definition not_null (c : Column) (p : Product) : bool :=
  match c with
  | ParentAsin => bool_decide (is_Some (parent_asin p))
  | Price => bool_decide (is_Some (price p))
  | AverageRating => bool_decide (is_Some (average_rating p))
  | MainCategory => bool_decide (is_Some (main_category p))
  end.

(** A comparison with NULL is not true. *)
Definition compare (test : option Q -> Q -> bool) (col : Product -> option Q)
    (x : option Q) (p : Product) : bool :=
  match x with
  | Some q => test (col p) q
  | None => false
  end.

Definition matches (col : Product -> option string) (x : option string)
    (p : Product) : bool :=
  match x with
  | Some pattern => col_ilike env (col p) pattern
  | None => false
  end.

(** One comparison with the parameters it is bound to; the parameters it
    does not consume are returned. *)
Definition atom_meaning (a : Atom) (params : list PyVal)
  : option ((Product -> bool) * list PyVal) :=
  match a with
  | TrueLit => Some (fun _ => true, params)
  | NotNull c => Some (not_null c, params)
  | Ge c =>
      match params with
      | v :: rest =>
          col ← numeric c; x ← read_number v; Some (compare col_ge col x, rest)
      | [] => None
      end
  | Le c =>
      match params with
      | v :: rest =>
          col ← numeric c; x ← read_number v; Some (compare col_le col x, rest)
      | [] => None
      end
  | ILike c =>
      match params with
      | v :: rest =>
          col ← textual c; x ← read_text v; Some (matches col x, rest)
      | [] => None
      end
  end.

Fixpoint all_of (atoms : list Atom) (params : list PyVal)
  : option ((Product -> bool) * list PyVal) :=
  match atoms with
  | [] => Some (fun _ => true, params)
  | a :: atoms' =>
      f ← atom_meaning a params;
      r ← all_of atoms' f.2;
      Some (fun p => f.1 p && r.1 p, r.2)
  end.

Fixpoint any_of (groups : list (list Atom)) (params : list PyVal)
  : option ((Product -> bool) * list PyVal) :=
  match groups with
  | [] => Some (fun _ => false, params)
  | g :: groups' =>
      f ← all_of g params;
      r ← any_of groups' f.2;
      Some (fun p => f.1 p || r.1 p, r.2)
  end.

(** The test a statement applies to a row, when its parameters are read:
    the condition consumes its parameters in order and leaves one, the
    LIMIT. *)
Definition meaning (q : Select) (params : list PyVal) : option (Product -> bool) :=
  r ← any_of (condition q) params;
  match r.2 with
  | [_] => Some r.1
  | _ => None
  end.

(** A reference execution: the rows in the order of the table. *)
Definition run (sql : string) (params : list PyVal) : Res (list (option string)) :=
  match parse sql with
  | None => Raise (DatabaseError "syntax error")
  | Some q =>
      match meaning q params, last params with
      | Some test, Some (VInt z) =>
          if (z <? 0) || (2 ^ 63 <=? z)
          then Raise (DatabaseError "LIMIT out of range")
          else
            let rows := map parent_asin (List.filter test (products env)) in
            Ok (take (Z.to_nat z) (if distinct q then remove_dups rows else rows))
      | _, _ => Raise (DatabaseError "cannot read the parameters")
      end
  end.

End Meaning.

End Sql.

(* ===================================================================== *)
(** ** sql_agent.py *)
(* ===================================================================== *)

(** The dictionary [sql_pipeline] returns; the keys [error] and
    [result_count] are each present in one of its two shapes only. *)
Record SqlPipelineResult := {
  sql_answer : string;
  sql_question : string;
  sql_query : string;
  sql_results : list (gmap string PyVal);
  sql_error : option string;
  sql_result_count : option nat
}.

Definition forbidden : list string :=
  ["INSERT"; "UPDATE"; "DELETE"; "DROP"; "TRUNCATE"; "ALTER"; "CREATE"].

Definition nl : string := String PyStr.newline EmptyString.

(** The statement [generate_sql_query] makes of the service's answer:
    stripped, and without its markdown fence if it has one. *)
Definition sql_of_response (content : string) : string :=
  let sql := PyStr.strip content in
  if PyStr.startswith sql triple_backtick then
    let lines := PyStr.split_nl sql in
    PyStr.join_nl
      (if String.eqb (PyStr.last_item lines) triple_backtick
       then PyStr.slice_1_to_last lines
       else PyStr.slice_from_1 lines)
  else sql.

Section SqlAgent.
Context (env : Env).

(** [str(v)], as an f-string formats a value. *)
Definition py_str (v : PyVal) : string :=
  match v with
  | VStr s => s
  | VInt z => PyStr.of_Z z
  | VBool true => "True"
  | VBool false => "False"
  | VNone => "None"
  | _ => py_repr env v
  end.

Definition generate_sql_query (question : string) : M string :=
  traceable "generate_sql_query" (
    do content <- chat_completion env (SqlGenerationPrompt question);
    ret (sql_of_response content)).

Definition execute_sql_query (sql : string) : M (list (gmap string PyVal)) :=
  traceable "execute_sql_query" (
    let sql_upper := PyStr.strip (PyStr.upper sql) in
    if negb (PyStr.startswith sql_upper "SELECT") then
      raise (ValueError "Only SELECT queries are allowed")
    else
      match List.find (fun word => PyStr.contains word sql_upper) forbidden with
      | Some word => raise (ValueError ("Forbidden SQL operation: " ++ word))
      | None =>
          do_ emit DbConnect;
          try_finally
            (call (DbExecute sql []) (fun tr => pg_execute env tr sql))
            (emit DbClose)
      end).

Definition generate_sql_answer (question : string)
    (results : list (gmap string PyVal)) : M string :=
  traceable "generate_sql_answer" (
    chat_completion env (SqlAnswerPrompt question (take 10 results))).

Definition sql_pipeline (question : string) : M SqlPipelineResult :=
  traceable "sql_pipeline" (
    do query <- generate_sql_query question;
    (* the [try] encloses the execution only; its handler returns *)
    do executed <-
      try_except
        (do results <- execute_sql_query query; ret (inr results))
        (fun e => ret (inl e));
    match executed with
    | inl e =>
        ret {| sql_answer := "Error executing query: " ++ exn_str e;
               sql_question := question; sql_query := query;
               sql_results := []; sql_error := Some (exn_str e);
               sql_result_count := None |}
    | inr results =>
        do answer <- generate_sql_answer question results;
        ret {| sql_answer := answer; sql_question := question;
               sql_query := query; sql_results := results;
               sql_error := None;
               sql_result_count := Some (length results) |}
    end).

Definition is_not_none (v : PyVal) : bool :=
  match v with VNone => false | _ => true end.

(** The [conditions] and [params] lists after the four tests. *)
Definition build_conditions (min_price max_price min_rating category : PyVal)
  : list string * list PyVal :=
  let cp0 : list string * list PyVal := ([], []) in
  let cp1 := if is_not_none min_price
             then (cp0.1 ++ ["price >= %s"], cp0.2 ++ [min_price])%list else cp0 in
  let cp2 := if is_not_none max_price
             then (cp1.1 ++ ["price <= %s"], cp1.2 ++ [max_price])%list else cp1 in
  let cp3 := if is_not_none min_rating
             then (cp2.1 ++ ["average_rating >= %s"], cp2.2 ++ [min_rating])%list else cp2 in
  if is_not_none category
  then (cp3.1 ++ ["main_category ILIKE %s"],
        cp3.2 ++ [VStr ("%" ++ py_str category ++ "%")])%list
  else cp3.

Definition where_clause (conditions : list string) : string :=
  match conditions with
  | [] => "TRUE"
  | _ => PyStr.join " AND " conditions
  end.

Definition select_sql (conditions : list string) : string :=
  nl ++ "        SELECT DISTINCT parent_asin" ++
  nl ++ "        FROM products" ++
  nl ++ "        WHERE " ++ where_clause conditions ++ " AND parent_asin IS NOT NULL" ++
  nl ++ "        LIMIT %s" ++
  nl ++ "    ".

Definition get_asins_by_filter (min_price max_price min_rating category : PyVal)
    (limit : option Z) : M (list (option string)) :=
  traceable "get_asins_by_filter" (
    let cp := build_conditions min_price max_price min_rating category in
    let conditions := cp.1 in
    let params := (cp.2 ++ [VInt (default 50 limit)])%list in
    do_ emit DbConnect;
    try_finally
      (call (DbExecute (select_sql conditions) params)
            (fun tr => pg_query env tr (select_sql conditions) params))
      (emit DbClose)).

End SqlAgent.

(* ===================================================================== *)
(** ** hybrid.py *)
(* ===================================================================== *)

(** The dictionary [hybrid_retrieve] returns. *)
Record RetrievalResult := {
  retrieved_context_ids : list PyVal;
  retrieved_context : list PyVal;
  retrieved_context_ratings : list PyVal;
  similarity_scores : list Q;
  filter_count : nat
}.

Definition empty_result : RetrievalResult :=
  {| retrieved_context_ids := []; retrieved_context := [];
     retrieved_context_ratings := []; similarity_scores := [];
     filter_count := 0 |}.

(** The dictionary [hybrid_pipeline] returns. *)
Record HybridPipelineResult := {
  hp_answer : string;
  hp_question : string;
  hp_intent : string;
  hp_filters : PyVal;
  hp_semantic_query : PyVal;
  hp_retrieved_context_ids : list PyVal;
  hp_retrieved_context : list PyVal;
  hp_similarity_scores : list Q;
  hp_filter_count : nat
}.

(** [result.payload[key]] *)
Definition payload_item (p : ScoredPoint) (key : string) : Res PyVal :=
  match payload p !! key with
  | Some v => Ok v
  | None => Raise (KeyError key)
  end.

(** The loop over [results.points]: four appends per hit. *)
Fixpoint extract_results (points : list ScoredPoint) (acc : RetrievalResult)
  : Res RetrievalResult :=
  match points with
  | [] => Ok acc
  | result :: rest =>
      res_bind (payload_item result "parent_asin") (fun id =>
      res_bind (payload_item result "description") (fun chunk =>
      res_bind (payload_item result "average_rating") (fun rating =>
      extract_results rest
        {| retrieved_context_ids := (retrieved_context_ids acc ++ [id])%list;
           retrieved_context := (retrieved_context acc ++ [chunk])%list;
           retrieved_context_ratings := (retrieved_context_ratings acc ++ [rating])%list;
           similarity_scores := (similarity_scores acc ++ [score result])%list;
           filter_count := filter_count acc |})))
  end.

(** Nearest integer, ties to the even one. *)
Definition round_half_even (q : Q) : Z :=
  let n := Qnum q in
  let d := Zpos (Qden q) in
  let f := n / d in
  let r := n mod d in
  if 2 * r <? d then f
  else if d <? 2 * r then f + 1
  else if Z.even f then f else f + 1.

Definition two_digits (z : Z) : string :=
  (if z <? 10 then "0" else "") ++ PyStr.of_Z z.

(** [f"{x:.2f}"]: sign, integer part, a point, exactly two decimals. *)
Definition format_2f (x : Q) : string :=
  let cents := Z.abs (round_half_even (x * 100)) in
  (if Qnum x <? 0 then "-" else "") ++
  PyStr.of_Z (cents / 100) ++ "." ++ two_digits (cents mod 100).

(** [zip] of the four result lists: stops with the shortest. *)
Fixpoint zip4 {A B C D} (la : list A) (lb : list B) (lc : list C) (ld : list D)
  : list (A * B * C * D) :=
  match la, lb, lc, ld with
  | a :: la', b :: lb', c :: lc', d :: ld' => (a, b, c, d) :: zip4 la' lb' lc' ld'
  | _, _, _, _ => []
  end.

(** [MatchAny(any=values)]: the model validates that every value is a
    string. *)
Definition match_any (values : list (option string)) : Res (list string) :=
  match mapM id values with
  | Some ids => Ok ids
  | None => Raise (ValueError "validation error for MatchAny")
  end.

Section Hybrid.
Context (env : Env).

Definition hybrid_retrieve (semantic_query : PyVal) (filters : PyVal)
    (k : option Z) : M RetrievalResult :=
  traceable "hybrid_retrieve" (
    let limit := default 10 k in
    do min_price <- lift (py_get filters "min_price");
    do max_price <- lift (py_get filters "max_price");
    do min_rating <- lift (py_get filters "min_rating");
    do category <- lift (py_get filters "category");
    do filtered_asins <-
      get_asins_by_filter env min_price max_price min_rating category (Some 100);
    match filtered_asins with
    | [] => ret empty_result
    | _ =>
        do query_embedding <-
          call (Embed semantic_query) (fun tr => embedding env tr semantic_query);
        do ids <- lift (match_any filtered_asins);
        do points <-
          call (QueryPoints ids limit)
               (fun tr => query_points env tr query_embedding ids limit);
        do extracted <- lift (extract_results points empty_result);
        ret {| retrieved_context_ids := retrieved_context_ids extracted;
               retrieved_context := retrieved_context extracted;
               retrieved_context_ratings := retrieved_context_ratings extracted;
               similarity_scores := similarity_scores extracted;
               filter_count := length filtered_asins |}
    end).

(** The part of the header for one filter field: shown when
    [filters.get(key)] is truthy. *)
Definition header_field (filters : gmap string PyVal) (key label : string) : string :=
  if truthy (dict_get filters key)
  then label ++ py_str env (dict_get filters key)
  else "".

Definition format_entry (e : PyVal * PyVal * PyVal * Q) : string :=
  let '(id, chunk, rating, score) := e in
  "- ID: " ++ py_str env id ++ ", rating: " ++ py_str env rating ++
  ", relevance: " ++ format_2f score ++ nl ++
  "  Description: " ++ py_str env chunk ++ nl ++ nl.

Definition format_header (context : RetrievalResult)
    (filters : gmap string PyVal) : string :=
  "(Filtered from " ++ PyStr.of_Z (Z.of_nat (filter_count context)) ++ " products" ++
  header_field filters "max_price" ", max price: $" ++
  header_field filters "min_rating" ", min rating: " ++
  header_field filters "category" ", category: " ++
  ")" ++ nl ++ nl.

(** The text [format_hybrid_context] builds for a filters dictionary. *)
Definition format_hybrid_context_text (context : RetrievalResult)
    (filters : gmap string PyVal) : string :=
  fold_left (fun formatted e => formatted ++ format_entry e)
    (zip4 (retrieved_context_ids context) (retrieved_context context)
          (retrieved_context_ratings context) (similarity_scores context))
    (format_header context filters).

Definition format_hybrid_context (context : RetrievalResult) (filters : PyVal)
  : M string :=
  traceable "format_hybrid_context" (
    match filters with
    | VDict d => ret (format_hybrid_context_text context d)
    | _ => raise (AttributeError "object has no attribute 'get'")
    end).

(** The [filter_summary] list of [build_hybrid_prompt]. *)
Definition filter_summary (filters : gmap string PyVal) : list string :=
  let get := dict_get filters in
  let price : list string :=
    if truthy (get "min_price") || truthy (get "max_price") then
      let r1 := if truthy (get "min_price")
                then "from $" ++ py_str env (get "min_price") else "" in
      let r2 := if truthy (get "max_price")
                then r1 ++ " up to $" ++ py_str env (get "max_price") else r1 in
      ["Price: " ++ PyStr.strip r2]
    else [] in
  let rating : list string :=
    if truthy (get "min_rating")
    then ["Rating: " ++ py_str env (get "min_rating") ++ "+ stars"] else [] in
  let category : list string :=
    if truthy (get "category")
    then ["Category: " ++ py_str env (get "category")] else [] in
  List.app price (List.app rating category).

Definition build_hybrid_prompt (formatted_context question : string)
    (filters : PyVal) : M Prompt :=
  traceable "build_hybrid_prompt" (
    match filters with
    | VDict d =>
        let summary := filter_summary d in
        ret (HybridPrompt
               (match summary with
                | [] => "No specific filters"
                | _ => PyStr.join_nl summary
                end)
               formatted_context question)
    | _ => raise (AttributeError "object has no attribute 'get'")
    end).

Definition hybrid_generate (prompt : Prompt) : M string :=
  traceable "hybrid_generate" (chat_completion env prompt).

Definition hybrid_pipeline (question : string) (filters semantic_query : PyVal)
    (top_k : option Z) : M HybridPipelineResult :=
  traceable "hybrid_pipeline" (
    let top_k := default 5 top_k in
    do fs <-
      match filters with
      | VNone =>
          do route_result <- route_query env question;
          ret (dict_get_default route_result "filters" (VDict ∅),
               dict_get_default route_result "semantic_query" (VStr question))
      | _ => ret (filters, semantic_query)
      end;
    let filters := fs.1 in
    let semantic_query :=
      match fs.2 with VNone => VStr question | v => v end in
    do retrieved <- hybrid_retrieve semantic_query filters (Some top_k);
    do formatted_context <- format_hybrid_context retrieved filters;
    do prompt <- build_hybrid_prompt formatted_context question filters;
    do answer <- hybrid_generate prompt;
    ret {| hp_answer := answer; hp_question := question;
           hp_intent := "hybrid"; hp_filters := filters;
           hp_semantic_query := semantic_query;
           hp_retrieved_context_ids := retrieved_context_ids retrieved;
           hp_retrieved_context := retrieved_context retrieved;
           hp_similarity_scores := similarity_scores retrieved;
           hp_filter_count := filter_count retrieved |}).

End Hybrid.

(* ===================================================================== *)
(** ** Observations on traces and results *)
(* ===================================================================== *)

Definition is_run (name : string) (e : Event) : bool :=
  match e with Run n => String.eqb n name | _ => false end.

(** How many times the [@traceable] function [name] was entered. *)
Definition runs_of (name : string) (tr : Trace) : nat :=
  length (List.filter (is_run name) tr).

(** A call to the embedding service or to the vector store. *)
Definition is_search (e : Event) : bool :=
  match e with Embed _ | QueryPoints _ _ => true | _ => false end.

(** The limits of the vector searches issued, in order. *)
Definition requested_limits (tr : Trace) : list Z :=
  omap (fun e => match e with QueryPoints _ k => Some k | _ => None end) tr.

Definition hits {A} (r : Res A) (len : A -> nat) : option nat :=
  match r with Ok a => Some (len a) | Raise _ => None end.

(** The four result sequences have one common length. *)
Definition aligned (r : RetrievalResult) : Prop :=
  length (retrieved_context r) = length (retrieved_context_ids r) /\
  length (retrieved_context_ratings r) = length (retrieved_context_ids r) /\
  length (similarity_scores r) = length (retrieved_context_ids r).

(** Scores in descending order. *)
Fixpoint descending (l : list Q) : Prop :=
  match l with
  | [] => True
  | x :: l' => Forall (fun y => (y <= x)%Q) l' /\ descending l'
  end.

(** Every event a computation adds satisfies [P], whatever the history
    and whether it returns or raises. *)
Definition emits {A} (P : Event -> Prop) (m : M A) : Prop :=
  forall tr, exists evs, (m tr).2 = (tr ++ evs)%list /\ Forall P evs.

(** A vector search, if the event is one, asks for [k] hits. *)
Definition limit_is (k : Z) (e : Event) : Prop :=
  match e with QueryPoints _ k' => k' = k | _ => True end.

(** A statement sent to the store, if the event is one, has [v] as its
    last parameter (the LIMIT). *)
Definition sql_limit_is (v : PyVal) (e : Event) : Prop :=
  match e with DbExecute _ params => last params = Some v | _ => True end.

(** A text of one line. *)
Fixpoint one_line (s : string) : bool :=
  match s with
  | EmptyString => true
  | String c s' => negb (Ascii.eqb c PyStr.newline) && one_line s'
  end.

(** A byte that is ASCII whitespace or lies outside ASCII: the bytes of
    the whitespace characters are of this kind. *)
Definition blank (c : ascii) : bool :=
  PyStr.ascii_space c || negb (PyStr.is_ascii c).

Fixpoint all_blank (s : string) : bool :=
  match s with
  | EmptyString => true
  | String c s' => blank c && all_blank s'
  end.

Fixpoint last_byte (s : string) : option ascii :=
  match s with
  | EmptyString => None
  | String c s' =>
      match last_byte s' with
      | Some d => Some d
      | None => Some c
      end
  end.

(** A word of ASCII characters, none of them whitespace. *)
Fixpoint solid (w : string) : bool :=
  match w with
  | EmptyString => true
  | String c w' => PyStr.is_ascii c && negb (PyStr.ascii_space c) && solid w'
  end.

(** [P] allows what the router records: runs and calls to the
    text-generation service. *)
Definition ambient (P : Event -> Prop) : Prop :=
  (forall name, P (Run name)) /\ (forall p, P (LlmCall p)).

(* ===================================================================== *)
(** ** What the vector store promises *)
(* ===================================================================== *)

(** The linking key a hit carries. *)
Definition hit_id (p : ScoredPoint) : option PyVal := payload p !! "parent_asin".

Definition hit_in (ids : list string) (p : ScoredPoint) : bool :=
  match hit_id p with
  | Some (VStr a) => bool_decide (a ∈ ids)
  | _ => false
  end.

(** At most [limit] hits come back. *)
Definition honours_limit (env : Env) : Prop :=
  forall tr v ids k pts,
    query_points env tr v ids k = Ok pts -> Z.of_nat (length pts) <= k.

(** Every hit satisfies the [MatchAny] filter on [parent_asin]. *)
Definition honours_filter (env : Env) : Prop :=
  forall tr v ids k pts,
    query_points env tr v ids k = Ok pts -> Forall (fun p => hit_in ids p = true) pts.

(** Hits are ranked by descending similarity score. *)
Definition ranked (env : Env) : Prop :=
  forall tr v ids k pts,
    query_points env tr v ids k = Ok pts -> descending (map score pts).

(** No two hits carry the same linking key (the collection holds one point
    per item). *)
Definition distinct_hits (env : Env) : Prop :=
  forall tr v ids k pts,
    query_points env tr v ids k = Ok pts -> NoDup (map hit_id pts).

(* ===================================================================== *)
(** ** What the relational store promises *)
(* ===================================================================== *)

(** An answer of the store to a statement of the form read by [Sql.parse]
    is an answer to that statement over the table: without repetition when
    the statement says DISTINCT; within the LIMIT, which is not negative;
    and, when the parameters of the condition are read, made of the
    selected column of rows that pass the condition, all of them when
    there are fewer than the LIMIT.  The order of the rows is the
    server's. *)
Definition sql_store (env : Env) : Prop :=
  forall tr sql params answer q,
    pg_query env tr sql params = Ok answer ->
    Sql.parse sql = Some q ->
    (Sql.distinct q = true -> NoDup answer) /\
    (forall z, last params = Some (VInt z) ->
       0 <= z /\ (length answer <= Z.to_nat z)%nat) /\
    (forall test, Sql.meaning env q params = Some test ->
       (forall x, x ∈ answer ->
          exists p, p ∈ products env /\ test p = true /\ parent_asin p = x) /\
       (forall z, Sql.distinct q = true -> last params = Some (VInt z) ->
          (length answer < Z.to_nat z)%nat ->
          forall p, p ∈ products env -> test p = true -> parent_asin p ∈ answer)).

(** On ASCII text the server's ILIKE is [Pg.ilike]. *)
Definition ascii_ilike (env : Env) : Prop :=
  forall text pattern,
    Pg.is_ascii text = true -> Pg.is_ascii pattern = true ->
    pg_ilike env text pattern = Pg.ilike text pattern.

(* ===================================================================== *)
(** ** The claims' own notions, for comparison with the code *)
(* ===================================================================== *)

(** The label text of an intent, as the classification prompt asks for it. *)
Definition label_text (i : QueryIntent) : string :=
  match i with RAG => "RAG" | SQL => "SQL" | HYBRID => "HYBRID" end.

(** An exact match without regard to letter case. *)
Definition matches_nocase (output label : string) : bool :=
  String.eqb (PyStr.upper output) (PyStr.upper label).

(** The classifier's reading of an output: whitespace at both ends
    dropped, then upper-cased. *)
Definition normalized (output : string) : string := PyStr.upper (PyStr.strip output).

(** The intent classified for an output. *)
Definition classified_intent (output : string) : QueryIntent :=
  default RAG (intent_map !! normalized output).

(** The response parses as a JSON object. *)
Definition parses_as_object (env : Env) (content : string) : bool :=
  match json_loads env content with Ok (VDict _) => true | _ => false end.

(** A case-insensitive substring test, for the letters of ASCII. *)
Definition contains_nocase (w s : string) : bool :=
  PyStr.contains (Pg.lower w) (Pg.lower s).

(** A keyword occurs in the statement, without regard to letter case. *)
Definition has_keyword (sql : string) : Prop :=
  exists word, In word forbidden /\ PyStr.contains word (PyStr.upper sql) = true.

(** The statement starts with SELECT, as the executor reads it: without
    regard to letter case or surrounding whitespace. *)
Definition starts_with_select (sql : string) : bool :=
  PyStr.startswith (PyStr.strip (PyStr.upper sql)) "SELECT".

(** The number a numeric filter field stands for: none when the field is
    absent, else the number the server reads in the value. *)
Definition reads_as (env : Env) (v : PyVal) (x : option Q) : Prop :=
  match v with
  | VNone => x = None
  | _ => exists q, Sql.read_number env v = Some (Some q) /\ x = Some q
  end.

(** The text of the category field, when it is present. *)
Definition category_text (env : Env) (v : PyVal) : option string :=
  match v with
  | VNone => None
  | _ => Some (py_str env v)
  end.

(** The comparisons of the resolver's statement: one per present field,
    [TRUE] when none is present, and the test that the selected column is
    not NULL. *)
Definition resolver_atoms (min_price max_price min_rating category : PyVal)
  : list Sql.Atom :=
  let present :=
    ((if is_not_none min_price then [Sql.Ge Sql.Price] else []) ++
     (if is_not_none max_price then [Sql.Le Sql.Price] else []) ++
     (if is_not_none min_rating then [Sql.Ge Sql.AverageRating] else []) ++
     (if is_not_none category then [Sql.ILike Sql.MainCategory] else []))%list in
  (match present with
   | [] => [Sql.TrueLit]
   | _ => present
   end ++ [Sql.NotNull Sql.ParentAsin])%list.

(** The conjunction the resolver is to apply: one conjunct per present
    field, none for an absent one. *)
Definition candidate_predicate (env : Env) (min_price max_price min_rating : option Q)
    (category : option string) (p : Product) : bool :=
  match min_price with Some m => col_ge (price p) m | None => true end &&
  match max_price with Some m => col_le (price p) m | None => true end &&
  match min_rating with Some m => col_ge (average_rating p) m | None => true end &&
  match category with
  | Some c => col_ilike env (main_category p) ("%" ++ c ++ "%")
  | None => true
  end.

Definition is_digit (c : ascii) : bool :=
  ((48 <=? PyStr.code c) && (PyStr.code c <=? 57))%N.

(** The filter fields the context header can show, with the text that
    introduces each. *)
Definition header_labels : list (string * string) :=
  [("max_price", ", max price: $");
   ("min_rating", ", min rating: ");
   ("category", ", category: ")].

Definition concat_str (l : list string) : string := fold_right String.append "" l.

(** The header, field by field: the candidate count, then the fields
    whose value is truthy, in a fixed order. *)
Definition rendered_header (env : Env) (context : RetrievalResult)
    (filters : gmap string PyVal) : string :=
  "(Filtered from " ++ PyStr.of_Z (Z.of_nat (filter_count context)) ++ " products" ++
  concat_str
    (map (fun kl => kl.2 ++ py_str env (dict_get filters kl.1))
         (List.filter (fun kl => truthy (dict_get filters kl.1)) header_labels)) ++
  ")" ++ nl ++ nl.

(** The whole context: the header, then one entry per result. *)
Definition rendered_context (env : Env) (context : RetrievalResult)
    (filters : gmap string PyVal) : string :=
  rendered_header env context filters ++
  concat_str
    (map (format_entry env)
         (zip4 (retrieved_context_ids context) (retrieved_context context)
               (retrieved_context_ratings context) (similarity_scores context))).

(** [s] is two decimal digits. *)
Definition two_decimals (s : string) : bool :=
  match s with
  | String d1 (String d2 EmptyString) => is_digit d1 && is_digit d2
  | _ => false
  end.

(** Two hits, as [hybrid_retrieve] returns them. *)
Definition two_hits : RetrievalResult :=
  {| retrieved_context_ids := [VStr "P1"; VStr "P2"];
     retrieved_context := [VStr "about P1"; VStr "about P2"];
     retrieved_context_ratings := [VInt 4; VInt 5];
     similarity_scores := [7 # 8; 3 # 8];
     filter_count := 6 |}.

Definition price_and_category : gmap string PyVal :=
  list_to_map [("max_price", VInt 100); ("min_rating", VNone);
               ("category", VStr "Audio"); ("sort_by", VStr "rating")].

(* ===================================================================== *)
(** ** Concrete environments *)
(* ===================================================================== *)

(** A process whose text-generation service answers by [reply], whose JSON
    decoder is [loads], whose table is [table] and whose vector collection
    is [store], kept in rank order. *)
Definition services (reply : Prompt -> Res string) (loads : string -> Res PyVal)
    (table : list Product) (store : list ScoredPoint)
    (query : Trace -> string -> list PyVal -> Res (list (option string))) : Env :=
  {| openai_create := fun _ p => reply p;
     json_loads := loads;
     py_repr := fun _ => "<object>";
     products := table;
     pg_numeric_in := fun _ => None;
     pg_ilike := Pg.ilike;
     pg_execute := fun _ _ => Ok [];
     pg_query := query;
     embedding := fun _ _ => Ok [];
     query_points := fun _ _ ids k =>
       if k <? 0 then Raise (ServiceError "limit must be positive")
       else Ok (take (Z.to_nat k) (List.filter (hit_in ids) store)) |}.

(** The relational store of the process answers by the reference
    execution, the rows in the order of [table]. *)
Definition test_env (reply : Prompt -> Res string) (loads : string -> Res PyVal)
    (table : list Product) (store : list ScoredPoint) : Env :=
  services reply loads table store
    (fun _ => Sql.run (services reply loads table store
                         (fun _ _ _ => Raise (DatabaseError "no answer")))).

Definition reply_with (s : string) : Prompt -> Res string := fun _ => Ok s.

(** A decoder that knows the literal [null] and nothing else. *)
Definition loads_null (s : string) : Res PyVal :=
  if String.eqb s "null" then Ok VNone else Raise JSONDecodeError.

Definition product (a : string) (p r : Q) (cat : string) : Product :=
  {| asin := a; parent_asin := Some a; price := Some p;
     average_rating := Some r; main_category := Some cat |}.

Definition point (a : string) (s : Q) : ScoredPoint :=
  {| payload := list_to_map [("parent_asin", VStr a);
                             ("description", VStr ("about " ++ a));
                             ("average_rating", VInt 4)];
     score := s |}.

Definition books : list Product := [product "B1" 10 4 "Books"].

Definition six_products : list Product :=
  [product "P1" 10 4 "Audio"; product "P2" 20 4 "Audio"; product "P3" 30 4 "Audio";
   product "P4" 40 4 "Audio"; product "P5" 50 4 "Audio"; product "P6" 60 4 "Audio"].

Definition six_points : list ScoredPoint :=
  [point "P1" (9 # 10); point "P2" (8 # 10); point "P3" (7 # 10);
   point "P4" (6 # 10); point "P5" (5 # 10); point "P6" (4 # 10)].

(** One item stored as two points (two chunks of its description). *)
Definition chunked_points : list ScoredPoint :=
  [point "B1" (9 # 10); point "B1" (8 # 10)].

(** A classifier answer with a trailing line break. *)
Definition sql_newline : string := "sql" ++ nl.

(** The state after the classify node has run on [question] with the
    classifier's answer [content]. *)
Definition classified_state (question content : string) : gmap string PyVal :=
  <["confidence" :=
      VFloat (if bool_decide (is_Some (intent_map !! normalized content))
              then 9 # 10 else 1 # 2)]>
    (<["intent" := VIntent (classified_intent content)]> (initial_state question))
  ∪ initial_state question.

(** A process whose text-generation service always answers [null]. *)
Definition null_env : Env := test_env (reply_with "null") loads_null [] [].

(** A process with an empty catalogue. *)
Definition empty_env : Env := test_env (reply_with "rag") loads_null [] [].

(** A one-book catalogue whose vector collection keeps the book as two
    chunks. *)
Definition chunked_env : Env := test_env (reply_with "hybrid") loads_null books chunked_points.

(** Six products, six points. *)
Definition six_env : Env := test_env (reply_with "hybrid") loads_null six_products six_points.

(** A statement with blanks before the keyword, in lower case. *)
Definition select_one : string := "  select 1".

(** An extraction response that is fenced but is not JSON. *)
Definition fenced_text : string :=
  "```json" ++ nl ++ "max price: 100" ++ nl ++ "```" ++ nl.

Definition fenced_env : Env := test_env (reply_with fenced_text) loads_null [] [].

(** A catalogue of one phone case. *)
Definition phones : list Product :=
  [product "C1" 15 4 "Cell Phones & Accessories"].

Definition phones_env : Env := test_env (reply_with "hybrid") loads_null phones [].


(* ===================================================================== *)
(** ** Further notions: the router *)
(* ===================================================================== *)

(** The fields of [QueryFilters]. *)
Definition filter_keys : list string :=
  ["min_price"; "max_price"; "min_rating"; "category"; "sort_by"; "limit"].

(** The events of a classification, and of a filter extraction, inside
    [route_query]. *)
Definition classify_events (question : string) : list Event :=
  [Run "route_query"; Run "classify_intent";
   LlmCall (INTENT_CLASSIFICATION_PROMPT question)].

Definition extract_events (question : string) : list Event :=
  [Run "extract_filters"; LlmCall (FILTER_EXTRACTION_PROMPT question)].

(** A process whose text-generation service is down. *)
Definition down_env : Env :=
  test_env (fun _ => Raise (ServiceError "service unavailable")) loads_null [] [].

(** A service that classifies, then fails on every other call. *)
Definition extractor_down (p : Prompt) : Res string :=
  match p with
  | INTENT_CLASSIFICATION_PROMPT _ => Ok "hybrid"
  | _ => Raise (ServiceError "service unavailable")
  end.

Definition extractor_down_env : Env := test_env extractor_down loads_null [] [].

(** A service that classifies as HYBRID and answers [null] to the
    extraction. *)
Definition null_extraction (p : Prompt) : Res string :=
  match p with
  | INTENT_CLASSIFICATION_PROMPT _ => Ok "hybrid"
  | _ => Ok "null"
  end.


(** A decoder that meets the interpreter's limit on the digits of an
    integer. *)
Definition loads_over_limit (s : string) : Res PyVal :=
  Raise (ValueError "Exceeds the limit (4300 digits) for integer string conversion").

Definition over_limit_env : Env := test_env null_extraction loads_over_limit [] [].

(** The double-quote character. *)
Definition dquote : string := String (ascii_of_N 34) EmptyString.

(** An extraction response: a JSON object with one filter, the semantic
    query and a field the schema does not know. *)
Definition json_headphones : string :=
  "{" ++ dquote ++ "max_price" ++ dquote ++ ": 100, " ++
  dquote ++ "semantic_query" ++ dquote ++ ": " ++
  dquote ++ "best headphones" ++ dquote ++ ", " ++
  dquote ++ "brand" ++ dquote ++ ": " ++ dquote ++ "Sony" ++ dquote ++ "}".

Definition headphones_object : gmap string PyVal :=
  list_to_map [("max_price", VInt 100);
               ("semantic_query", VStr "best headphones");
               ("brand", VStr "Sony")].

(** The filters the extractor makes of it. *)
Definition headphones_filters : gmap string PyVal :=
  list_to_map (map (fun key => (key, dict_get headphones_object key)) filter_keys).

(** A decoder that knows this one text. *)
Definition loads_headphones (s : string) : Res PyVal :=
  if String.eqb s json_headphones then Ok (VDict headphones_object)
  else Raise JSONDecodeError.

(** A service that classifies as HYBRID, answers the extraction with the
    object inside a markdown fence, and answers anything else with a
    fixed sentence. *)
Definition headphones_reply (p : Prompt) : Res string :=
  match p with
  | INTENT_CLASSIFICATION_PROMPT _ => Ok "HYBRID"
  | FILTER_EXTRACTION_PROMPT _ => Ok ("```json" ++ nl ++ json_headphones ++ nl ++ "```")
  | _ => Ok "These headphones fit."
  end.

Definition headphones_env : Env :=
  test_env headphones_reply loads_headphones six_products six_points.

(* ===================================================================== *)
(** ** Further notions: the SQL agent *)
(* ===================================================================== *)

(** The process [env] with a store that answers every free-form statement
    with [rows], or that fails on every one. *)
Definition with_rows (rows : list (gmap string PyVal)) (env : Env) : Env :=
  {| openai_create := openai_create env; json_loads := json_loads env;
     py_repr := py_repr env; products := products env;
     pg_numeric_in := pg_numeric_in env; pg_ilike := pg_ilike env;
     pg_execute := fun _ _ => Ok rows; pg_query := pg_query env;
     embedding := embedding env; query_points := query_points env |}.

Definition with_store_error (msg : string) (env : Env) : Env :=
  {| openai_create := openai_create env; json_loads := json_loads env;
     py_repr := py_repr env; products := products env;
     pg_numeric_in := pg_numeric_in env; pg_ilike := pg_ilike env;
     pg_execute := fun _ _ => Raise (DatabaseError msg); pg_query := pg_query env;
     embedding := embedding env; query_points := query_points env |}.

(** A statement over a column the schema description lists. *)
Definition newest_first : string :=
  "SELECT title FROM products ORDER BY created_at DESC LIMIT 5".

Definition count_products : string := "SELECT COUNT(*) FROM products".

Definition count_row : gmap string PyVal := {[ "count" := VInt 6 ]}.

(** A fenced answer of the statement generator, with a line break after
    the closing fence. *)
Definition fenced_sql : string :=
  "```sql" ++ nl ++ count_products ++ nl ++ "```" ++ nl.

(** A service that answers the statement generator with [sql] and any
    other prompt with [answer]. *)
Definition sql_reply (sql answer : string) (p : Prompt) : Res string :=
  match p with
  | SqlGenerationPrompt _ => Ok sql
  | _ => Ok answer
  end.

Definition sql_env (sql answer : string) : Env :=
  test_env (sql_reply sql answer) loads_null six_products six_points.

(** The statement texts sent to the store, in order. *)
Definition statement_texts (tr : Trace) : list string :=
  omap (fun e => match e with DbExecute sql _ => Some sql | _ => None end) tr.


(** Twelve rows, as a store returns them. *)
Definition twelve_rows : list (gmap string PyVal) :=
  map (fun z => {[ "rank" := VInt z ]}) [1; 2; 3; 4; 5; 6; 7; 8; 9; 10; 11; 12].

(* ===================================================================== *)
(** ** Further notions: the hybrid pipeline *)
(* ===================================================================== *)

(** The payload keys [hybrid_retrieve] reads from every hit. *)
Definition hit_keys : list string := ["parent_asin"; "description"; "average_rating"].

(** [result.payload.get(key)] as an option. *)
Definition hit_field (key : string) (p : ScoredPoint) : option PyVal := payload p !! key.

(** The hit carries all the keys that are read. *)
Definition complete_hit (p : ScoredPoint) : bool :=
  forallb (fun key => bool_decide (is_Some (hit_field key p))) hit_keys.

(** What the four fields the resolver reads stand for in a filters
    dictionary: the numbers the server reads in the three numeric fields
    and the text of the category, each for a field that is present. *)
Definition filters_read (env : Env) (filters : gmap string PyVal)
    (min_price max_price min_rating : option Q) (category : option string) : Prop :=
  reads_as env (dict_get filters "min_price") min_price /\
  reads_as env (dict_get filters "max_price") max_price /\
  reads_as env (dict_get filters "min_rating") min_rating /\
  category_text env (dict_get filters "category") = category.

(** The filter fields [hybrid.py] reads. *)
Definition read_keys : list string := ["min_price"; "max_price"; "min_rating"; "category"].

(** A hit without a description. *)
Definition bare_point (a : string) (s : Q) : ScoredPoint :=
  {| payload := list_to_map [("parent_asin", VStr a); ("average_rating", VInt 4)];
     score := s |}.

Definition bare_env : Env :=
  test_env (reply_with "hybrid") loads_null six_products
    [point "P1" (9 # 10); bare_point "P2" (8 # 10)].

(** Filters as the extractor returns them for a price ceiling of 30. *)
Definition under_30 : gmap string PyVal :=
  list_to_map [("min_price", VNone); ("max_price", VInt 30); ("min_rating", VNone);
               ("category", VNone); ("sort_by", VNone); ("limit", VNone)].

(** What belongs to routing: the runs of the router's three traced
    functions and the two prompts they send. *)
Definition routing_names : list string :=
  ["route_query"; "classify_intent"; "extract_filters"].

Definition is_routing (e : Event) : bool :=
  match e with
  | Run name => bool_decide (name ∈ routing_names)
  | LlmCall (INTENT_CLASSIFICATION_PROMPT _) => true
  | LlmCall (FILTER_EXTRACTION_PROMPT _) => true
  | _ => false
  end.

(** The criteria paragraph of the hybrid prompt. *)
Definition criteria_text (env : Env) (filters : gmap string PyVal) : string :=
  let summary := filter_summary env filters in
  match summary with
  | [] => "No specific filters"
  | _ => PyStr.join_nl summary
  end.

(** Filters that name a sort order and a result count only. *)
Definition sorted_top_3 : gmap string PyVal :=
  list_to_map [("sort_by", VStr "price"); ("limit", VInt 3)].

(** A pipeline result without the echo of the filters it was given. *)
Definition forget_filters (r : HybridPipelineResult) : HybridPipelineResult :=
  {| hp_answer := hp_answer r; hp_question := hp_question r;
     hp_intent := hp_intent r; hp_filters := VNone;
     hp_semantic_query := hp_semantic_query r;
     hp_retrieved_context_ids := hp_retrieved_context_ids r;
     hp_retrieved_context := hp_retrieved_context r;
     hp_similarity_scores := hp_similarity_scores r;
     hp_filter_count := hp_filter_count r |}.

Definition res_map {A B} (f : A -> B) (r : Res A) : Res B :=
  match r with Ok a => Ok (f a) | Raise e => Raise e end.

(** A price ceiling alone, and the same with a sort order and a result
    count. *)
Definition ceiling_30 : gmap string PyVal := {[ "max_price" := VInt 30 ]}.

Definition ceiling_30_sorted : gmap string PyVal :=
  <["sort_by" := VStr "price"]> (<["limit" := VInt 3]> ceiling_30).

(* ===================================================================== *)
(** ** endpoints.py *)
(* ===================================================================== *)

(** [SQLResponse] and [ChatResponse] of models.py. *)
Record SQLResponse := {
  sqlr_request_id : string;
  sqlr_answer : string;
  sqlr_sql_query : string;
  sqlr_result_count : Z
}.

Record ChatResponse := {
  chat_request_id : string;
  chat_answer : string;
  chat_intent : string;
  chat_filters : PyVal
}.

(** The field [filters: dict | None] of [ChatResponse]: the model
    validates what it is given. *)
Definition validate_filters (v : PyVal) : M PyVal :=
  match v with
  | VNone | VDict _ => ret v
  | _ => raise (ValueError "validation error for ChatResponse")
  end.

Section Endpoints.
Context (env : Env).

(** [rag_pipeline(query, qdrant_client)["answer"]]: the retrieval module
    is outside the three agent modules; the endpoints are read for any
    computation in its place. *)
Context (rag_answer : string -> M string).

(** The handler of [POST /sql]. *)
Definition sql (request_id query : string) : M SQLResponse :=
  do result <- sql_pipeline env query;
  ret {| sqlr_request_id := request_id;
         sqlr_answer := sql_answer result;
         sqlr_sql_query := sql_query result;
         sqlr_result_count :=
           match sql_result_count result with
           | Some n => Z.of_nat n
           | None => 0
           end |}.

(** The handler of [POST /chat]. *)
Definition chat (request_id query : string) : M ChatResponse :=
  do route_result <- route_query env query;
  do intent <- state_item route_result "intent";
  if eq_intent intent SQL then
    do result <- sql_pipeline env query;
    ret {| chat_request_id := request_id; chat_answer := sql_answer result;
           chat_intent := "sql"; chat_filters := VNone |}
  else if eq_intent intent HYBRID then
    do result <- hybrid_pipeline env query (dict_get route_result "filters")
                   (dict_get route_result "semantic_query") None;
    do filters <- validate_filters (hp_filters result);
    ret {| chat_request_id := request_id; chat_answer := hp_answer result;
           chat_intent := "hybrid"; chat_filters := filters |}
  else
    do answer <- rag_answer query;
    ret {| chat_request_id := request_id; chat_answer := answer;
           chat_intent := "rag"; chat_filters := VNone |}.

End Endpoints.

(* ===================================================================== *)
(** ** Further observations on traces *)
(* ===================================================================== *)

(** The events of a stretch of history use connections one at a time:
    read from a state where a connection is [open] or not, every
    statement runs on an open connection, a connection is opened only
    when none is open and closed only when one is, and none is left open
    at the end. *)
Fixpoint db_closed (open : bool) (evs : list Event) : bool :=
  match evs with
  | [] => negb open
  | DbConnect :: rest => negb open && db_closed true rest
  | DbExecute _ _ :: rest => open && db_closed true rest
  | DbClose :: rest => open && db_closed false rest
  | _ :: rest => db_closed open rest
  end.

Definition connections_closed (evs : list Event) : Prop := db_closed false evs = true.

Definition is_db (e : Event) : bool :=
  match e with DbConnect | DbExecute _ _ | DbClose => true | _ => false end.

(** Whatever the history, what the computation adds to it satisfies [Q],
    whether it returns or raises. *)
Definition adds {A} (Q : list Event -> Prop) (m : M A) : Prop :=
  forall tr, exists evs, (m tr).2 = (tr ++ evs)%list /\ Q evs.

(** A retrieval pipeline that embeds the query and answers. *)
Definition plain_rag (env : Env) (query : string) : M string :=
  traceable "rag_pipeline" (
    do_ call (Embed (VStr query)) (fun tr => embedding env tr (VStr query));
    ret "Here is what I found.").

(* ===================================================================== *)
(** ** sql_agent.py: the result formatter *)
(* ===================================================================== *)

Section FormatSql.
Context (env : Env).

(** What a dictionary raises when it is indexed by a slice: [TypeError]
    (unhashable slice) up to Python 3.11, [KeyError] from 3.12 on. *)
Context (dict_slice_error : Exn).

(** [row['title'][:80]], as the f-string then formats it. *)
Definition title_80 (title : PyVal) : Res string :=
  match title with
  | VStr s => Ok (PyStr.slice_to 80 s)
  | VIntent i => Ok (PyStr.slice_to 80 (intent_value i))
  | VList l => Ok (py_str env (VList (take 80 l)))
  | VDict _ => Raise dict_slice_error
  | VNone => Raise (TypeError "'NoneType' object is not subscriptable")
  | VBool _ => Raise (TypeError "'bool' object is not subscriptable")
  | VInt _ => Raise (TypeError "'int' object is not subscriptable")
  | VFloat _ => Raise (TypeError "'float' object is not subscriptable")
  end.

(** The body of the loop for the row numbered [i]. *)
Definition format_row (i : Z) (row : gmap string PyVal) (formatted : string)
  : Res string :=
  let formatted := formatted ++ PyStr.of_Z i ++ ". " in
  res_bind
    (match row !! "title" with
     | Some title =>
         res_bind (title_80 title) (fun t => Ok (formatted ++ "**" ++ t ++ "**" ++ nl))
     | None => Ok formatted
     end) (fun formatted =>
  let formatted :=
    match row !! "price" with
    | Some p =>
        if truthy p then formatted ++ "   Price: $" ++ py_str env p ++ nl else formatted
    | None => formatted
    end in
  let formatted :=
    match row !! "average_rating" with
    | Some r =>
        let formatted := formatted ++ "   Rating: " ++ py_str env r ++ "/5" in
        let formatted :=
          match row !! "rating_number" with
          | Some n => formatted ++ " (" ++ py_str env n ++ " reviews)"
          | None => formatted
          end in
        formatted ++ nl
    | None => formatted
    end in
  let formatted :=
    match row !! "main_category" with
    | Some c => formatted ++ "   Category: " ++ py_str env c ++ nl
    | None => formatted
    end in
  let formatted :=
    match row !! "parent_asin" with
    | Some a => formatted ++ "   ID: " ++ py_str env a ++ nl
    | None => formatted
    end in
  Ok (formatted ++ nl)).

(** The loop over [enumerate(results, 1)], from the row numbered [i] on. *)
Fixpoint format_rows (i : Z) (results : list (gmap string PyVal)) (formatted : string)
  : Res string :=
  match results with
  | [] => Ok formatted
  | row :: rest => res_bind (format_row i row formatted) (format_rows (i + 1) rest)
  end.

Definition format_sql_results (results : list (gmap string PyVal)) (question : string)
  : M string :=
  traceable "format_sql_results" (
    match results with
    | [] => ret "No products found matching your criteria."
    | _ =>
        lift (format_rows 1 results
                ("Found " ++ PyStr.of_Z (Z.of_nat (length results)) ++ " product(s):"
                 ++ nl ++ nl))
    end).

End FormatSql.

(** The title of a row, if the row has one, is text. *)
Definition text_title (row : gmap string PyVal) : bool :=
  match row !! "title" with
  | None | Some (VStr _) => true
  | Some _ => false
  end.

(** The title of the row is NULL. *)
Definition null_title (row : gmap string PyVal) : bool :=
  match row !! "title" with
  | Some VNone => true
  | _ => false
  end.

(** Two rows as the store returns them, the second without a title and
    without a price. *)
Definition two_rows : list (gmap string PyVal) :=
  [ list_to_map [("title", VStr "Kettle"); ("price", VInt 25)];
    list_to_map [("title", VNone); ("price", VNone)] ].
Local Open Scope list_scope.

(* ===================================================================== *)
(** ** Sanity checks of the embedding on concrete inputs *)
(* ===================================================================== *)

Example strip_ex : PyStr.strip "  sql " = "sql".
Proof. reflexivity. Qed.
Example upper_ex : PyStr.upper "Hybrid1" = "HYBRID1".
Proof. reflexivity. Qed.
Example strip_wide_ex : PyStr.strip ("SQL" ++ PyStr.of_codes [194; 160]%N)%string = "SQL".
Proof. vm_compute. reflexivity. Qed.
Example upper_wide_ex :
  PyStr.upper "ſql" = "SQL" /\ PyStr.upper "straße" = "STRASSE" /\
  PyStr.upper "SELECT 'ınsert'" = "SELECT 'INSERT'".
Proof. repeat split; vm_compute; reflexivity. Qed.
Example slice_to_ex : PyStr.slice_to 2 "héllo" = "hé".
Proof. vm_compute. reflexivity. Qed.
Example of_Z_ex : PyStr.of_Z 0 = "0" /\ PyStr.of_Z (-12) = "-12" /\ PyStr.of_Z 100 = "100".
Proof. repeat split; reflexivity. Qed.
Example split_ex :
  PyStr.split_nl (String "a" (String PyStr.newline (String PyStr.newline "b")))
  = ["a"; ""; "b"].
Proof. reflexivity. Qed.
Example like_ex1 : Pg.ilike "Home & Kitchen" "%kitchen%" = true.
Proof. reflexivity. Qed.
Example like_ex2 : Pg.ilike "Books" "%_%" = true /\ PyStr.contains "_" "books" = false.
Proof. split; reflexivity. Qed.
Example like_ex3 : Pg.ilike "a_b" "%a\_b%" = true /\ Pg.ilike "axb" "%a\_b%" = false.
Proof. split; reflexivity. Qed.

(** The statement is read from its text: without DISTINCT it is not a
    distinct selection, and OR binds looser than AND. *)
Example parse_ex1 :
  Sql.parse "SELECT parent_asin FROM products WHERE TRUE LIMIT %s"
  = Some {| Sql.distinct := false; Sql.condition := [[Sql.TrueLit]] |}.
Proof. vm_compute. reflexivity. Qed.
Example parse_ex2 :
  Sql.parse ("SELECT DISTINCT parent_asin FROM products " ++
             "WHERE price >= %s OR price <= %s AND parent_asin IS NOT NULL LIMIT %s")
  = Some {| Sql.distinct := true;
            Sql.condition := [[Sql.Ge Sql.Price];
                              [Sql.Le Sql.Price; Sql.NotNull Sql.ParentAsin]] |}.
Proof. vm_compute. reflexivity. Qed.
Example parse_ex3 : Sql.parse "DELETE FROM products" = None.
Proof. vm_compute. reflexivity. Qed.

(* ===================================================================== *)
(** ** Running computations *)
(* ===================================================================== *)

Lemma bind_ok {A B} (m : M A) (k : A -> M B) tr a tr' :
  m tr = (Ok a, tr') -> bind m k tr = k a tr'.
Proof. intros H. unfold bind. now rewrite H. Qed.

Lemma bind_raise {A B} (m : M A) (k : A -> M B) tr e tr' :
  m tr = (Raise e, tr') -> bind m k tr = (Raise e, tr').
Proof. intros H. unfold bind. now rewrite H. Qed.

Lemma traceable_eq {A} name (body : M A) tr :
  traceable name body tr = body (tr ++ [Run name]).
Proof. reflexivity. Qed.

Lemma runs_of_app name tr evs :
  runs_of name (tr ++ evs) = (runs_of name tr + runs_of name evs)%nat.
Proof. unfold runs_of. now rewrite List.filter_app, length_app. Qed.

(* ===================================================================== *)
(** ** Strings: stripping and case *)
(* ===================================================================== *)

Lemma append_cons a c s : (String a c ++ s)%string = String a (c ++ s)%string.
Proof. reflexivity. Qed.

Lemma append_nil s : (EmptyString ++ s)%string = s.
Proof. reflexivity. Qed.

Lemma append_assoc (a b c : string) : ((a ++ b) ++ c = a ++ (b ++ c))%string.
Proof.
  induction a as [|x a IH]; [reflexivity|].
  rewrite !append_cons. f_equal. exact IH.
Qed.

Lemma append_nil_r (a : string) : (a ++ "")%string = a.
Proof.
  induction a as [|x a IH]; [reflexivity|]. rewrite append_cons. f_equal. exact IH.
Qed.

Lemma string_eqb_true a b : String.eqb a b = true -> a = b.
Proof. apply String.eqb_eq. Qed.

(** The characters of a text, put together again, are the text. *)
Lemma concat_chars s : PyStr.concat (PyStr.chars s) = s.
Proof.
  induction s as [|c s IH]; [reflexivity|].
  cbn [PyStr.chars].
  destruct (negb (PyStr.is_ascii c) && PyStr.starts_cont s) eqn:E.
  - destruct (PyStr.chars s) as [|u us].
    + cbn in IH. subst s. reflexivity.
    + cbn [PyStr.concat fold_right] in *. rewrite append_cons. now f_equal.
  - cbn [PyStr.concat fold_right] in *. rewrite append_cons, append_nil. now f_equal.
Qed.

Lemma concat_app a b :
  PyStr.concat (a ++ b) = (PyStr.concat a ++ PyStr.concat b)%string.
Proof.
  unfold PyStr.concat. induction a as [|x a IH]; [reflexivity|].
  cbn [app fold_right]. now rewrite IH, append_assoc.
Qed.

Lemma all_blank_app a b :
  all_blank (a ++ b)%string = all_blank a && all_blank b.
Proof.
  induction a as [|c a IH]; [reflexivity|].
  rewrite append_cons. cbn [all_blank]. now rewrite IH, andb_assoc.
Qed.

Lemma ascii_space_upper_char c :
  PyStr.ascii_space c = true -> PyStr.upper_char c = c.
Proof. destruct c as [[] [] [] [] [] [] [] []]; intros H; try reflexivity; discriminate H. Qed.

Lemma wide_spaces_blank :
  forallb (fun w => negb (PyStr.is_empty w) && all_blank w &&
                    String.eqb (PyStr.upper_of w) w) PyStr.wide_spaces = true.
Proof. vm_compute. reflexivity. Qed.

(** A whitespace character is made of blank bytes and has no upper case
    of its own. *)
Lemma isspace_blank u :
  PyStr.isspace u = true ->
  u <> EmptyString /\ all_blank u = true /\ PyStr.upper_of u = u.
Proof.
  intros H.
  assert (Hwide : existsb (String.eqb u) PyStr.wide_spaces = true ->
                  u <> EmptyString /\ all_blank u = true /\ PyStr.upper_of u = u).
  { intros Hex. apply existsb_exists in Hex as (w & Hin & Hw).
    apply string_eqb_true in Hw. subst w.
    pose proof (proj1 (forallb_forall _ _) wide_spaces_blank u Hin) as Hu.
    apply andb_prop in Hu as [Hu H3]. apply andb_prop in Hu as [H1 H2].
    repeat split; [now destruct u | exact H2 | now apply string_eqb_true]. }
  destruct u as [|c [|d r]]; [discriminate H | | exact (Hwide H)].
  cbn [PyStr.isspace] in H. repeat split; [discriminate | |].
  - cbn [all_blank]. unfold blank. now rewrite H.
  - cbn [PyStr.upper_of]. now rewrite ascii_space_upper_char.
Qed.

Lemma lstrip_chars_split l :
  exists pre, l = pre ++ PyStr.lstrip_chars l /\
              Forall (fun u => PyStr.isspace u = true) pre.
Proof.
  induction l as [|u l (pre & E & F)]; [exists []; split; [reflexivity|constructor]|].
  cbn [PyStr.lstrip_chars]. destruct (PyStr.isspace u) eqn:Hu.
  - exists (u :: pre). split; [cbn; now f_equal | now constructor].
  - exists []. split; [reflexivity|constructor].
Qed.

Lemma rstrip_chars_split l :
  exists post, l = PyStr.rstrip_chars l ++ post /\
               Forall (fun u => PyStr.isspace u = true) post.
Proof.
  destruct (lstrip_chars_split (rev l)) as (pre & E & F).
  exists (rev pre). split.
  - unfold PyStr.rstrip_chars. rewrite <- rev_app_distr, <- E. now rewrite rev_involutive.
  - now apply List.Forall_rev.
Qed.

Lemma all_blank_concat l :
  Forall (fun u => PyStr.isspace u = true) l -> all_blank (PyStr.concat l) = true.
Proof.
  induction 1 as [|u l Hu _ IH]; [reflexivity|].
  cbn [PyStr.concat fold_right]. rewrite all_blank_app.
  destruct (isspace_blank u Hu) as (_ & Hb & _).
  now rewrite Hb.
Qed.

(** Stripping removes a run of blank bytes at each end. *)
Lemma strip_split s :
  exists x y, s = (x ++ PyStr.strip s ++ y)%string /\
              all_blank x = true /\ all_blank y = true.
Proof.
  destruct (lstrip_chars_split (PyStr.chars s)) as (pre & E1 & F1).
  destruct (rstrip_chars_split (PyStr.lstrip_chars (PyStr.chars s))) as (post & E2 & F2).
  exists (PyStr.concat pre), (PyStr.concat post). split; [|split].
  - unfold PyStr.strip. rewrite <- concat_app, <- E2, <- concat_app, <- E1.
    symmetry. apply concat_chars.
  - now apply all_blank_concat.
  - now apply all_blank_concat.
Qed.

Lemma solid_not_blank a c :
  PyStr.is_ascii a && negb (PyStr.ascii_space a) = true -> blank c = true ->
  Ascii.eqb a c = false.
Proof.
  intros Ha Hc. destruct (Ascii.eqb a c) eqn:E; [|reflexivity].
  apply Ascii.eqb_eq in E. subst c. unfold blank in Hc.
  apply andb_prop in Ha as [H1 H2]. rewrite H1 in Hc.
  destruct (PyStr.ascii_space a); discriminate.
Qed.

Lemma startswith_nil s : PyStr.startswith s "" = true.
Proof. now destruct s. Qed.

Lemma contains_blank_l w x t :
  w <> EmptyString -> solid w = true -> all_blank x = true ->
  PyStr.contains w (x ++ t)%string = PyStr.contains w t.
Proof.
  intros Hw Hs Hx. destruct w as [|a w]; [contradiction|].
  cbn [solid] in Hs. apply andb_prop in Hs as [Ha _].
  induction x as [|c x IH]; [reflexivity|].
  cbn [all_blank] in Hx. apply andb_prop in Hx as [Hc Hx].
  rewrite append_cons. cbn [PyStr.contains PyStr.startswith].
  rewrite (solid_not_blank a c Ha Hc). cbn [andb orb]. exact (IH Hx).
Qed.

Lemma startswith_blank_r w x t :
  w <> EmptyString -> solid w = true -> all_blank x = true ->
  PyStr.startswith (t ++ x)%string w = PyStr.startswith t w.
Proof.
  intros Hw Hs Hx. revert t Hw Hs.
  induction w as [|a w IH]; intros t Hw Hs; [contradiction|].
  cbn [solid] in Hs. apply andb_prop in Hs as [Ha Hs].
  destruct t as [|b t].
  - rewrite append_nil. destruct x as [|c x]; [reflexivity|].
    cbn [all_blank] in Hx. apply andb_prop in Hx as [Hc _].
    cbn [PyStr.startswith]. now rewrite (solid_not_blank a c Ha Hc).
  - rewrite append_cons. cbn [PyStr.startswith].
    destruct w as [|a' w].
    + now rewrite !startswith_nil.
    + f_equal. apply IH; [discriminate | exact Hs].
Qed.

Lemma contains_blank_r w x t :
  w <> EmptyString -> solid w = true -> all_blank x = true ->
  PyStr.contains w (t ++ x)%string = PyStr.contains w t.
Proof.
  intros Hw Hs Hx. induction t as [|b t IH].
  - rewrite append_nil.
    rewrite <- (append_nil_r x), (contains_blank_l w x "" Hw Hs Hx).
    reflexivity.
  - pose proof (startswith_blank_r w x (String b t) Hw Hs Hx) as E.
    rewrite append_cons in *. cbn [PyStr.contains]. now rewrite E, IH.
Qed.

(** A word without whitespace survives stripping: it occurs in the
    stripped text exactly when it occurs in the text. *)
Lemma contains_strip w s :
  w <> EmptyString -> solid w = true ->
  PyStr.contains w (PyStr.strip s) = PyStr.contains w s.
Proof.
  intros Hw Hs. destruct (strip_split s) as (x & y & E & Hx & Hy).
  rewrite E at 2.
  now rewrite (contains_blank_l w x _ Hw Hs Hx), (contains_blank_r w y _ Hw Hs Hy).
Qed.

Lemma lstrip_chars_id l :
  (forall u l', l = u :: l' -> PyStr.isspace u = false) -> PyStr.lstrip_chars l = l.
Proof.
  destruct l as [|u l]; [reflexivity|]. intros H.
  cbn [PyStr.lstrip_chars]. now rewrite (H _ _ eq_refl).
Qed.

Lemma rstrip_chars_id l :
  (forall u l', rev l = u :: l' -> PyStr.isspace u = false) -> PyStr.rstrip_chars l = l.
Proof.
  intros H. unfold PyStr.rstrip_chars. rewrite (lstrip_chars_id _ H).
  apply rev_involutive.
Qed.

Lemma last_byte_app a b :
  b <> EmptyString -> last_byte (a ++ b)%string = last_byte b.
Proof.
  intros Hb. induction a as [|c a IH]; [reflexivity|].
  rewrite append_cons. cbn [last_byte]. rewrite IH.
  destruct b as [|d b]; [contradiction|].
  cbn [last_byte]. now destruct (last_byte b).
Qed.

Lemma all_blank_last u :
  u <> EmptyString -> all_blank u = true ->
  exists c, last_byte u = Some c /\ blank c = true.
Proof.
  induction u as [|c u IH]; [contradiction|]. intros _ H.
  cbn [all_blank] in H. apply andb_prop in H as [Hc Hu].
  cbn [last_byte]. destruct u as [|d u].
  - exists c. now split.
  - destruct (IH ltac:(discriminate) Hu) as (e & He & Hb).
    rewrite He. exists e. now split.
Qed.

(** A text whose first character is whitespace has an upper case that
    begins with a blank byte; likewise at the end. *)
Lemma upper_head_space s u l' :
  PyStr.chars s = u :: l' -> PyStr.isspace u = true ->
  exists c r, PyStr.upper s = String c r /\ blank c = true.
Proof.
  intros E Hu. unfold PyStr.upper. rewrite E.
  destruct (isspace_blank u Hu) as (Hne & Hb & Hup).
  cbn [map PyStr.concat fold_right]. rewrite Hup.
  destruct u as [|c u]; [contradiction|].
  cbn [all_blank] in Hb. apply andb_prop in Hb as [Hc _].
  rewrite append_cons. eauto.
Qed.

Lemma upper_last_space s u l' :
  rev (PyStr.chars s) = u :: l' -> PyStr.isspace u = true ->
  exists c, last_byte (PyStr.upper s) = Some c /\ blank c = true.
Proof.
  intros E Hu. unfold PyStr.upper.
  rewrite <- (rev_involutive (PyStr.chars s)), E. cbn [rev].
  rewrite map_app, concat_app. cbn [map PyStr.concat fold_right].
  destruct (isspace_blank u Hu) as (Hne & Hb & Hup).
  rewrite Hup, append_nil_r, (last_byte_app _ u Hne).
  now apply all_blank_last.
Qed.

Lemma label_text_ends i :
  (exists c r, label_text i = String c r /\ blank c = false) /\
  (exists d, last_byte (label_text i) = Some d /\ blank d = false).
Proof. destruct i; split; cbn; eauto. Qed.

Lemma upper_label_text i : PyStr.upper (label_text i) = label_text i.
Proof. destruct i; reflexivity. Qed.

(** An answer that is a label up to letter case has no whitespace to
    strip. *)
Lemma normalized_of_match output i :
  matches_nocase output (label_text i) = true -> normalized output = label_text i.
Proof.
  unfold matches_nocase, normalized. intros H. apply string_eqb_true in H.
  rewrite upper_label_text in H.
  destruct (label_text_ends i) as ((c & r & E1 & Hc) & (d & E2 & Hd)).
  assert (Hs : PyStr.strip output = output).
  { unfold PyStr.strip.
    rewrite (lstrip_chars_id (PyStr.chars output)).
    - rewrite rstrip_chars_id; [apply concat_chars|].
      intros u l' E. destruct (PyStr.isspace u) eqn:Hu; [exfalso|reflexivity].
      destruct (upper_last_space output u l' E Hu) as (e & He & Hb).
      rewrite H in He. congruence.
    - intros u l' E. destruct (PyStr.isspace u) eqn:Hu; [exfalso|reflexivity].
      destruct (upper_head_space output u l' E Hu) as (e & r' & He & Hb).
      rewrite H in He. congruence. }
  now rewrite Hs.
Qed.

(* ---- letter case ---- *)

Lemma upper_cons_ascii c s :
  PyStr.is_ascii c = true ->
  PyStr.upper (String c s) = String (PyStr.upper_char c) (PyStr.upper s).
Proof.
  intros H. unfold PyStr.upper. cbn [PyStr.chars]. rewrite H. reflexivity.
Qed.

Lemma contains_app_r w x t :
  PyStr.contains w t = true -> PyStr.contains w (x ++ t)%string = true.
Proof.
  intros H. induction x as [|c x IH]; [exact H|].
  rewrite append_cons. cbn [PyStr.contains]. rewrite IH. apply orb_true_r.
Qed.

Lemma special_upper_keys :
  forallb (fun e => negb (PyStr.starts_cont e.1)) PyStr.special_upper = true.
Proof. vm_compute. reflexivity. Qed.

(** A run of continuation bytes at the head of a text is one character,
    made of blank bytes, and has no upper case of its own. *)
Lemma chars_starts_cont s :
  PyStr.starts_cont s = true ->
  exists u us, PyStr.chars s = u :: us /\ PyStr.starts_cont u = true /\
               all_blank u = true.
Proof.
  induction s as [|c s IH]; [discriminate|]. intros H. cbn [PyStr.starts_cont] in H.
  assert (Hna : PyStr.is_ascii c = false).
  { unfold PyStr.is_cont, PyStr.is_ascii in *. apply andb_prop in H as [H1 _].
    apply N.leb_le in H1. apply N.ltb_ge. exact H1. }
  assert (Hb : blank c = true) by (unfold blank; rewrite Hna; apply orb_true_r).
  cbn [PyStr.chars]. rewrite Hna. cbn [negb andb].
  destruct (PyStr.starts_cont s) eqn:Hs.
  - destruct (IH eq_refl) as (u & us & E & Hu & Hbu). rewrite E.
    exists (String c u), us. cbn [PyStr.starts_cont all_blank]. now rewrite H, Hb, Hbu.
  - exists (String c EmptyString), (PyStr.chars s).
    cbn [PyStr.starts_cont all_blank]. now rewrite H, Hb.
Qed.

Lemma upper_of_starts_cont u :
  PyStr.starts_cont u = true -> PyStr.upper_of u = u.
Proof.
  intros H. destruct u as [|c [|d r]]; [discriminate| |].
  - cbn [PyStr.upper_of]. f_equal. cbn [PyStr.starts_cont] in H.
    unfold PyStr.upper_char. unfold PyStr.is_cont in H.
    apply andb_prop in H as [H1 _]. apply N.leb_le in H1.
    destruct (97 <=? PyStr.code c)%N eqn:E1; [|reflexivity].
    destruct (PyStr.code c <=? 122)%N eqn:E2; [|reflexivity].
    apply N.leb_le in E2. lia.
  - unfold PyStr.upper_of.
    destruct (find _ PyStr.special_upper) as [e|] eqn:F; [|reflexivity].
    apply find_some in F as [Hin He]. apply string_eqb_true in He.
    pose proof (proj1 (forallb_forall _ _) special_upper_keys e Hin) as K.
    cbn beta in K. rewrite <- He, H in K. discriminate K.
Qed.

Lemma contains_upper_cons w c s :
  w <> EmptyString -> solid w = true ->
  PyStr.contains w (PyStr.upper s) = true ->
  PyStr.contains w (PyStr.upper (String c s)) = true.
Proof.
  intros Hw Hs H. unfold PyStr.upper in *. cbn [PyStr.chars].
  destruct (negb (PyStr.is_ascii c) && PyStr.starts_cont s) eqn:E.
  - apply andb_prop in E as [_ Hc].
    destruct (chars_starts_cont s Hc) as (u & us & Eu & Hu & Hb).
    rewrite Eu in *. cbn [map PyStr.concat fold_right] in *.
    rewrite (upper_of_starts_cont u Hu), (contains_blank_l w u _ Hw Hs Hb) in H.
    now apply contains_app_r.
  - cbn [map PyStr.concat fold_right]. now apply contains_app_r.
Qed.

Lemma upper_lower_char c : PyStr.upper_char (Pg.lower_char c) = PyStr.upper_char c.
Proof. destruct c as [[] [] [] [] [] [] [] []]; reflexivity. Qed.

Lemma is_ascii_lower_char c : PyStr.is_ascii (Pg.lower_char c) = PyStr.is_ascii c.
Proof. destruct c as [[] [] [] [] [] [] [] []]; reflexivity. Qed.

(** Where a text begins, up to the case of ASCII letters, with an ASCII
    word, its upper case begins with the upper case of the word. *)
Lemma startswith_lower_upper w s :
  Pg.is_ascii w = true ->
  PyStr.startswith (Pg.lower s) (Pg.lower w) = true ->
  PyStr.startswith (PyStr.upper s) (Pg.map_chars PyStr.upper_char w) = true.
Proof.
  revert s. induction w as [|a w IH]; intros s Ha H; [apply startswith_nil|].
  cbn [Pg.is_ascii] in Ha. apply andb_prop in Ha as [Ha Hw].
  destruct s as [|b s]; [discriminate H|].
  cbn [Pg.lower Pg.map_chars PyStr.startswith] in H.
  apply andb_prop in H as [Hab H]. apply Ascii.eqb_eq in Hab.
  assert (Hb : PyStr.is_ascii b = true).
  { now rewrite <- is_ascii_lower_char, <- Hab, is_ascii_lower_char. }
  rewrite (upper_cons_ascii b s Hb). cbn [Pg.map_chars PyStr.startswith].
  rewrite <- (upper_lower_char a), Hab, upper_lower_char, Ascii.eqb_refl.
  cbn [andb]. now apply IH.
Qed.

Lemma contains_lower_upper w s :
  Pg.is_ascii w = true ->
  w <> EmptyString -> solid (Pg.map_chars PyStr.upper_char w) = true ->
  PyStr.contains (Pg.lower w) (Pg.lower s) = true ->
  PyStr.contains (Pg.map_chars PyStr.upper_char w) (PyStr.upper s) = true.
Proof.
  intros Ha Hw Hs.
  assert (Hne : Pg.map_chars PyStr.upper_char w <> EmptyString) by now destruct w.
  induction s as [|c s IH]; intros H.
  - destruct w; [contradiction|discriminate H].
  - cbn [Pg.lower Pg.map_chars PyStr.contains] in H.
    apply orb_prop in H as [H|H].
    + pose proof (startswith_lower_upper w (String c s) Ha H) as H'.
      destruct (PyStr.upper (String c s)); cbn [PyStr.contains]; now rewrite H'.
    + apply contains_upper_cons; [exact Hne | exact Hs | now apply IH].
Qed.

(* ===================================================================== *)
(** ** The intent table *)
(* ===================================================================== *)

Lemma intent_map_label i : intent_map !! label_text i = Some i.
Proof. destruct i; reflexivity. Qed.

Lemma intent_map_other s :
  (forall i, s <> label_text i) -> intent_map !! s = None.
Proof.
  intros H. unfold intent_map. cbn [list_to_map foldr fst snd uncurry].
  rewrite !lookup_insert_ne; [apply lookup_empty | ..].
  - intros E. now apply (H HYBRID).
  - intros E. now apply (H SQL).
  - intros E. now apply (H RAG).
Qed.

(** What [classify_intent] computes once the service has answered. *)
Lemma classify_intent_eval env question tr content :
  openai_create env (tr ++ [Run "classify_intent"])
                (INTENT_CLASSIFICATION_PROMPT question) = Ok content ->
  classify_intent env question tr =
  (Ok (classified_intent content,
       if bool_decide (is_Some (intent_map !! normalized content))
       then 9 # 10 else 1 # 2),
   tr ++ [Run "classify_intent"; LlmCall (INTENT_CLASSIFICATION_PROMPT question)]).
Proof.
  intros H.
  unfold classify_intent, traceable, chat_completion, bind, emit, call, ret.
  rewrite H. rewrite <- app_assoc. reflexivity.
Qed.

(** C1 (as amended).  Once the text-generation service has answered, the
    answer is read with the whitespace at both ends dropped and without
    regard to letter case: if that reading is one of the labels RAG, SQL,
    HYBRID, [classify_intent] returns the intent of that label with
    confidence 0.9 (in particular when the raw answer is an exact
    case-insensitive match); otherwise it returns RAG with confidence
    0.5. *)
Theorem classify_intent_mapping env question tr content :
  openai_create env (tr ++ [Run "classify_intent"])
                (INTENT_CLASSIFICATION_PROMPT question) = Ok content ->
  let out := (classify_intent env question tr).1 in
  (forall i, matches_nocase content (label_text i) = true -> out = Ok (i, 9 # 10)) /\
  (forall i, normalized content = label_text i -> out = Ok (i, 9 # 10)) /\
  ((forall i, normalized content <> label_text i) -> out = Ok (RAG, 1 # 2)).
Proof.
  intros H out. subst out. rewrite (classify_intent_eval _ _ _ _ H). cbn [fst].
  assert (Hlab : forall i, normalized content = label_text i ->
            Ok (classified_intent content,
                if bool_decide (is_Some (intent_map !! normalized content))
                then 9 # 10 else 1 # 2) = Ok (i, 9 # 10)).
  { intros i Hi. unfold classified_intent. rewrite Hi, intent_map_label.
    reflexivity. }
  split; [|split].
  - intros i Hm. apply Hlab, normalized_of_match, Hm.
  - exact Hlab.
  - intros Hno. unfold classified_intent.
    rewrite (intent_map_other _ Hno). reflexivity.
Qed.

(** C1, at a concrete answer: [ Hybrid ] with a blank on either side is
    read as the label HYBRID. *)
Lemma classify_intent_mapping_witness :
  (classify_intent (test_env (reply_with " Hybrid ") loads_null [] []) "q" []).1
  = Ok (HYBRID, 9 # 10).
Proof.
  exact (proj1 (proj2 (classify_intent_mapping
                         (test_env (reply_with " Hybrid ") loads_null [] [])
                         "q" [] " Hybrid " eq_refl)) HYBRID eq_refl).
Defined.

(** C1 as first stated fails: the answer [sql] followed by a line break is
    not an exact case-insensitive match of any label, so it would have to
    be classified RAG with confidence 0.5; the classifier strips the line
    break and returns SQL with confidence 0.9. *)
Lemma classify_intent_exact_match_counterexample :
  matches_nocase sql_newline "RAG" = false /\
  matches_nocase sql_newline "SQL" = false /\
  matches_nocase sql_newline "HYBRID" = false /\
  (classify_intent (test_env (reply_with sql_newline) loads_null [] []) "q" []).1
  = Ok (SQL, 9 # 10).
Proof. repeat split; reflexivity. Qed.

(** An answer followed by a no-break space is stripped like any other
    whitespace. *)
Example classify_intent_no_break_space :
  (classify_intent
     (test_env (reply_with ("SQL" ++ PyStr.of_codes [194; 160]%N)%string) loads_null [] [])
     "q" []).1
  = Ok (SQL, 9 # 10).
Proof. vm_compute. reflexivity. Qed.

(* ===================================================================== *)
(** ** The router workflow *)
(* ===================================================================== *)

Lemma run_graph_END g fuel st tr : run_graph g fuel END st tr = (Ok st, tr).
Proof. destruct fuel; reflexivity. Qed.

Lemma run_graph_step g fuel n st f :
  nodes g !! n = Some f ->
  run_graph g (S fuel) (ToNode n) st =
  (do update <- f st;
   do next <- next_target g n (update ∪ st);
   run_graph g fuel next (update ∪ st)).
Proof. intros H. cbn [run_graph]. now rewrite H. Qed.

Lemma classified_state_lookup question content key :
  key <> "intent" -> key <> "confidence" ->
  classified_state question content !! key = initial_state question !! key.
Proof.
  intros H1 H2. unfold classified_state.
  rewrite lookup_union, !lookup_insert_ne by congruence.
  destruct (initial_state question !! key); reflexivity.
Qed.

Lemma classified_state_intent question content :
  classified_state question content !! "intent"
  = Some (VIntent (classified_intent content)).
Proof.
  unfold classified_state. apply lookup_union_Some_l.
  rewrite lookup_insert_ne by discriminate. apply lookup_insert_eq.
Qed.

Lemma classify_node_eval env question tr content :
  openai_create env (tr ++ [Run "classify_intent"])
                (INTENT_CLASSIFICATION_PROMPT question) = Ok content ->
  (do update <- classify_node env (initial_state question);
   ret (update ∪ initial_state question)) tr =
  (Ok (classified_state question content),
   tr ++ [Run "classify_intent"; LlmCall (INTENT_CLASSIFICATION_PROMPT question)]).
Proof.
  intros H. unfold classify_node, state_question, state_item.
  change (initial_state question !! "question") with (Some (VStr question)).
  unfold bind, ret. cbv beta iota.
  rewrite (classify_intent_eval _ _ _ _ H). reflexivity.
Qed.

Lemma should_extract_filters_eval question content tr :
  should_extract_filters (classified_state question content) tr =
  (Ok (if intent_eqb (classified_intent content) HYBRID then "extract" else "done"), tr).
Proof.
  unfold should_extract_filters, state_item.
  rewrite classified_state_intent. unfold bind, ret. cbn [eq_intent].
  destruct (intent_eqb _ _); reflexivity.
Qed.

Lemma extract_filters_trace env question tr :
  (extract_filters env question tr).2 =
  tr ++ [Run "extract_filters"; LlmCall (FILTER_EXTRACTION_PROMPT question)].
Proof.
  unfold extract_filters, traceable, chat_completion, bind, emit, call, ret, lift.
  rewrite <- app_assoc. cbn [app].
  destruct (openai_create env _ _) as [response|e]; [|reflexivity].
  destruct (json_loads env _) as [parsed|[]]; try reflexivity.
  destruct (py_pop parsed _ _); reflexivity.
Qed.

Lemma next_after_classify env question content tr :
  next_target (get_router env) "classify" (classified_state question content) tr =
  (Ok (if intent_eqb (classified_intent content) HYBRID
       then ToNode "extract_filters" else END), tr).
Proof.
  unfold next_target.
  change (conditional_edges (get_router env) !! "classify")
    with (Some (should_extract_filters,
                (list_to_map [("extract", ToNode "extract_filters"); ("done", END)]
                 : gmap string Target))).
  cbv beta iota. unfold bind. rewrite should_extract_filters_eval.
  destruct (intent_eqb _ _); reflexivity.
Qed.

Lemma next_after_extract env st tr :
  next_target (get_router env) "extract_filters" st tr = (Ok END, tr).
Proof. reflexivity. Qed.

Lemma route_query_classified env question tr content :
  openai_create env (tr ++ [Run "route_query"; Run "classify_intent"])
                (INTENT_CLASSIFICATION_PROMPT question) = Ok content ->
  route_query env question tr =
  let st1 := classified_state question content in
  let tr1 := tr ++ [Run "route_query"; Run "classify_intent";
                    LlmCall (INTENT_CLASSIFICATION_PROMPT question)] in
  if intent_eqb (classified_intent content) HYBRID
  then (do update <- extract_filters_node env st1; ret (update ∪ st1)) tr1
  else (Ok st1, tr1).
Proof.
  intros H.
  unfold route_query. rewrite traceable_eq. unfold invoke.
  change (entry_point (get_router env)) with (Some "classify").
  unfold recursion_limit.
  rewrite (run_graph_step (get_router env) _ "classify" _ (classify_node env) eq_refl).
  assert (H' : openai_create env ((tr ++ [Run "route_query"]) ++ [Run "classify_intent"])
                 (INTENT_CLASSIFICATION_PROMPT question) = Ok content).
  { now rewrite <- app_assoc. }
  pose proof (classify_node_eval env question _ content H') as Hn.
  unfold bind at 1. unfold bind at 1 in Hn. unfold ret at 1 in Hn.
  destruct (classify_node env (initial_state question) (tr ++ [Run "route_query"]))
    as [[update|e] tr'] eqn:E; [|discriminate].
  injection Hn as Hst Htr. rewrite Hst, Htr. clear Hst Htr E.
  rewrite <- app_assoc. cbn [app].
  unfold bind at 1. rewrite next_after_classify.
  destruct (intent_eqb (classified_intent content) HYBRID); cbv zeta.
  - rewrite (run_graph_step (get_router env) _ "extract_filters" _
               (extract_filters_node env) eq_refl).
    unfold bind at 1 3.
    destruct (extract_filters_node env _ _) as [[upd|e] tr2]; [|reflexivity].
    unfold bind. rewrite next_after_extract, run_graph_END. reflexivity.
  - apply run_graph_END.
Qed.

Lemma extract_filters_node_trace env question content tr :
  (extract_filters_node env (classified_state question content) tr).2 =
  tr ++ [Run "extract_filters"; LlmCall (FILTER_EXTRACTION_PROMPT question)].
Proof.
  unfold extract_filters_node, state_question, state_item.
  rewrite classified_state_lookup by discriminate.
  change (initial_state question !! "question") with (Some (VStr question)).
  unfold bind, ret. cbv beta iota.
  pose proof (extract_filters_trace env question tr) as Ht.
  destruct (extract_filters env question tr) as [[r|e] tr']; exact Ht.
Qed.

Lemma intent_eqb_eq i j : intent_eqb i j = true <-> i = j.
Proof. destruct i, j; cbn; split; congruence. Qed.

Lemma extract_filters_node_eval env question content tr r tr' :
  extract_filters env question tr = (Ok r, tr') ->
  extract_filters_node env (classified_state question content) tr =
  (Ok (<["semantic_query" := r.2]>
         (<["filters" := VDict r.1]> (classified_state question content))), tr').
Proof.
  intros H. unfold extract_filters_node, state_question, state_item.
  rewrite classified_state_lookup by discriminate.
  change (initial_state question !! "question") with (Some (VStr question)).
  unfold bind, ret. cbv beta iota. now rewrite H.
Qed.

(** C3.  Once the classifier has answered: when the classified intent is
    RAG or SQL, [route_query] returns a state whose [filters] and
    [semantic_query] are still [None] and the filter extractor was not run;
    when it is HYBRID, the filter extractor was run exactly once, and what
    it returned, if it returned, is in the state [route_query] returns. *)
Theorem route_query_extractor_runs env question tr content :
  openai_create env (tr ++ [Run "route_query"; Run "classify_intent"])
                (INTENT_CLASSIFICATION_PROMPT question) = Ok content ->
  let out := route_query env question tr in
  (classified_intent content <> HYBRID ->
     exists st, out.1 = Ok st /\
       st !! "intent" = Some (VIntent (classified_intent content)) /\
       st !! "filters" = Some VNone /\
       st !! "semantic_query" = Some VNone /\
       runs_of "extract_filters" out.2 = runs_of "extract_filters" tr) /\
  (classified_intent content = HYBRID ->
     runs_of "extract_filters" out.2 = S (runs_of "extract_filters" tr) /\
     forall filters semantic_query tr',
       extract_filters env question
         (tr ++ [Run "route_query"; Run "classify_intent";
                 LlmCall (INTENT_CLASSIFICATION_PROMPT question)])
       = (Ok (filters, semantic_query), tr') ->
       exists st, out = (Ok st, tr') /\
         st !! "intent" = Some (VIntent HYBRID) /\
         st !! "filters" = Some (VDict filters) /\
         st !! "semantic_query" = Some semantic_query).
Proof.
  intros H out. subst out. rewrite (route_query_classified _ _ _ _ H). cbv zeta.
  split.
  - intros Hne.
    destruct (intent_eqb (classified_intent content) HYBRID) eqn:E.
    { apply intent_eqb_eq in E. contradiction. }
    exists (classified_state question content). cbn [fst snd].
    split; [reflexivity|]. split; [apply classified_state_intent|].
    split; [now rewrite classified_state_lookup by discriminate|].
    split; [now rewrite classified_state_lookup by discriminate|].
    rewrite runs_of_app. cbn. lia.
  - intros Heq. rewrite Heq. cbn [intent_eqb]. split.
    + pose proof (extract_filters_node_trace env question content
                    (tr ++ [Run "route_query"; Run "classify_intent";
                            LlmCall (INTENT_CLASSIFICATION_PROMPT question)])) as Ht.
      unfold bind.
      destruct (extract_filters_node env _ _) as [[upd|e] tr2];
        cbn [snd] in Ht; subst tr2; unfold ret; cbn [snd];
        rewrite !runs_of_app; cbn; lia.
    + intros filters semantic_query tr' Hx.
      rewrite (bind_ok _ _ _ _ _ (extract_filters_node_eval _ _ content _ _ _ Hx)).
      unfold ret. eexists. split; [reflexivity|]. cbn [fst snd].
      split; [|split].
      * apply lookup_union_Some_l.
        rewrite !lookup_insert_ne by discriminate.
        rewrite classified_state_intent. now rewrite Heq.
      * apply lookup_union_Some_l.
        rewrite lookup_insert_ne by discriminate. apply lookup_insert_eq.
      * apply lookup_union_Some_l. apply lookup_insert_eq.
Qed.

(** C3, at two concrete answers: [hybrid] runs the extractor once, [sql]
    does not run it. *)
Lemma route_query_extractor_runs_witness :
  runs_of "extract_filters"
    (route_query (test_env (reply_with "hybrid") loads_null [] []) "q" []).2 = 1%nat /\
  exists st,
    (route_query (test_env (reply_with "sql") loads_null [] []) "q" []).1 = Ok st /\
    st !! "intent" = Some (VIntent SQL) /\
    st !! "filters" = Some VNone /\
    st !! "semantic_query" = Some VNone /\
    runs_of "extract_filters"
      (route_query (test_env (reply_with "sql") loads_null [] []) "q" []).2 = 0%nat.
Proof.
  split.
  - exact (proj1 (proj2 (route_query_extractor_runs
                           (test_env (reply_with "hybrid") loads_null [] [])
                           "q" [] "hybrid" eq_refl) eq_refl)).
  - apply (proj1 (route_query_extractor_runs
                    (test_env (reply_with "sql") loads_null [] [])
                    "q" [] "sql" eq_refl)).
    discriminate.
Defined.

(* ===================================================================== *)
(** ** Lines and the markdown fence *)
(* ===================================================================== *)

Lemma split_nl_aux_ext cur cur' s :
  (forall r, cur r = cur' r) -> PyStr.split_nl_aux cur s = PyStr.split_nl_aux cur' s.
Proof.
  revert cur cur'. induction s as [|c s IH]; intros cur cur' H;
    cbn [PyStr.split_nl_aux].
  - now rewrite H.
  - destruct (Ascii.eqb c PyStr.newline); [now rewrite H|].
    apply IH. intros r. apply H.
Qed.

(** Splitting at a line break splits both sides. *)
Lemma split_nl_aux_app cur a b :
  PyStr.split_nl_aux cur (a ++ nl ++ b)%string
  = PyStr.split_nl_aux cur a ++ PyStr.split_nl b.
Proof.
  revert cur. induction a as [|c a IH]; intros cur.
  - rewrite append_nil. unfold nl. rewrite append_cons, append_nil.
    cbn [PyStr.split_nl_aux]. now rewrite Ascii.eqb_refl.
  - rewrite append_cons. cbn [PyStr.split_nl_aux].
    destruct (Ascii.eqb c PyStr.newline); [|apply IH].
    cbn [app]. f_equal. apply IH.
Qed.

Lemma split_nl_app a b :
  PyStr.split_nl (a ++ nl ++ b)%string = PyStr.split_nl a ++ PyStr.split_nl b.
Proof. apply split_nl_aux_app. Qed.

Lemma split_nl_aux_one_line cur s :
  one_line s = true -> PyStr.split_nl_aux cur s = [cur s].
Proof.
  revert cur. induction s as [|c s IH]; intros cur H; [reflexivity|].
  cbn [one_line] in H. apply andb_prop in H as [Hc Hs].
  apply negb_true_iff in Hc. cbn [PyStr.split_nl_aux]. rewrite Hc.
  now rewrite IH.
Qed.

Lemma split_nl_one_line s : one_line s = true -> PyStr.split_nl s = [s].
Proof. apply split_nl_aux_one_line. Qed.

Lemma split_nl_aux_nonempty cur s : PyStr.split_nl_aux cur s <> [].
Proof.
  revert cur. induction s as [|c s IH]; intros cur; cbn [PyStr.split_nl_aux];
    [discriminate|].
  destruct (Ascii.eqb c PyStr.newline); [discriminate|apply IH].
Qed.

Lemma join_cons sep x l :
  l <> [] -> PyStr.join sep (x :: l) = (x ++ sep ++ PyStr.join sep l)%string.
Proof. destruct l; [contradiction|reflexivity]. Qed.

(** Joining the lines of a text gives the text back. *)
Lemma join_split_aux s : forall p,
  PyStr.join_nl (PyStr.split_nl_aux (fun r => (p ++ r)%string) s) = (p ++ s)%string.
Proof.
  induction s as [|c s IH]; intros p; [reflexivity|].
  cbn [PyStr.split_nl_aux]. destruct (Ascii.eqb c PyStr.newline) eqn:E.
  - apply Ascii.eqb_eq in E. subst c. unfold PyStr.join_nl.
    rewrite join_cons by apply split_nl_aux_nonempty.
    fold PyStr.join_nl.
    rewrite (split_nl_aux_ext (fun r => r) (fun r => ("" ++ r)%string)) by reflexivity.
    rewrite IH, append_nil_r. reflexivity.
  - rewrite (split_nl_aux_ext _ (fun r => ((p ++ String c "") ++ r)%string)).
    + rewrite IH, append_assoc. reflexivity.
    + intros r. now rewrite append_assoc.
Qed.

Lemma join_split s : PyStr.join_nl (PyStr.split_nl s) = s.
Proof.
  unfold PyStr.split_nl.
  rewrite (split_nl_aux_ext (fun r => r) (fun r => ("" ++ r)%string)) by reflexivity.
  apply join_split_aux.
Qed.

Lemma startswith_append s p t :
  PyStr.startswith s p = true -> PyStr.startswith (s ++ t)%string p = true.
Proof.
  revert s. induction p as [|a p IH]; intros [|b s] H; try reflexivity; try discriminate.
  - now destruct t.
  - rewrite append_cons. cbn [PyStr.startswith] in *.
    apply andb_prop in H as [-> H]. now rewrite IH.
Qed.

(** A response wrapped in a fence (an opening line that starts with three
    backticks, a closing line of three backticks) is cleaned to what lies
    between the two lines. *)
Lemma clean_markdown_between_fences opening body :
  PyStr.startswith opening triple_backtick = true ->
  one_line opening = true ->
  clean_markdown (opening ++ nl ++ body ++ nl ++ triple_backtick)%string = body.
Proof.
  intros Hstart Hline. unfold clean_markdown.
  rewrite (startswith_append _ _ _ Hstart).
  rewrite split_nl_app, split_nl_app.
  rewrite (split_nl_one_line _ Hline).
  change (PyStr.split_nl triple_backtick) with [triple_backtick].
  unfold PyStr.last_item.
  replace ([opening] ++ PyStr.split_nl body ++ [triple_backtick])
    with (([opening] ++ PyStr.split_nl body) ++ [triple_backtick])
    by now rewrite <- app_assoc.
  rewrite List.last_last.
  change (PyStr.strip triple_backtick) with triple_backtick.
  rewrite String.eqb_refl.
  unfold PyStr.slice_1_to_last. cbn [app List.tl].
  rewrite List.removelast_last. apply join_split.
Qed.

(* ===================================================================== *)
(** ** The filter extractor *)
(* ===================================================================== *)

(** C4 (as amended).  When the extraction response, stripped and without
    its markdown fence, is not valid JSON (the decoder raises
    [JSONDecodeError]), [extract_filters] returns exactly the empty
    dictionary and the original question. *)
Theorem extract_filters_decode_failure env question tr response :
  openai_create env (tr ++ [Run "extract_filters"])
                (FILTER_EXTRACTION_PROMPT question) = Ok response ->
  json_loads env (clean_markdown (PyStr.strip response)) = Raise JSONDecodeError ->
  extract_filters env question tr =
  (Ok (∅, VStr question),
   tr ++ [Run "extract_filters"; LlmCall (FILTER_EXTRACTION_PROMPT question)]).
Proof.
  intros Hllm Hjson.
  unfold extract_filters, traceable, chat_completion, bind, emit, call, ret.
  rewrite Hllm, Hjson, <- app_assoc. reflexivity.
Qed.

(** C4, at a concrete response: fenced text that is not JSON. *)
Lemma extract_filters_decode_failure_witness :
  clean_markdown (PyStr.strip fenced_text) = "max price: 100" /\
  extract_filters fenced_env "best headphones" [] =
  (Ok (∅, VStr "best headphones"),
   [Run "extract_filters"; LlmCall (FILTER_EXTRACTION_PROMPT "best headphones")]).
Proof.
  split; [reflexivity|].
  exact (extract_filters_decode_failure fenced_env "best headphones" [] fenced_text
           eq_refl eq_refl).
Defined.

(** C4 as first stated fails: the response [null] is valid JSON but not
    an object; only [JSONDecodeError] is caught, so the [pop] on the
    decoded [None] raises instead of falling back to empty filters. *)
Lemma extract_filters_non_object_counterexample :
  parses_as_object null_env (clean_markdown (PyStr.strip "null")) = false /\
  (extract_filters null_env "q" []).1
  = Raise (AttributeError "object has no attribute 'pop'").
Proof. split; reflexivity. Qed.

(** A fenced response loses its first and last lines. *)
Example clean_markdown_fenced :
  clean_markdown ("```json" ++ nl ++ "{}" ++ nl ++ "```")%string = "{}".
Proof. reflexivity. Qed.

Example clean_markdown_open_fence :
  clean_markdown ("```json" ++ nl ++ "{}")%string = "{}".
Proof. reflexivity. Qed.

Example clean_markdown_plain : clean_markdown "{}" = "{}".
Proof. reflexivity. Qed.

(* ===================================================================== *)
(** ** The candidate resolver and the short circuit *)
(* ===================================================================== *)

(** One call of the resolver: a connection, one statement, the connection
    closed, whatever the statement's outcome. *)
Lemma get_asins_by_filter_eval env min_price max_price min_rating category limit tr :
  get_asins_by_filter env min_price max_price min_rating category limit tr =
  let cp := build_conditions env min_price max_price min_rating category in
  let params := cp.2 ++ [VInt (default 50 limit)] in
  (pg_query env (tr ++ [Run "get_asins_by_filter"; DbConnect]) (select_sql cp.1) params,
   tr ++ [Run "get_asins_by_filter"; DbConnect;
          DbExecute (select_sql cp.1) params; DbClose]).
Proof.
  unfold get_asins_by_filter, traceable, try_finally, bind, emit, call.
  cbv zeta beta iota. rewrite <- !app_assoc. reflexivity.
Qed.

(** [hybrid_retrieve] on a filters dictionary, up to the resolver's
    answer. *)
Lemma hybrid_retrieve_resolved env semantic_query (filters : gmap string PyVal) k tr :
  hybrid_retrieve env semantic_query (VDict filters) k tr =
  (do filtered_asins <-
     get_asins_by_filter env (dict_get filters "min_price")
       (dict_get filters "max_price") (dict_get filters "min_rating")
       (dict_get filters "category") (Some 100);
   match filtered_asins with
   | [] => ret empty_result
   | _ =>
       do query_embedding <-
         call (Embed semantic_query) (fun tr => embedding env tr semantic_query);
       do ids <- lift (match_any filtered_asins);
       do points <-
         call (QueryPoints ids (default 10 k))
              (fun tr => query_points env tr query_embedding ids (default 10 k));
       do extracted <- lift (extract_results points empty_result);
       ret {| retrieved_context_ids := retrieved_context_ids extracted;
              retrieved_context := retrieved_context extracted;
              retrieved_context_ratings := retrieved_context_ratings extracted;
              similarity_scores := similarity_scores extracted;
              filter_count := length filtered_asins |}
   end) (tr ++ [Run "hybrid_retrieve"]).
Proof. reflexivity. Qed.

(** C2.  When the candidate resolver returns no identifier,
    [hybrid_retrieve] returns the empty result with [filter_count] 0, and
    none of the events it adds is a call to the embedding service or to the
    vector store. *)
Theorem hybrid_retrieve_short_circuit env semantic_query
    (filters : gmap string PyVal) k tr :
  (get_asins_by_filter env (dict_get filters "min_price")
     (dict_get filters "max_price") (dict_get filters "min_rating")
     (dict_get filters "category") (Some 100) (tr ++ [Run "hybrid_retrieve"])).1 = Ok [] ->
  exists evs,
    hybrid_retrieve env semantic_query (VDict filters) k tr = (Ok empty_result, tr ++ evs) /\
    Forall (fun e => is_search e = false) evs.
Proof.
  intros H. rewrite hybrid_retrieve_resolved. unfold bind.
  rewrite get_asins_by_filter_eval in *. cbv zeta in *. cbn [fst] in H.
  rewrite H. unfold ret. rewrite <- app_assoc. cbn [app].
  eexists. split; [reflexivity|].
  repeat constructor.
Qed.

Lemma hybrid_retrieve_short_circuit_witness :
  exists evs,
    hybrid_retrieve empty_env (VStr "headphones") (VDict ∅) (Some 5) []
    = (Ok empty_result, [] ++ evs) /\
    Forall (fun e => is_search e = false) evs.
Proof.
  exact (hybrid_retrieve_short_circuit empty_env (VStr "headphones") ∅ (Some 5) []
           eq_refl).
Defined.

(* ===================================================================== *)
(** ** The pipeline entered without filters *)
(* ===================================================================== *)

(** C10.  When the classifier's answer is not HYBRID, the routed state
    carries the key [filters] with value [None]; [hybrid_pipeline] called
    without filters and without a semantic query therefore binds [filters]
    to [None] (the empty-dictionary default of [get] is not used), and
    [hybrid_retrieve] raises on its first [filters.get] before the store
    is touched. *)
Theorem hybrid_pipeline_none_filters env question top_k tr content :
  openai_create env
    (tr ++ [Run "hybrid_pipeline"; Run "route_query"; Run "classify_intent"])
    (INTENT_CLASSIFICATION_PROMPT question) = Ok content ->
  classified_intent content <> HYBRID ->
  exists st,
    (route_query env question (tr ++ [Run "hybrid_pipeline"])).1 = Ok st /\
    st !! "filters" = Some VNone /\
    dict_get_default st "filters" (VDict ∅) = VNone /\
    hybrid_pipeline env question VNone VNone top_k tr =
    (Raise (AttributeError "object has no attribute 'get'"),
     tr ++ [Run "hybrid_pipeline"; Run "route_query"; Run "classify_intent";
            LlmCall (INTENT_CLASSIFICATION_PROMPT question);
            Run "hybrid_retrieve"]).
Proof.
  intros H Hne.
  assert (H' : openai_create env
                 ((tr ++ [Run "hybrid_pipeline"]) ++ [Run "route_query"; Run "classify_intent"])
                 (INTENT_CLASSIFICATION_PROMPT question) = Ok content).
  { now rewrite <- app_assoc. }
  pose proof (route_query_classified env question _ content H') as Hr.
  cbv zeta in Hr.
  destruct (intent_eqb (classified_intent content) HYBRID) eqn:E.
  { apply intent_eqb_eq in E. contradiction. }
  assert (Hf : classified_state question content !! "filters" = Some VNone).
  { now rewrite classified_state_lookup by discriminate. }
  assert (Hs : classified_state question content !! "semantic_query" = Some VNone).
  { now rewrite classified_state_lookup by discriminate. }
  exists (classified_state question content).
  split; [now rewrite Hr|]. split; [exact Hf|].
  split; [unfold dict_get_default; now rewrite Hf|].
  unfold hybrid_pipeline. rewrite traceable_eq.
  unfold bind at 1. unfold bind at 1. rewrite Hr. unfold ret at 1.
  unfold dict_get_default. rewrite Hf, Hs. cbn [from_option id fst snd].
  unfold bind at 1. unfold hybrid_retrieve. rewrite traceable_eq.
  unfold bind at 1. unfold lift, py_get.
  rewrite <- !app_assoc. reflexivity.
Qed.

Lemma hybrid_pipeline_none_filters_witness :
  exists st,
    (route_query empty_env "tell me about earbuds" ([] ++ [Run "hybrid_pipeline"])).1 = Ok st /\
    st !! "filters" = Some VNone /\
    dict_get_default st "filters" (VDict ∅) = VNone /\
    hybrid_pipeline empty_env "tell me about earbuds" VNone VNone None [] =
    (Raise (AttributeError "object has no attribute 'get'"),
     [] ++ [Run "hybrid_pipeline"; Run "route_query"; Run "classify_intent";
            LlmCall (INTENT_CLASSIFICATION_PROMPT "tell me about earbuds");
            Run "hybrid_retrieve"]).
Proof.
  apply (hybrid_pipeline_none_filters empty_env "tell me about earbuds" None [] "rag").
  - reflexivity.
  - discriminate.
Defined.

(* ===================================================================== *)
(** ** The guarded SQL executor *)
(* ===================================================================== *)

Lemma forbidden_solid word :
  In word forbidden -> word <> EmptyString /\ solid word = true.
Proof.
  unfold forbidden. cbn [In].
  intros [<-|[<-|[<-|[<-|[<-|[<-|[<-|[]]]]]]]]; split; (discriminate || reflexivity).
Qed.

(** The first branch of the guard. *)
Lemma execute_sql_query_not_select env sql tr :
  starts_with_select sql = false ->
  execute_sql_query env sql tr =
  (Raise (ValueError "Only SELECT queries are allowed"),
   tr ++ [Run "execute_sql_query"]).
Proof.
  intros H. unfold execute_sql_query. rewrite traceable_eq.
  unfold starts_with_select in H. rewrite H. reflexivity.
Qed.

(** The second branch of the guard. *)
Lemma execute_sql_query_keyword env sql tr :
  starts_with_select sql = true -> has_keyword sql ->
  exists word,
    In word forbidden /\
    execute_sql_query env sql tr =
    (Raise (ValueError ("Forbidden SQL operation: " ++ word)%string),
     tr ++ [Run "execute_sql_query"]).
Proof.
  intros Hsel (w & Hin & Hw).
  unfold execute_sql_query. rewrite traceable_eq.
  unfold starts_with_select in Hsel. rewrite Hsel. cbn [negb].
  destruct (List.find _ forbidden) as [word|] eqn:F.
  - apply List.find_some in F as [Hword _]. now exists word.
  - exfalso. pose proof (List.find_none _ _ F w Hin) as Hc. cbv beta in Hc.
    destruct (forbidden_solid w Hin) as [Hne Hsol].
    rewrite (contains_strip w _ Hne Hsol) in Hc. congruence.
Qed.

Lemma generate_sql_query_eval env question tr response :
  openai_create env (tr ++ [Run "generate_sql_query"]) (SqlGenerationPrompt question)
  = Ok response ->
  generate_sql_query env question tr =
  (Ok (sql_of_response response),
   tr ++ [Run "generate_sql_query"; LlmCall (SqlGenerationPrompt question)]).
Proof.
  intros H. unfold generate_sql_query, traceable, chat_completion, bind, emit, call, ret.
  rewrite H, <- app_assoc. reflexivity.
Qed.

(** What [sql_pipeline] returns when the executor raises on entry. *)
Lemma sql_pipeline_rejected env question tr response msg :
  openai_create env (tr ++ [Run "sql_pipeline"; Run "generate_sql_query"])
                (SqlGenerationPrompt question) = Ok response ->
  (forall tr', execute_sql_query env (sql_of_response response) tr' =
               (Raise (ValueError msg), tr' ++ [Run "execute_sql_query"])) ->
  sql_pipeline env question tr =
  (Ok {| sql_answer := ("Error executing query: " ++ msg)%string;
         sql_question := question;
         sql_query := sql_of_response response;
         sql_results := [];
         sql_error := Some msg;
         sql_result_count := None |},
   tr ++ [Run "sql_pipeline"; Run "generate_sql_query";
          LlmCall (SqlGenerationPrompt question); Run "execute_sql_query"]).
Proof.
  intros Hllm Hexec. unfold sql_pipeline. rewrite traceable_eq.
  assert (H' : openai_create env ((tr ++ [Run "sql_pipeline"]) ++ [Run "generate_sql_query"])
                 (SqlGenerationPrompt question) = Ok response).
  { now rewrite <- app_assoc. }
  rewrite (bind_ok _ _ _ _ _ (generate_sql_query_eval env question _ response H')).
  unfold bind at 1. unfold try_except. rewrite (bind_raise _ _ _ _ _ (Hexec _)).
  unfold ret. cbn [exn_str]. rewrite <- !app_assoc. reflexivity.
Qed.

(** C9 (as amended).  A statement that, upper-cased and stripped of
    surrounding whitespace, does not start with SELECT, or that contains
    one of the write keywords as a case-insensitive substring, makes
    [execute_sql_query] raise a [ValueError] on entry: no connection is
    opened and nothing is executed.  When such a statement is what
    [generate_sql_query] produced, [sql_pipeline] returns the error text
    in its answer, with empty results, and the store is not touched. *)
Theorem unsafe_sql_rejected env sql :
  starts_with_select sql = false \/ has_keyword sql ->
  exists msg,
    (forall tr,
       execute_sql_query env sql tr =
       (Raise (ValueError msg), tr ++ [Run "execute_sql_query"])) /\
    (forall question tr response,
       openai_create env (tr ++ [Run "sql_pipeline"; Run "generate_sql_query"])
                     (SqlGenerationPrompt question) = Ok response ->
       sql_of_response response = sql ->
       sql_pipeline env question tr =
       (Ok {| sql_answer := ("Error executing query: " ++ msg)%string;
              sql_question := question;
              sql_query := sql;
              sql_results := [];
              sql_error := Some msg;
              sql_result_count := None |},
        tr ++ [Run "sql_pipeline"; Run "generate_sql_query";
               LlmCall (SqlGenerationPrompt question); Run "execute_sql_query"])).
Proof.
  intros H.
  assert (Hex : exists msg, forall tr,
            execute_sql_query env sql tr =
            (Raise (ValueError msg), tr ++ [Run "execute_sql_query"])).
  { destruct (starts_with_select sql) eqn:Hsel.
    - destruct H as [H|H]; [discriminate|].
      destruct (execute_sql_query_keyword env sql [] Hsel H) as (word & _ & Hw).
      exists ("Forbidden SQL operation: " ++ word)%string. intros tr.
      destruct (execute_sql_query_keyword env sql tr Hsel H) as (word' & _ & Hw').
      rewrite Hw'. f_equal.
      unfold execute_sql_query in Hw, Hw'. rewrite traceable_eq in Hw, Hw'.
      unfold starts_with_select in Hsel. rewrite Hsel in Hw, Hw'. cbn [negb] in Hw, Hw'.
      destruct (List.find _ forbidden); [|discriminate].
      unfold raise in Hw, Hw'. congruence.
    - exists "Only SELECT queries are allowed". intros tr.
      now apply execute_sql_query_not_select. }
  destruct Hex as [msg Hmsg]. exists msg. split; [exact Hmsg|].
  intros question tr response Hllm <-.
  now apply sql_pipeline_rejected.
Qed.

Lemma unsafe_sql_rejected_witness :
  exists msg,
    (forall tr,
       execute_sql_query empty_env "SELECT * FROM products; DROP TABLE products" tr =
       (Raise (ValueError msg), tr ++ [Run "execute_sql_query"])) /\
    (forall question tr response,
       openai_create empty_env (tr ++ [Run "sql_pipeline"; Run "generate_sql_query"])
                     (SqlGenerationPrompt question) = Ok response ->
       sql_of_response response = "SELECT * FROM products; DROP TABLE products" ->
       sql_pipeline empty_env question tr =
       (Ok {| sql_answer := ("Error executing query: " ++ msg)%string;
              sql_question := question;
              sql_query := "SELECT * FROM products; DROP TABLE products";
              sql_results := [];
              sql_error := Some msg;
              sql_result_count := None |},
        tr ++ [Run "sql_pipeline"; Run "generate_sql_query";
               LlmCall (SqlGenerationPrompt question); Run "execute_sql_query"])).
Proof.
  apply (unsafe_sql_rejected empty_env "SELECT * FROM products; DROP TABLE products").
  right. exists "DROP". split; [cbn; tauto | reflexivity].
Defined.

(** C9 as first stated fails: a statement with blanks before a lower-case
    [select] does not start with SELECT, not even without regard to case,
    yet the guard lets it through: a connection is opened and the
    statement is executed. *)
Lemma execute_sql_query_leading_blank_counterexample :
  PyStr.startswith select_one "SELECT" = false /\
  PyStr.startswith (PyStr.upper select_one) "SELECT" = false /\
  execute_sql_query empty_env select_one [] =
  (Ok [], [Run "execute_sql_query"; DbConnect; DbExecute select_one []; DbClose]).
Proof. repeat split; reflexivity. Qed.

(** The guard reads the statement as Python does: a no-break space before
    SELECT is stripped, and a dotless i upper-cases to I, so that the
    keyword INSERT is found. *)
Example execute_sql_query_wide_characters :
  starts_with_select (PyStr.of_codes [194; 160]%N ++ "SELECT 1")%string = true /\
  (execute_sql_query empty_env "SELECT 'ınsert'" []).1
  = Raise (ValueError "Forbidden SQL operation: INSERT").
Proof. split; vm_compute; reflexivity. Qed.

(* ===================================================================== *)
(** ** Which events a computation can add *)
(* ===================================================================== *)

Section Emits.
Context (P : Event -> Prop).

Lemma emits_ret {A} (a : A) : emits P (ret a).
Proof. intros tr. exists []. now rewrite app_nil_r. Qed.

Lemma emits_raise {A} e : emits P (@raise A e).
Proof. intros tr. exists []. now rewrite app_nil_r. Qed.

Lemma emits_lift {A} (r : Res A) : emits P (lift r).
Proof. intros tr. exists []. now rewrite app_nil_r. Qed.

Lemma emits_emit e : P e -> emits P (emit e).
Proof. intros He tr. exists [e]. split; [reflexivity|]. now constructor. Qed.

Lemma emits_call {A} e (oracle : Trace -> Res A) : P e -> emits P (call e oracle).
Proof. intros He tr. exists [e]. split; [reflexivity|]. now constructor. Qed.

Lemma emits_bind {A B} (m : M A) (k : A -> M B) :
  emits P m -> (forall a, emits P (k a)) -> emits P (bind m k).
Proof.
  intros Hm Hk tr. unfold bind.
  destruct (Hm tr) as (evs & E & F).
  destruct (m tr) as [[a|e] tr1]; cbn [snd] in E; subst tr1.
  - destruct (Hk a (tr ++ evs)) as (evs' & E' & F').
    exists (evs ++ evs'). rewrite E', app_assoc. split; [reflexivity|].
    now apply Forall_app.
  - now exists evs.
Qed.

Lemma emits_traceable {A} name (body : M A) :
  P (Run name) -> emits P body -> emits P (traceable name body).
Proof. intros Hr Hb. apply emits_bind; [now apply emits_emit | intros _; exact Hb]. Qed.

Lemma emits_try_finally {A} (m : M A) (f : M unit) :
  emits P m -> emits P f -> emits P (try_finally m f).
Proof.
  intros Hm Hf tr. unfold try_finally.
  destruct (Hm tr) as (evs & E & F).
  destruct (m tr) as [r tr1]; cbn [snd] in E; subst tr1.
  destruct (Hf (tr ++ evs)) as (evs' & E' & F').
  exists (evs ++ evs').
  destruct (f (tr ++ evs)) as [[u|e] tr2]; cbn [snd] in *; subst tr2;
    rewrite app_assoc; (split; [reflexivity|now apply Forall_app]).
Qed.

End Emits.

Create HintDb emits.
#[local] Hint Resolve emits_ret emits_raise emits_lift emits_emit emits_call : emits.

(** One structural step: a bind, a decorator, a [finally], or a case
    distinction on what the computation scrutinises. *)
Ltac emits_step :=
  lazymatch goal with
  | |- emits _ (bind _ _) => apply emits_bind; [|intro]
  | |- emits _ (traceable _ _) => apply emits_traceable
  | |- emits _ (try_finally _ _) => apply emits_try_finally
  | |- emits _ (match ?x with _ => _ end) => destruct x
  | |- emits _ (if ?b then _ else _) => destruct b
  | |- emits _ (let _ := _ in _) => cbv zeta
  end.

Ltac emits_auto := repeat emits_step; eauto with emits.

Lemma ambient_limit_is k : ambient (limit_is k).
Proof. split; intros; exact I. Qed.

Lemma ambient_sql_limit_is v : ambient (sql_limit_is v).
Proof. split; intros; exact I. Qed.

Section EmitsRouter.
Context (P : Event -> Prop) (HP : ambient P) (env : Env).

Lemma ambient_run name : P (Run name).
Proof. apply HP. Qed.

Lemma ambient_llm p : P (LlmCall p).
Proof. apply HP. Qed.

#[local] Hint Resolve ambient_run ambient_llm : emits.

Lemma emits_chat_completion p : emits P (chat_completion env p).
Proof. unfold chat_completion. emits_auto. Qed.
#[local] Hint Resolve emits_chat_completion : emits.

Lemma emits_classify_intent question : emits P (classify_intent env question).
Proof. unfold classify_intent. emits_auto. Qed.

Lemma emits_extract_filters question : emits P (extract_filters env question).
Proof. unfold extract_filters. emits_auto. Qed.

Lemma emits_state_item st key : emits P (state_item st key).
Proof. unfold state_item. emits_auto. Qed.
#[local] Hint Resolve emits_classify_intent emits_extract_filters emits_state_item : emits.

Lemma emits_state_question st : emits P (state_question st).
Proof. unfold state_question. emits_auto. Qed.
#[local] Hint Resolve emits_state_question : emits.

Lemma emits_classify_node st : emits P (classify_node env st).
Proof. unfold classify_node. emits_auto. Qed.

Lemma emits_extract_filters_node st : emits P (extract_filters_node env st).
Proof. unfold extract_filters_node. emits_auto. Qed.

Lemma emits_should_extract_filters st : emits P (should_extract_filters st).
Proof. unfold should_extract_filters. emits_auto. Qed.

(** The engine adds no event of its own. *)
Lemma emits_run_graph (g : StateGraph) :
  (forall n f st, nodes g !! n = Some f -> emits P (f st)) ->
  (forall n path pm st, conditional_edges g !! n = Some (path, pm) -> emits P (path st)) ->
  forall fuel cur st, emits P (run_graph g fuel cur st).
Proof.
  intros Hn Hc fuel. induction fuel as [|fuel IH]; intros cur st.
  - destruct cur; [apply emits_raise|apply emits_ret].
  - destruct cur as [n|]; [|apply emits_ret]. cbn [run_graph].
    destruct (nodes g !! n) as [f|] eqn:E; [|apply emits_raise].
    apply emits_bind; [now apply (Hn n)|]. intros update. cbv zeta.
    apply emits_bind; [|intros next; apply IH].
    unfold next_target.
    destruct (conditional_edges g !! n) as [[path pm]|] eqn:Ec; [|apply emits_ret].
    apply emits_bind; [now apply (Hc n path pm)|]. intros label.
    destruct (pm !! label); [apply emits_ret|apply emits_raise].
Qed.

Lemma emits_route_query question : emits P (route_query env question).
Proof.
  unfold route_query. apply emits_traceable; [apply ambient_run|].
  unfold invoke. change (entry_point (get_router env)) with (Some "classify").
  apply emits_run_graph.
  - intros n f st. unfold get_router, build_router_graph. cbn [nodes add_edge
      add_conditional_edges set_entry_point add_node empty_graph].
    rewrite !lookup_insert_Some, lookup_empty.
    intros [[_ <-]|[_ [[_ <-]|[_ ?]]]];
      [apply emits_extract_filters_node|apply emits_classify_node|discriminate].
  - intros n path pm st. unfold get_router, build_router_graph.
    cbn [conditional_edges add_edge add_conditional_edges set_entry_point
         add_node empty_graph].
    rewrite lookup_insert_Some, lookup_empty.
    intros [[_ E]|[_ ?]]; [|discriminate]. injection E as <- _.
    apply emits_should_extract_filters.
Qed.

End EmitsRouter.

(* ===================================================================== *)
(** ** The constrained search and the merge *)
(* ===================================================================== *)

(** The loop appends one entry to each of the four lists per hit. *)
Lemma extract_results_spec points : forall acc r,
  extract_results points acc = Ok r ->
  map Some (retrieved_context_ids r)
    = map Some (retrieved_context_ids acc) ++ map hit_id points /\
  length (retrieved_context r) = (length (retrieved_context acc) + length points)%nat /\
  length (retrieved_context_ratings r)
    = (length (retrieved_context_ratings acc) + length points)%nat /\
  similarity_scores r = similarity_scores acc ++ map score points /\
  filter_count r = filter_count acc.
Proof.
  induction points as [|p points IH]; intros acc r H.
  - cbn in H. injection H as <-. rewrite !app_nil_r. cbn. repeat split; lia.
  - cbn [extract_results] in H. unfold payload_item, res_bind in H.
    unfold hit_id at 1. cbn [map].
    destruct (payload p !! "parent_asin") as [id|]; [|discriminate].
    destruct (payload p !! "description") as [chunk|]; [|discriminate].
    destruct (payload p !! "average_rating") as [rating|]; [|discriminate].
    apply IH in H. cbn [retrieved_context_ids retrieved_context
      retrieved_context_ratings similarity_scores filter_count] in H.
    destruct H as (H1 & H2 & H3 & H4 & H5).
    rewrite H1, H2, H3, H4, H5, !map_app, !length_app, <- !app_assoc.
    cbn. repeat split; lia.
Qed.

(** [MatchAny] accepts a list of strings and nothing else. *)
Lemma match_any_ok values ids :
  match_any values = Ok ids -> values = map Some ids.
Proof.
  unfold match_any. destruct (mapM id values) as [l|] eqn:E; [|discriminate].
  intros H. injection H as ->. apply mapM_Some in E.
  induction E as [|x y l k Hxy _ IH]; [reflexivity|].
  cbn in *. now rewrite Hxy, IH.
Qed.

Lemma match_any_Some ids : match_any (map Some ids) = Ok ids.
Proof.
  unfold match_any.
  assert (E : mapM id (map Some ids) = Some ids).
  { apply mapM_Some. induction ids; now constructor. }
  now rewrite E.
Qed.

(** A successful [hybrid_retrieve] on a filters dictionary, taken apart. *)
Lemma hybrid_retrieve_inv env semantic_query (filters : gmap string PyVal) k tr r tr' :
  hybrid_retrieve env semantic_query (VDict filters) k tr = (Ok r, tr') ->
  exists candidates,
    (get_asins_by_filter env (dict_get filters "min_price")
       (dict_get filters "max_price") (dict_get filters "min_rating")
       (dict_get filters "category") (Some 100) (tr ++ [Run "hybrid_retrieve"])).1
    = Ok candidates /\
    filter_count r = length candidates /\
    (candidates = [] -> r = empty_result) /\
    (candidates <> [] ->
       exists ids trq v points,
         candidates = map Some ids /\
         query_points env trq v ids (default 10 k) = Ok points /\
         map Some (retrieved_context_ids r) = map hit_id points /\
         length (retrieved_context r) = length points /\
         length (retrieved_context_ratings r) = length points /\
         similarity_scores r = map score points).
Proof.
  rewrite hybrid_retrieve_resolved. unfold bind at 1.
  destruct (get_asins_by_filter env _ _ _ _ _ _) as [[candidates|e] tr1] eqn:E;
    [|discriminate].
  intros H. exists candidates. cbn [fst]. split; [reflexivity|].
  destruct candidates as [|a candidates].
  - injection H as <- _. split; [reflexivity|]. split; [reflexivity|].
    intros C. now contradiction C.
  - unfold bind, call, lift, ret in H.
    destruct (embedding env tr1 semantic_query) as [v|]; [|discriminate].
    destruct (match_any (a :: candidates)) as [ids|] eqn:Hm; [|discriminate].
    destruct (query_points env _ v _ _) as [points|] eqn:Q; [|discriminate].
    destruct (extract_results points empty_result) as [ex|] eqn:X; [|discriminate].
    injection H as <- _. cbn [filter_count].
    split; [reflexivity|]. split; [discriminate|]. intros _.
    apply extract_results_spec in X. cbn in X.
    destruct X as (X1 & X2 & X3 & X4 & _).
    eexists ids, _, v, points. split; [now apply match_any_ok|]. split; [exact Q|].
    cbn [retrieved_context_ids retrieved_context retrieved_context_ratings
         similarity_scores].
    repeat split; assumption.
Qed.

Lemma length_map_Some {A} (l : list A) (l' : list (option A)) :
  map Some l = l' -> length l = length l'.
Proof. intros <-. now rewrite length_map. Qed.

(** Distinct hits that all lie in the candidate list are no more than the
    candidates. *)
Lemma distinct_hits_bound (candidates : list string) (points : list ScoredPoint) :
  Forall (fun p => hit_in candidates p = true) points ->
  NoDup (map hit_id points) ->
  (length points <= length candidates)%nat.
Proof.
  intros Hin Hnd.
  rewrite <- (length_map hit_id points),
          <- (length_map (fun a => Some (VStr a)) candidates).
  apply NoDup_incl_length; [now apply NoDup_ListNoDup|].
  intros x Hx. apply in_map_iff in Hx as (p & <- & Hp).
  rewrite Forall_forall in Hin. specialize (Hin p).
  assert (Hp' : hit_in candidates p = true).
  { apply Hin. now apply list_elem_of_In. }
  unfold hit_in in Hp'. destruct (hit_id p) as [[]|]; try discriminate.
  apply bool_decide_eq_true in Hp'. apply in_map_iff. exists s.
  split; [reflexivity|]. now apply list_elem_of_In.
Qed.

(** The concrete collections answer as a vector store should. *)
Lemma list_filter_sublist {A} (f : A -> bool) l : List.filter f l `sublist_of` l.
Proof.
  induction l as [|x l IH]; [constructor|]. cbn.
  destruct (f x); now constructor.
Qed.

Lemma descending_sublist l1 l2 :
  l1 `sublist_of` l2 -> descending l2 -> descending l1.
Proof.
  induction 1 as [|x l1 l2 Hs IH|x l1 l2 Hs IH]; cbn; intros Hd.
  - exact I.
  - destruct Hd as [Hx Hd]. split; [|now apply IH].
    rewrite Forall_forall in *. intros y Hy. apply Hx.
    eapply elem_of_sublist; eassumption.
  - apply IH, Hd.
Qed.

Section TestEnv.
Context (reply : Prompt -> Res string) (loads : string -> Res PyVal)
        (table : list Product) (store : list ScoredPoint).

Lemma test_env_hits tr v ids k points :
  query_points (test_env reply loads table store) tr v ids k = Ok points ->
  0 <= k /\ points = take (Z.to_nat k) (List.filter (hit_in ids) store).
Proof.
  cbn. destruct (k <? 0) eqn:E; [discriminate|].
  intros H. injection H as <-. split; [lia|reflexivity].
Qed.

Lemma test_env_honours_limit : honours_limit (test_env reply loads table store).
Proof.
  intros tr v ids k points H. apply test_env_hits in H as [Hk ->].
  rewrite length_take. lia.
Qed.

Lemma test_env_honours_filter : honours_filter (test_env reply loads table store).
Proof.
  intros tr v ids k points H. apply test_env_hits in H as [_ ->].
  apply Forall_take, Forall_forall. intros p Hp.
  apply list_elem_of_In, filter_In in Hp. tauto.
Qed.

Lemma test_env_ranked :
  descending (map score store) -> ranked (test_env reply loads table store).
Proof.
  intros Hd tr v ids k points H. apply test_env_hits in H as [_ ->].
  eapply descending_sublist; [|exact Hd].
  apply (fmap_sublist score). etrans; [apply sublist_take|apply list_filter_sublist].
Qed.

Lemma test_env_distinct_hits :
  NoDup (map hit_id store) -> distinct_hits (test_env reply loads table store).
Proof.
  intros Hd tr v ids k points H. apply test_env_hits in H as [_ ->].
  eapply sublist_NoDup; [exact Hd|].
  apply (fmap_sublist hit_id). etrans; [apply sublist_take|apply list_filter_sublist].
Qed.

End TestEnv.

(** C5 (as amended).  When the resolver returned a non-empty candidate
    list of size C and [hybrid_retrieve] returns, the four result
    sequences have one common length and [filter_count] is C.  The common
    length is at most the requested [k] when the vector store honours its
    limit.  It is at most C, hence at most [filter_count], when the vector
    store honours the [MatchAny] filter and returns no two hits with the
    same [parent_asin]; with all three it is at most [min k C]. *)
Theorem hybrid_retrieve_lengths env semantic_query (filters : gmap string PyVal)
    k tr r tr' candidates :
  (get_asins_by_filter env (dict_get filters "min_price")
     (dict_get filters "max_price") (dict_get filters "min_rating")
     (dict_get filters "category") (Some 100) (tr ++ [Run "hybrid_retrieve"])).1
  = Ok candidates ->
  candidates <> [] ->
  hybrid_retrieve env semantic_query (VDict filters) (Some k) tr = (Ok r, tr') ->
  aligned r /\
  filter_count r = length candidates /\
  (honours_limit env -> Z.of_nat (length (retrieved_context_ids r)) <= k) /\
  (honours_filter env -> distinct_hits env ->
     (length (retrieved_context_ids r) <= length candidates)%nat /\
     (length (retrieved_context_ids r) <= filter_count r)%nat) /\
  (honours_limit env -> honours_filter env -> distinct_hits env ->
     Z.of_nat (length (retrieved_context_ids r)) <= Z.min k (Z.of_nat (length candidates))).
Proof.
  intros Hres Hne Hret.
  apply hybrid_retrieve_inv in Hret as (cands & Hc & Hcount & _ & Hsearch).
  rewrite Hres in Hc. injection Hc as <-.
  destruct (Hsearch Hne) as (ids & trq & v & points & Hids' & Hq & Hids & Hctx & Hrat & Hsc).
  apply length_map_Some in Hids. rewrite length_map in Hids.
  assert (Hlen : length candidates = length ids) by (rewrite Hids'; apply length_map).
  assert (Hk : honours_limit env -> Z.of_nat (length (retrieved_context_ids r)) <= k).
  { intros Hlim. rewrite Hids. exact (Hlim _ _ _ _ _ Hq). }
  assert (Hc : honours_filter env -> distinct_hits env ->
               (length (retrieved_context_ids r) <= length candidates)%nat).
  { intros Hfil Hdis. rewrite Hids, Hlen.
    exact (distinct_hits_bound ids points (Hfil _ _ _ _ _ Hq) (Hdis _ _ _ _ _ Hq)). }
  split; [|split; [|split; [|split]]].
  - unfold aligned. rewrite Hsc, length_map. repeat split; congruence.
  - exact Hcount.
  - exact Hk.
  - intros Hfil Hdis. specialize (Hc Hfil Hdis). split; [exact Hc|]. now rewrite Hcount.
  - intros Hlim Hfil Hdis. specialize (Hk Hlim). specialize (Hc Hfil Hdis). lia.
Qed.

Lemma hybrid_retrieve_lengths_witness :
  exists r,
    (hybrid_retrieve six_env (VStr "speakers") (VDict ∅) (Some 2) []).1 = Ok r /\
    aligned r /\
    Z.of_nat (length (retrieved_context_ids r)) <= 2 /\
    filter_count r = 6%nat /\
    Z.of_nat (length (retrieved_context_ids r)) <= Z.min 2 6 /\
    (length (retrieved_context_ids r) <= filter_count r)%nat.
Proof.
  assert (Hd : distinct_hits six_env).
  { apply test_env_distinct_hits, NoDup_ListNoDup. vm_compute.
    repeat (constructor; [cbn; intuition discriminate|]). constructor. }
  eassert (Hret : hybrid_retrieve six_env (VStr "speakers") (VDict ∅) (Some 2) []
                  = (Ok _, _)) by (vm_compute; reflexivity).
  eexists. split; [rewrite Hret; reflexivity|].
  assert (Hres : (get_asins_by_filter six_env (dict_get ∅ "min_price")
                    (dict_get ∅ "max_price") (dict_get ∅ "min_rating")
                    (dict_get ∅ "category") (Some 100) ([] ++ [Run "hybrid_retrieve"])).1
                 = Ok (map Some ["P1"; "P2"; "P3"; "P4"; "P5"; "P6"]))
    by (vm_compute; reflexivity).
  pose proof (hybrid_retrieve_lengths six_env (VStr "speakers") ∅ 2 [] _ _ _
                Hres ltac:(discriminate) Hret)
    as (Ha & Hc & Hk & Hf & Hm).
  specialize (Hk (test_env_honours_limit _ _ _ _)).
  destruct (Hf (test_env_honours_filter _ _ _ _) Hd) as [_ Hle].
  specialize (Hm (test_env_honours_limit _ _ _ _) (test_env_honours_filter _ _ _ _) Hd).
  repeat split; try assumption; apply Ha.
Defined.

(** C5 as first stated fails: a catalogue of one book whose description is
    stored as two points.  One candidate, limit 5, two hits: more than
    [min 5 1], and more than [filter_count]. *)
Lemma hybrid_retrieve_chunks_counterexample :
  hybrid_retrieve chunked_env (VStr "novel") (VDict ∅) (Some 5) [] =
  (Ok {| retrieved_context_ids := [VStr "B1"; VStr "B1"];
         retrieved_context := [VStr "about B1"; VStr "about B1"];
         retrieved_context_ratings := [VInt 4; VInt 4];
         similarity_scores := [9 # 10; 8 # 10];
         filter_count := 1 |},
   [Run "hybrid_retrieve"; Run "get_asins_by_filter"; DbConnect;
    DbExecute (select_sql []) [VInt 100]; DbClose;
    Embed (VStr "novel"); QueryPoints ["B1"] 5]) /\
  Z.min 5 1 < 2.
Proof. split; [vm_compute; reflexivity|reflexivity]. Qed.

(* ===================================================================== *)
(** ** Result limits *)
(* ===================================================================== *)

Lemma emits_get_asins_by_filter P env min_price max_price min_rating category limit :
  ambient P -> P DbConnect -> P DbClose ->
  (forall sql params, last params = Some (VInt (default 50 limit)) -> P (DbExecute sql params)) ->
  emits P (get_asins_by_filter env min_price max_price min_rating category limit).
Proof.
  intros [Hrun _] Hc Hd He. unfold get_asins_by_filter.
  emits_auto. apply emits_call, He, last_snoc.
Qed.

Lemma emits_hybrid_retrieve_limit env semantic_query filters k :
  emits (limit_is (default 10 k)) (hybrid_retrieve env semantic_query filters k).
Proof.
  unfold hybrid_retrieve. emits_auto; try exact I.
  - apply emits_get_asins_by_filter; try exact I; [apply ambient_limit_is|].
    intros; exact I.
  - apply emits_call. exact I.
  - apply emits_call. reflexivity.
Qed.

Lemma emits_format_hybrid_context P env context filters :
  ambient P -> emits P (format_hybrid_context env context filters).
Proof. intros [Hrun _]. unfold format_hybrid_context. emits_auto. Qed.

Lemma emits_build_hybrid_prompt P env formatted question filters :
  ambient P -> emits P (build_hybrid_prompt env formatted question filters).
Proof. intros [Hrun _]. unfold build_hybrid_prompt. emits_auto. Qed.

Lemma emits_hybrid_generate P env prompt :
  ambient P -> emits P (hybrid_generate env prompt).
Proof.
  intros HP. unfold hybrid_generate. emits_auto; [apply HP|].
  now apply emits_chat_completion.
Qed.

Lemma emits_hybrid_pipeline_limit env question filters semantic_query top_k :
  emits (limit_is (default 5 top_k))
        (hybrid_pipeline env question filters semantic_query top_k).
Proof.
  pose proof (ambient_limit_is (default 5 top_k)) as HP.
  unfold hybrid_pipeline. apply emits_traceable; [exact I|]. cbv zeta.
  apply emits_bind.
  { destruct filters; try apply emits_ret.
    apply emits_bind; [now apply emits_route_query|]. intros. apply emits_ret. }
  intros fs.
  apply emits_bind; [apply (emits_hybrid_retrieve_limit env _ _ (Some (default 5 top_k)))|].
  intros retrieved.
  apply emits_bind; [now apply emits_format_hybrid_context|]. intros formatted.
  apply emits_bind; [now apply emits_build_hybrid_prompt|]. intros prompt.
  apply emits_bind; [now apply emits_hybrid_generate|]. intros. apply emits_ret.
Qed.

(** A successful [hybrid_retrieve] was given a dictionary. *)
Lemma hybrid_retrieve_ok_dict env semantic_query filters k tr r tr' :
  hybrid_retrieve env semantic_query filters k tr = (Ok r, tr') ->
  exists d, filters = VDict d.
Proof.
  destruct filters; try (intros H; discriminate H). intros _. now eexists.
Qed.

(** What a successful [hybrid_retrieve] returns, given a store that
    honours its limit and ranks its hits. *)
Lemma hybrid_retrieve_bounded env semantic_query filters k tr r tr' :
  honours_limit env -> 0 <= default 10 k ->
  hybrid_retrieve env semantic_query filters k tr = (Ok r, tr') ->
  aligned r /\ Z.of_nat (length (retrieved_context_ids r)) <= default 10 k.
Proof.
  intros Hlim Hk H.
  destruct (hybrid_retrieve_ok_dict _ _ _ _ _ _ _ H) as [d ->].
  apply hybrid_retrieve_inv in H as (cands & _ & _ & Hempty & Hsearch).
  destruct cands as [|a cands].
  - rewrite (Hempty eq_refl). cbn. unfold aligned. cbn. repeat split; lia.
  - destruct Hsearch as (ids & trq & v & points & _ & Hq & Hids & Hctx & Hrat & Hsc);
      [discriminate|].
    apply length_map_Some in Hids. rewrite length_map in Hids.
    split.
    + unfold aligned. rewrite Hsc, length_map. repeat split; congruence.
    + rewrite Hids. exact (Hlim _ _ _ _ _ Hq).
Qed.

Lemma hybrid_retrieve_ranked env semantic_query filters k tr r tr' :
  ranked env ->
  hybrid_retrieve env semantic_query filters k tr = (Ok r, tr') ->
  descending (similarity_scores r).
Proof.
  intros Hrk H.
  destruct (hybrid_retrieve_ok_dict _ _ _ _ _ _ _ H) as [d ->].
  apply hybrid_retrieve_inv in H as (cands & _ & _ & Hempty & Hsearch).
  destruct cands as [|a cands].
  - rewrite (Hempty eq_refl). exact I.
  - destruct Hsearch as (ids & trq & v & points & _ & Hq & _ & _ & _ & ->);
      [discriminate|].
    exact (Hrk _ _ _ _ _ Hq).
Qed.

(** A successful [hybrid_pipeline] passes on what one [hybrid_retrieve]
    with limit [top_k] returned. *)
Lemma hybrid_pipeline_inv env question filters semantic_query top_k tr res tr' :
  hybrid_pipeline env question filters semantic_query top_k tr = (Ok res, tr') ->
  exists sq fs tr1 r tr2,
    hybrid_retrieve env sq fs (Some (default 5 top_k)) tr1 = (Ok r, tr2) /\
    hp_retrieved_context_ids res = retrieved_context_ids r /\
    hp_retrieved_context res = retrieved_context r /\
    hp_similarity_scores res = similarity_scores r /\
    hp_filter_count res = filter_count r.
Proof.
  unfold hybrid_pipeline. rewrite traceable_eq. cbv zeta.
  unfold bind at 1.
  match goal with |- context [match ?m ?t with _ => _ end] =>
    destruct (m t) as [[fs|e] tr1] end; [|discriminate].
  unfold bind at 1.
  match goal with |- context [hybrid_retrieve env ?sq ?f ?k ?t] =>
    destruct (hybrid_retrieve env sq f k t) as [[r|e] tr2] eqn:E end; [|discriminate].
  unfold bind at 1.
  destruct (format_hybrid_context env r _ tr2) as [[formatted|e] tr3]; [|discriminate].
  unfold bind at 1.
  destruct (build_hybrid_prompt env formatted question _ tr3) as [[prompt|e] tr4];
    [|discriminate].
  unfold bind at 1.
  destruct (hybrid_generate env prompt tr4) as [[answer|e] tr5]; [|discriminate].
  intros H. injection H as <- _. cbn.
  eexists _, _, _, r, _. split; [exact E|]. repeat split.
Qed.

(** C8 (as amended).  With the result limit omitted, every vector search
    [hybrid_pipeline] issues asks for 5 hits, while [hybrid_retrieve]
    called directly asks for 10.  Given a store that honours its limit and
    ranks its hits, [hybrid_pipeline] returns at most 5 hits and
    [hybrid_retrieve] at most 10, in both cases by descending score. *)
Theorem default_result_limits env :
  (forall question filters semantic_query,
     emits (limit_is 5) (hybrid_pipeline env question filters semantic_query None)) /\
  (forall semantic_query filters,
     emits (limit_is 10) (hybrid_retrieve env semantic_query filters None)) /\
  (honours_limit env -> ranked env ->
   (forall question filters semantic_query tr res tr',
      hybrid_pipeline env question filters semantic_query None tr = (Ok res, tr') ->
      (length (hp_retrieved_context_ids res) <= 5)%nat /\
      length (hp_similarity_scores res) = length (hp_retrieved_context_ids res) /\
      descending (hp_similarity_scores res)) /\
   (forall semantic_query filters tr r tr',
      hybrid_retrieve env semantic_query filters None tr = (Ok r, tr') ->
      (length (retrieved_context_ids r) <= 10)%nat /\
      length (similarity_scores r) = length (retrieved_context_ids r) /\
      descending (similarity_scores r))).
Proof.
  split; [|split].
  - intros. apply (emits_hybrid_pipeline_limit env _ _ _ None).
  - intros. apply (emits_hybrid_retrieve_limit env _ _ None).
  - intros Hlim Hrk. split.
    + intros question filters semantic_query tr res tr' H.
      apply hybrid_pipeline_inv in H as (sq & fs & tr1 & r & tr2 & E & -> & _ & -> & _).
      destruct (fun Hk => hybrid_retrieve_bounded _ _ _ _ _ _ _ Hlim Hk E)
        as [(_ & _ & Hal) Hk]; [cbv; congruence|].
      change (Z.of_nat (length (retrieved_context_ids r)) <= 5) in Hk.
      split; [lia|]. split; [exact Hal|].
      exact (hybrid_retrieve_ranked _ _ _ _ _ _ _ Hrk E).
    + intros semantic_query filters tr r tr' E.
      destruct (fun Hk => hybrid_retrieve_bounded _ _ _ _ _ _ _ Hlim Hk E)
        as [(_ & _ & Hal) Hk]; [cbv; congruence|].
      change (Z.of_nat (length (retrieved_context_ids r)) <= 10) in Hk.
      split; [lia|]. split; [exact Hal|].
      exact (hybrid_retrieve_ranked _ _ _ _ _ _ _ Hrk E).
Qed.

Lemma six_points_descending : descending (map score six_points).
Proof.
  cbn. repeat split; repeat constructor; unfold Qle; cbn; lia.
Qed.

Lemma default_result_limits_witness :
  exists res,
    (hybrid_pipeline six_env "speakers" (VDict ∅) VNone None []).1 = Ok res /\
    (length (hp_retrieved_context_ids res) <= 5)%nat /\
    length (hp_similarity_scores res) = length (hp_retrieved_context_ids res) /\
    descending (hp_similarity_scores res).
Proof.
  destruct (hybrid_pipeline six_env "speakers" (VDict ∅) VNone None [])
    as [[res|e] tr'] eqn:E.
  - exists res. split; [reflexivity|].
    exact (proj1 (proj2 (proj2 (default_result_limits six_env))
                    (test_env_honours_limit _ _ _ _)
                    (test_env_ranked _ _ _ _ six_points_descending))
             "speakers" (VDict ∅) VNone [] res tr' E).
  - exfalso. vm_compute in E. discriminate E.
Defined.

(** C8 as first stated fails: [hybrid_retrieve] called directly without a
    limit asks the vector store for 10 hits and, on a catalogue of six,
    returns six, more than 5. *)
Lemma hybrid_retrieve_default_limit_counterexample :
  hits (hybrid_retrieve six_env (VStr "speakers") (VDict ∅) None []).1
       (fun r => length (retrieved_context_ids r)) = Some 6%nat /\
  requested_limits (hybrid_retrieve six_env (VStr "speakers") (VDict ∅) None []).2 = [10].
Proof. split; vm_compute; reflexivity. Qed.

(* ===================================================================== *)
(** ** The candidate resolver's predicate *)
(* ===================================================================== *)

Lemma like_percent_nil rest :
  Pg.like (String Pg.percent rest) EmptyString = Pg.like rest EmptyString || false.
Proof. reflexivity. Qed.

Lemma like_percent_cons rest d t :
  Pg.like (String Pg.percent rest) (String d t)
  = Pg.like rest (String d t) || Pg.like (String Pg.percent rest) t.
Proof. reflexivity. Qed.

Lemma like_literal_cons a rest t :
  Pg.is_meta a = false ->
  Pg.like (String a rest) t =
  match t with
  | EmptyString => false
  | String d t' => Ascii.eqb a d && Pg.like rest t'
  end.
Proof.
  unfold Pg.is_meta. intros H.
  apply orb_false_elim in H as [H H3]. apply orb_false_elim in H as [H1 H2].
  cbn [Pg.like]. now rewrite H1, H2, H3.
Qed.

(** A lone percent sign matches everything. *)
Lemma like_percent_all t : Pg.like (String Pg.percent EmptyString) t = true.
Proof.
  induction t as [|d t IH]; [reflexivity|].
  rewrite like_percent_cons, IH. apply orb_true_r.
Qed.

(** A literal word followed by a percent sign matches the texts that start
    with the word. *)
Lemma like_literal_prefix c : forall t,
  Pg.no_meta c = true ->
  Pg.like (c ++ String Pg.percent EmptyString)%string t = PyStr.startswith t c.
Proof.
  induction c as [|a c IH]; intros t H.
  - rewrite append_nil, like_percent_all. now destruct t.
  - cbn [Pg.no_meta] in H. apply andb_prop in H as [Ha Hc].
    apply negb_true_iff in Ha. rewrite append_cons.
    rewrite (like_literal_cons a _ t Ha).
    destruct t as [|d t]; [reflexivity|]. cbn [PyStr.startswith]. now rewrite IH.
Qed.

(** A percent sign in front turns a prefix test into a substring test. *)
Lemma like_percent_contains rest c :
  (forall t, Pg.like rest t = PyStr.startswith t c) ->
  forall t, Pg.like (String Pg.percent rest) t = PyStr.contains c t.
Proof.
  intros H t. induction t as [|d t IH].
  - rewrite like_percent_nil, H. reflexivity.
  - rewrite like_percent_cons, H, IH. reflexivity.
Qed.

Lemma is_meta_lower_char a : Pg.is_meta (Pg.lower_char a) = Pg.is_meta a.
Proof. destruct a as [[] [] [] [] [] [] [] []]; reflexivity. Qed.

Lemma no_meta_lower c : Pg.no_meta (Pg.lower c) = Pg.no_meta c.
Proof.
  induction c as [|a c IH]; [reflexivity|].
  cbn [Pg.lower Pg.map_chars Pg.no_meta]. fold (Pg.lower c).
  now rewrite is_meta_lower_char, IH.
Qed.

Lemma lower_append a b : Pg.lower (a ++ b)%string = (Pg.lower a ++ Pg.lower b)%string.
Proof.
  induction a as [|x a IH]; [reflexivity|].
  rewrite !append_cons. cbn [Pg.lower Pg.map_chars]. rewrite append_cons.
  f_equal. exact IH.
Qed.

(** Without wildcard characters in the category, the ILIKE test of the
    resolver is a case-insensitive substring test. *)
Lemma ilike_substring c text :
  Pg.no_meta c = true ->
  Pg.ilike text ("%" ++ c ++ "%")%string = contains_nocase c text.
Proof.
  intros H. unfold Pg.ilike, contains_nocase.
  change ("%" ++ c ++ "%")%string with (String Pg.percent (c ++ "%"))%string.
  cbn [Pg.lower Pg.map_chars]. fold (Pg.lower (c ++ "%")).
  rewrite lower_append.
  change (Pg.lower_char Pg.percent) with Pg.percent.
  apply like_percent_contains. intros t.
  apply like_literal_prefix. now rewrite no_meta_lower.
Qed.

Lemma is_ascii_app a b : Pg.is_ascii (a ++ b)%string = Pg.is_ascii a && Pg.is_ascii b.
Proof.
  induction a as [|c a IH]; [reflexivity|].
  rewrite append_cons. cbn [Pg.is_ascii]. now rewrite IH, andb_assoc.
Qed.

Section TestStore.
Context (reply : Prompt -> Res string) (loads : string -> Res PyVal)
        (table : list Product) (store : list ScoredPoint).

(** The reference execution answers as a store should. *)
Lemma test_env_sql_store : sql_store (test_env reply loads table store).
Proof.
  intros tr sql params answer q H Hq.
  change (pg_query (test_env reply loads table store) tr sql params)
    with (Sql.run (services reply loads table store
                     (fun _ _ _ => Raise (DatabaseError "no answer"))) sql params) in H.
  unfold Sql.run in H. rewrite Hq in H.
  destruct (Sql.meaning _ q params) as [test|] eqn:Hm; [|discriminate].
  destruct (last params) as [[]|] eqn:Hl; try discriminate.
  destruct ((z <? 0) || (2 ^ 63 <=? z)) eqn:Hz; [discriminate|].
  apply orb_false_elim in Hz as [Hz _]. apply Z.ltb_ge in Hz.
  injection H as <-.
  change (products _) with table.
  set (rows := map parent_asin (List.filter test table)).
  assert (Hrows : forall x, x ∈ rows <->
            exists p, p ∈ table /\ test p = true /\ parent_asin p = x).
  { intros x. unfold rows. rewrite list_elem_of_In, in_map_iff. split.
    - intros (p & E & Hp). apply filter_In in Hp as [Hp Ht].
      exists p. rewrite list_elem_of_In. auto.
    - intros (p & Hp & Ht & E). exists p. split; [exact E|].
      apply filter_In. rewrite <- list_elem_of_In. auto. }
  split; [|split].
  - intros ->. eapply sublist_NoDup; [apply NoDup_remove_dups|apply sublist_take].
  - intros z' E. injection E as <-. split; [exact Hz|]. rewrite length_take. lia.
  - intros test' Hm'.
    injection Hm' as <-. split.
    + intros x Hx. apply Hrows.
      eapply elem_of_sublist in Hx; [|apply sublist_take].
      destruct (Sql.distinct q); [|exact Hx].
      rewrite elem_of_remove_dups in Hx. exact Hx.
    + intros z' -> E Hlen p Hp Ht. injection E as <-.
      rewrite length_take in Hlen. rewrite take_ge by lia.
      apply elem_of_remove_dups, Hrows. eauto.
Qed.

End TestStore.

Lemma test_env_ascii_ilike reply loads table store :
  ascii_ilike (test_env reply loads table store).
Proof. intros text pattern _ _. reflexivity. Qed.

(** The statement the resolver sends, as the server reads it. *)
Lemma select_sql_parse env min_price max_price min_rating category :
  Sql.parse (select_sql (build_conditions env min_price max_price min_rating category).1)
  = Some {| Sql.distinct := true;
            Sql.condition := [resolver_atoms min_price max_price min_rating category] |}.
Proof.
  unfold build_conditions, resolver_atoms.
  destruct (is_not_none min_price), (is_not_none max_price),
           (is_not_none min_rating), (is_not_none category); vm_compute; reflexivity.
Qed.

Lemma reads_as_cases env v x :
  reads_as env v x ->
  (is_not_none v = false /\ x = None) \/
  (is_not_none v = true /\
   exists q, Sql.read_number env v = Some (Some q) /\ x = Some q).
Proof.
  destruct v; cbn [reads_as is_not_none]; intros H;
    first [left; split; [reflexivity|exact H] | right; split; [reflexivity|exact H]].
Qed.

Lemma category_text_cases env v :
  (is_not_none v = false /\ category_text env v = None) \/
  (is_not_none v = true /\ category_text env v = Some (py_str env v)).
Proof. destruct v; cbn; auto. Qed.

(** With the parameters the resolver binds, the statement tests a row by
    the conjunction of the present fields, and for a selected column that
    is not NULL. *)
Lemma resolver_meaning env min_price max_price min_rating category a b c limit :
  reads_as env min_price a -> reads_as env max_price b -> reads_as env min_rating c ->
  exists test,
    Sql.meaning env
      {| Sql.distinct := true;
         Sql.condition := [resolver_atoms min_price max_price min_rating category] |}
      ((build_conditions env min_price max_price min_rating category).2 ++ [limit])
    = Some test /\
    forall p, test p = candidate_predicate env a b c (category_text env category) p
                       && bool_decide (is_Some (parent_asin p)).
Proof.
  intros Ha Hb Hc.
  apply reads_as_cases in Ha as [[Ea ->]|[Ea (qa & Ra & ->)]];
  apply reads_as_cases in Hb as [[Eb ->]|[Eb (qb & Rb & ->)]];
  apply reads_as_cases in Hc as [[Ec ->]|[Ec (qc & Rc & ->)]];
  destruct (category_text_cases env category) as [[Ed ->]|[Ed ->]];
  unfold build_conditions, resolver_atoms, Sql.meaning;
  rewrite Ea, Eb, Ec, Ed;
  repeat first
    [ rewrite Ra | rewrite Rb | rewrite Rc
    | progress cbn [app fst snd Sql.condition Sql.any_of Sql.all_of Sql.atom_meaning
                    Sql.numeric Sql.textual Sql.read_text
                    mbind option_bind mret option_ret] ];
  (eexists; split; [reflexivity|]);
  intros p; unfold candidate_predicate, Sql.compare, Sql.matches, Sql.not_null;
  cbn [fst snd];
  rewrite ?andb_true_r, ?andb_true_l, ?orb_false_r, ?andb_assoc; reflexivity.
Qed.

(** What the resolver returns, given a store that answers its statement
    as a store should. *)
Lemma get_asins_by_filter_answer env min_price max_price min_rating category
    limit tr candidates :
  sql_store env ->
  (get_asins_by_filter env min_price max_price min_rating category limit tr).1
  = Ok candidates ->
  NoDup candidates /\
  0 <= default 50 limit /\
  (length candidates <= Z.to_nat (default 50%Z limit))%nat /\
  forall a b c,
    reads_as env min_price a -> reads_as env max_price b -> reads_as env min_rating c ->
    (forall x, x ∈ candidates ->
       exists id p, x = Some id /\ p ∈ products env /\ parent_asin p = Some id /\
                    candidate_predicate env a b c (category_text env category) p = true) /\
    ((length candidates < Z.to_nat (default 50%Z limit))%nat ->
     forall p id, p ∈ products env ->
       candidate_predicate env a b c (category_text env category) p = true ->
       parent_asin p = Some id -> Some id ∈ candidates).
Proof.
  intros Hstore H. rewrite get_asins_by_filter_eval in H. cbv zeta in H. cbn [fst] in H.
  destruct (Hstore _ _ _ _ _ H (select_sql_parse env _ _ _ _)) as (Hd & Hl & Hm).
  destruct (Hl _ (last_snoc _ _)) as [H0 Hlen].
  split; [now apply Hd|]. split; [exact H0|]. split; [exact Hlen|].
  intros a b c Ha Hb Hc.
  destruct (resolver_meaning env _ _ _ category a b c (VInt (default 50 limit)) Ha Hb Hc)
    as (test & Ht & Hext).
  destruct (Hm test Ht) as [Hsound Hcomplete]. split.
  - intros x Hx. destruct (Hsound x Hx) as (p & Hp & Hpass & <-).
    rewrite Hext in Hpass. apply andb_prop in Hpass as [Hpass Hnn].
    apply bool_decide_eq_true in Hnn as [id Hid].
    exists id, p. auto.
  - intros Hlt p id Hp Hpass Hid. rewrite <- Hid.
    apply (Hcomplete _ eq_refl (last_snoc _ _) Hlt p Hp).
    rewrite Hext, Hpass, Hid. reflexivity.
Qed.

Lemma emits_hybrid_retrieve_sql_limit env semantic_query filters k :
  emits (sql_limit_is (VInt 100)) (hybrid_retrieve env semantic_query filters k).
Proof.
  unfold hybrid_retrieve. emits_auto; try exact I.
  - apply emits_get_asins_by_filter; try exact I; [apply ambient_sql_limit_is|].
    intros sql params H. exact H.
  - apply emits_call. exact I.
  - apply emits_call. exact I.
Qed.

(** C6 (as amended).  The statement the resolver sends reads as SELECT
    DISTINCT of [parent_asin] under one conjunction: one comparison per
    present field (price at least [min_price], price at most [max_price],
    rating at least [min_rating], main category ILIKE [%category%]),
    [TRUE] when no field is present, and [parent_asin IS NOT NULL], with
    the LIMIT as its last parameter.  For values the server reads as
    numbers its test on a row is the conjunction of the present fields,
    always true when all are absent, for a [parent_asin] that is not NULL.
    On ASCII text the category test is a case-insensitive substring test
    whenever the category holds none of the LIKE wildcard characters
    (percent, underscore, backslash).  Given a store that answers the
    statement as SQL prescribes, the identifiers returned are distinct,
    not NULL, at most the limit, each the [parent_asin] of a row that
    passes, and all of them when fewer than the limit come back.
    [hybrid_retrieve] always asks for 100, whatever result size its caller
    requests, so its [filter_count] is at most 100. *)
Theorem candidate_resolver_spec env :
  (forall min_price max_price min_rating category,
     Sql.parse (select_sql (build_conditions env min_price max_price min_rating category).1)
     = Some {| Sql.distinct := true;
               Sql.condition :=
                 [resolver_atoms min_price max_price min_rating category] |}) /\
  (forall min_price max_price min_rating category a b c limit,
     reads_as env min_price a -> reads_as env max_price b -> reads_as env min_rating c ->
     exists test,
       Sql.meaning env
         {| Sql.distinct := true;
            Sql.condition := [resolver_atoms min_price max_price min_rating category] |}
         ((build_conditions env min_price max_price min_rating category).2 ++ [limit])
       = Some test /\
       forall p, test p = candidate_predicate env a b c (category_text env category) p
                          && bool_decide (is_Some (parent_asin p))) /\
  (forall p, candidate_predicate env None None None None p = true) /\
  (ascii_ilike env ->
   forall c text,
     Pg.is_ascii c = true -> Pg.is_ascii text = true -> Pg.no_meta c = true ->
     pg_ilike env text ("%" ++ c ++ "%")%string = contains_nocase c text) /\
  (sql_store env ->
   forall min_price max_price min_rating category limit tr candidates,
     (get_asins_by_filter env min_price max_price min_rating category limit tr).1
     = Ok candidates ->
     NoDup candidates /\
     (length candidates <= Z.to_nat (default 50%Z limit))%nat /\
     forall a b c,
       reads_as env min_price a -> reads_as env max_price b ->
       reads_as env min_rating c ->
       (forall x, x ∈ candidates ->
          exists id p, x = Some id /\ p ∈ products env /\ parent_asin p = Some id /\
            candidate_predicate env a b c (category_text env category) p = true) /\
       ((length candidates < Z.to_nat (default 50%Z limit))%nat ->
        forall p id, p ∈ products env ->
          candidate_predicate env a b c (category_text env category) p = true ->
          parent_asin p = Some id -> Some id ∈ candidates)) /\
  (forall semantic_query filters k,
     emits (sql_limit_is (VInt 100)) (hybrid_retrieve env semantic_query filters k)) /\
  (sql_store env ->
   forall semantic_query filters k tr r tr',
     hybrid_retrieve env semantic_query filters k tr = (Ok r, tr') ->
     (filter_count r <= 100)%nat).
Proof.
  split; [|split; [|split; [|split; [|split; [|split]]]]].
  - apply select_sql_parse.
  - apply resolver_meaning.
  - reflexivity.
  - intros Hilike c text Hc Htext Hmeta.
    rewrite Hilike; [now apply ilike_substring|exact Htext|].
    rewrite !is_ascii_app, Hc. reflexivity.
  - intros Hstore min_price max_price min_rating category limit tr candidates H.
    destruct (get_asins_by_filter_answer _ _ _ _ _ _ _ _ Hstore H) as (H1 & _ & H2 & H3).
    auto.
  - intros. apply emits_hybrid_retrieve_sql_limit.
  - intros Hstore semantic_query filters k tr r tr' H.
    destruct (hybrid_retrieve_ok_dict _ _ _ _ _ _ _ H) as [d ->].
    apply hybrid_retrieve_inv in H as (cands & Hc & -> & _).
    now destruct (get_asins_by_filter_answer _ _ _ _ _ _ _ _ Hstore Hc) as (_ & _ & H2 & _).
Qed.

(** C6, at a one-book catalogue: the resolver's answer for a price floor,
    a rating floor and a category. *)
Lemma candidate_resolver_spec_witness :
  Pg.ilike "Books" "%book%" = contains_nocase "book" "Books" /\
  exists candidates,
    (get_asins_by_filter chunked_env (VInt 5) VNone (VInt 4) (VStr "book") (Some 100) []).1
    = Ok candidates /\
    NoDup candidates /\
    (forall x, x ∈ candidates ->
       exists id p, x = Some id /\ p ∈ books /\ parent_asin p = Some id /\
         candidate_predicate chunked_env (Some (5 # 1)) None (Some (4 # 1)) (Some "book") p
         = true).
Proof.
  pose proof (candidate_resolver_spec chunked_env) as (_ & _ & _ & Hlike & Hsel & _).
  split; [exact (Hlike (test_env_ascii_ilike _ _ _ _) "book" "Books"
                   eq_refl eq_refl eq_refl)|].
  assert (E : (get_asins_by_filter chunked_env (VInt 5) VNone (VInt 4) (VStr "book")
                 (Some 100) []).1 = Ok [Some "B1"]) by (vm_compute; reflexivity).
  exists [Some "B1"]. split; [exact E|].
  destruct (Hsel (test_env_sql_store _ _ _ _) (VInt 5) VNone (VInt 4) (VStr "book")
              (Some 100) [] _ E) as (Hnd & _ & Hrows).
  split; [exact Hnd|].
  refine (proj1 (Hrows (Some (5 # 1)) None (Some (4 # 1)) _ _ _)); cbn; eauto.
Defined.

(** C6 as first stated fails on the category test: the category
    [cell_phones] is not a substring of [Cell Phones & Accessories], yet
    the resolver returns the product, because the underscore is a LIKE
    wildcard and matches the blank. *)
Lemma get_asins_by_filter_wildcard_counterexample :
  contains_nocase "cell_phones" "Cell Phones & Accessories" = false /\
  get_asins_by_filter phones_env VNone VNone VNone (VStr "cell_phones") (Some 100) [] =
  (Ok [Some "C1"],
   [Run "get_asins_by_filter"; DbConnect;
    DbExecute (select_sql ["main_category ILIKE %s"]) [VStr "%cell_phones%"; VInt 100];
    DbClose]).
Proof. split; vm_compute; reflexivity. Qed.

(* ===================================================================== *)
(** ** The context formatter *)
(* ===================================================================== *)

(** Appending entry after entry is appending their concatenation. *)
Lemma fold_left_append {A} (f : A -> string) (l : list A) (init : string) :
  fold_left (fun formatted e => (formatted ++ f e)%string) l init
  = (init ++ concat_str (map f l))%string.
Proof.
  revert init. induction l as [|e l IH]; intros init; cbn [fold_left map concat_str fold_right].
  - now rewrite append_nil_r.
  - rewrite IH. fold (concat_str (map f l)). apply append_assoc.
Qed.

(** The header the code builds is the header of the truthy fields. *)
Lemma format_header_rendered env context filters :
  format_header env context filters = rendered_header env context filters.
Proof.
  unfold format_header, rendered_header, header_field, header_labels.
  cbn [List.filter fst snd].
  destruct (truthy (dict_get filters "max_price")),
           (truthy (dict_get filters "min_rating")),
           (truthy (dict_get filters "category"));
    cbn [map concat_str fold_right fst snd];
    rewrite ?append_assoc, ?append_nil_r, ?append_nil; reflexivity.
Qed.

Lemma zip4_length {A B C D} (la : list A) : forall (lb : list B) (lc : list C) (ld : list D),
  length lb = length la -> length lc = length la -> length ld = length la ->
  length (zip4 la lb lc ld) = length la.
Proof.
  induction la as [|a la IH]; intros [|b lb] [|c lc] [|d ld] Hb Hc Hd;
    try discriminate; [reflexivity|].
  cbn. f_equal. apply IH; cbn in *; lia.
Qed.

(** Every number below one hundred is written with two digits. *)
Lemma two_digits_below_100 :
  forallb (fun n => two_decimals (two_digits (Z.of_nat n))) (seq 0 100) = true.
Proof. vm_compute. reflexivity. Qed.

Lemma two_digits_shape z : 0 <= z < 100 -> two_decimals (two_digits z) = true.
Proof.
  intros Hz. pose proof two_digits_below_100 as H.
  rewrite forallb_forall in H. specialize (H (Z.to_nat z)).
  rewrite Z2Nat.id in H by lia. apply H, in_seq. lia.
Qed.

(** [format_2f] ends in a point and two digits. *)
Lemma format_2f_shape x :
  exists whole decimals,
    format_2f x = (whole ++ "." ++ decimals)%string /\ two_decimals decimals = true.
Proof.
  unfold format_2f.
  set (cents := Z.abs (round_half_even (x * 100))).
  exists ((if (Qnum x <? 0)%Z then "-" else "") ++ PyStr.of_Z (cents / 100)%Z)%string,
         (two_digits (cents mod 100)).
  split; [now rewrite append_assoc|].
  apply two_digits_shape, Z.mod_pos_bound. lia.
Qed.

(** C7 (as amended).  On a filters dictionary the formatter returns, from
    any history and adding only its own run to the trace, the same text:
    a header with the candidate count followed by [max_price],
    [min_rating] and [category], each shown only when its value is truthy,
    then one entry per result, in order: a line with the identifier, the
    rating and the similarity score, and a line with the description.  The
    score is written with a point and exactly two decimals.  With aligned
    result sequences there are as many entries as results. *)
Theorem format_hybrid_context_spec env context (filters : gmap string PyVal) :
  (forall tr,
     format_hybrid_context env context (VDict filters) tr =
     (Ok (rendered_context env context filters), tr ++ [Run "format_hybrid_context"])) /\
  (forall id chunk rating score,
     format_entry env (id, chunk, rating, score) =
     ("- ID: " ++ py_str env id ++ ", rating: " ++ py_str env rating ++
      ", relevance: " ++ format_2f score ++ nl ++
      "  Description: " ++ py_str env chunk ++ nl ++ nl)%string) /\
  (forall score, exists whole decimals,
     format_2f score = (whole ++ "." ++ decimals)%string /\
     two_decimals decimals = true) /\
  (aligned context ->
   length (zip4 (retrieved_context_ids context) (retrieved_context context)
                (retrieved_context_ratings context) (similarity_scores context))
   = length (retrieved_context_ids context)).
Proof.
  split; [|split; [|split]].
  - intros tr. unfold format_hybrid_context. rewrite traceable_eq. unfold ret.
    unfold format_hybrid_context_text, rendered_context.
    now rewrite fold_left_append, format_header_rendered.
  - reflexivity.
  - exact format_2f_shape.
  - intros (H1 & H2 & H3). now apply zip4_length.
Qed.

Lemma format_hybrid_context_spec_witness :
  format_hybrid_context null_env two_hits (VDict price_and_category) [] =
  (Ok ("(Filtered from 6 products, max price: $100, category: Audio)" ++ nl ++ nl ++
       "- ID: P1, rating: 4, relevance: 0.88" ++ nl ++
       "  Description: about P1" ++ nl ++ nl ++
       "- ID: P2, rating: 5, relevance: 0.38" ++ nl ++
       "  Description: about P2" ++ nl ++ nl)%string,
   [Run "format_hybrid_context"]) /\
  length (zip4 (retrieved_context_ids two_hits) (retrieved_context two_hits)
               (retrieved_context_ratings two_hits) (similarity_scores two_hits))
  = 2%nat.
Proof.
  pose proof (format_hybrid_context_spec null_env two_hits price_and_category)
    as (Htext & _ & _ & Hlen).
  split.
  - exact (Htext []).
  - exact (Hlen ltac:(repeat split)).
Defined.

(** C7 as first stated fails: a filters dictionary that holds [sort_by], or
    [max_price] with value 0, gets the header of an empty dictionary; the
    field is present and the header does not show it. *)
Lemma format_hybrid_context_hidden_field_counterexample :
  format_hybrid_context null_env empty_result (VDict {[ "sort_by" := VStr "rating" ]}) [] =
  (Ok ("(Filtered from 0 products)" ++ nl ++ nl)%string, [Run "format_hybrid_context"]) /\
  format_hybrid_context null_env empty_result (VDict {[ "max_price" := VInt 0 ]}) [] =
  (Ok ("(Filtered from 0 products)" ++ nl ++ nl)%string, [Run "format_hybrid_context"]) /\
  format_hybrid_context null_env empty_result (VDict ∅) [] =
  (Ok ("(Filtered from 0 products)" ++ nl ++ nl)%string, [Run "format_hybrid_context"]).
Proof. repeat split; vm_compute; reflexivity. Qed.

(* ===================================================================== *)
(** ** The router beyond the classified paths *)
(* ===================================================================== *)

Lemma extract_filters_eval env question tr :
  extract_filters env question tr =
  (match openai_create env (tr ++ [Run "extract_filters"])
           (FILTER_EXTRACTION_PROMPT question) with
   | Raise e => Raise e
   | Ok response =>
       match json_loads env (clean_markdown (PyStr.strip response)) with
       | Raise JSONDecodeError => Ok (∅, VStr question)
       | Raise e => Raise e
       | Ok parsed =>
           match py_pop parsed "semantic_query" (VStr question) with
           | Raise e => Raise e
           | Ok popped =>
               Ok (list_to_map (map (fun key => (key, dict_get popped.2 key)) filter_keys),
                   popped.1)
           end
       end
   end,
   tr ++ extract_events question).
Proof.
  unfold extract_filters, traceable, chat_completion, bind, emit, call, ret, lift.
  rewrite <- app_assoc. cbn [app].
  destruct (openai_create env _ _) as [response|e]; [|reflexivity].
  destruct (json_loads env _) as [parsed|[]]; try reflexivity.
  destruct (py_pop parsed _ _); reflexivity.
Qed.

Lemma route_query_raise env question tr e :
  openai_create env (tr ++ [Run "route_query"; Run "classify_intent"])
                (INTENT_CLASSIFICATION_PROMPT question) = Raise e ->
  route_query env question tr = (Raise e, tr ++ classify_events question).
Proof.
  intros H.
  unfold route_query. rewrite traceable_eq. unfold invoke.
  change (entry_point (get_router env)) with (Some "classify").
  unfold recursion_limit.
  rewrite (run_graph_step (get_router env) _ "classify" _ (classify_node env) eq_refl).
  unfold classify_node, state_question, state_item.
  change (initial_state question !! "question") with (Some (VStr question)).
  unfold classify_intent, traceable, chat_completion, bind, emit, call, ret.
  rewrite <- !app_assoc. cbn [app]. rewrite H. reflexivity.
Qed.

Lemma route_query_hybrid env question tr content :
  openai_create env (tr ++ [Run "route_query"; Run "classify_intent"])
                (INTENT_CLASSIFICATION_PROMPT question) = Ok content ->
  classified_intent content = HYBRID ->
  route_query env question tr =
  (match (extract_filters env question (tr ++ classify_events question)).1 with
   | Ok r => Ok (<["semantic_query" := r.2]>
                   (<["filters" := VDict r.1]> (classified_state question content))
                 ∪ classified_state question content)
   | Raise e => Raise e
   end,
   tr ++ classify_events question ++ extract_events question).
Proof.
  intros H Hi. rewrite (route_query_classified _ _ _ _ H). cbv zeta.
  rewrite Hi. cbn [intent_eqb]. fold (classify_events question).
  unfold extract_filters_node, state_question, state_item.
  rewrite classified_state_lookup by discriminate.
  change (initial_state question !! "question") with (Some (VStr question)).
  unfold bind, ret. cbv beta iota.
  rewrite extract_filters_eval. cbn [fst]. rewrite <- !app_assoc.
  destruct (openai_create env (tr ++ classify_events question ++ _) _) as [response|e];
    [|reflexivity].
  destruct (json_loads env _) as [parsed|[]]; try reflexivity.
  destruct (py_pop parsed _ _); reflexivity.
Qed.

(** X1.  Whatever the services answer and whether it returns or raises,
    [route_query] adds one of two event sequences: the classification
    alone, or the classification followed by one filter extraction.  Both
    calls carry the original question; neither is repeated. *)
Theorem route_query_trace_shapes env question tr :
  (route_query env question tr).2 = tr ++ classify_events question \/
  (route_query env question tr).2
  = tr ++ classify_events question ++ extract_events question.
Proof.
  destruct (openai_create env (tr ++ [Run "route_query"; Run "classify_intent"])
              (INTENT_CLASSIFICATION_PROMPT question)) as [content|e] eqn:H.
  - destruct (classified_intent content) eqn:Hi.
    + left. rewrite (route_query_classified _ _ _ _ H). cbv zeta. now rewrite Hi.
    + left. rewrite (route_query_classified _ _ _ _ H). cbv zeta. now rewrite Hi.
    + right. now rewrite (route_query_hybrid _ _ _ _ H Hi).
  - left. now rewrite (route_query_raise _ _ _ _ H).
Qed.

(** X2.  A failure of the text-generation service is not caught: when the
    classification call raises, [route_query] raises the same exception
    and the extractor is not run; when the classification is HYBRID and
    the extraction call raises, [route_query] raises that exception
    (the fallback to empty filters is for undecodable text only). *)
Theorem route_query_service_failure env question tr e :
  (openai_create env (tr ++ [Run "route_query"; Run "classify_intent"])
     (INTENT_CLASSIFICATION_PROMPT question) = Raise e ->
   route_query env question tr = (Raise e, tr ++ classify_events question)) /\
  (forall content,
     openai_create env (tr ++ [Run "route_query"; Run "classify_intent"])
       (INTENT_CLASSIFICATION_PROMPT question) = Ok content ->
     classified_intent content = HYBRID ->
     openai_create env (tr ++ classify_events question ++ [Run "extract_filters"])
       (FILTER_EXTRACTION_PROMPT question) = Raise e ->
     route_query env question tr
     = (Raise e, tr ++ classify_events question ++ extract_events question)).
Proof.
  split.
  - apply route_query_raise.
  - intros content H Hi He.
    rewrite (route_query_hybrid _ _ _ _ H Hi), extract_filters_eval. cbn [fst].
    rewrite <- app_assoc, He. reflexivity.
Qed.

Lemma route_query_service_failure_witness :
  route_query down_env "best headphones under $100" []
  = (Raise (ServiceError "service unavailable"),
     [] ++ classify_events "best headphones under $100") /\
  route_query extractor_down_env "best headphones under $100" []
  = (Raise (ServiceError "service unavailable"),
     [] ++ classify_events "best headphones under $100"
        ++ extract_events "best headphones under $100").
Proof.
  split.
  - apply (proj1 (route_query_service_failure down_env "best headphones under $100" []
                    (ServiceError "service unavailable"))).
    reflexivity.
  - apply (proj2 (route_query_service_failure extractor_down_env
                    "best headphones under $100" []
                    (ServiceError "service unavailable")) "hybrid").
    + reflexivity.
    + reflexivity.
    + reflexivity.
Defined.



(** A decoder failure that is not [JSONDecodeError] is not caught. *)
Example route_query_decoder_limit :
  (route_query over_limit_env "best headphones under $100" []).1
  = Raise (ValueError "Exceeds the limit (4300 digits) for integer string conversion").
Proof. vm_compute. reflexivity. Qed.

Lemma lookup_keyed {V} (f : string -> V) (l : list string) (key : string) :
  (list_to_map (map (fun k => (k, f k)) l) : gmap string V) !! key
  = if bool_decide (key ∈ l) then Some (f key) else None.
Proof.
  induction l as [|k l IH]; cbn [map list_to_map foldr].
  - rewrite lookup_empty. now rewrite bool_decide_eq_false_2 by apply not_elem_of_nil.
  - destruct (decide (k = key)) as [->|Hne].
    + rewrite lookup_insert_eq. now rewrite bool_decide_eq_true_2 by apply list_elem_of_here.
    + rewrite lookup_insert_ne by exact Hne. rewrite IH.
      destruct (decide (key ∈ l)) as [Hin|Hout].
      * rewrite !bool_decide_eq_true_2; [reflexivity| |exact Hin].
        now apply list_elem_of_further.
      * rewrite !bool_decide_eq_false_2; [reflexivity| |exact Hout].
        intros [E|Hin]%elem_of_cons; [congruence|contradiction].
Qed.

(** X4.  When the extraction response decodes to a JSON object,
    [extract_filters] returns a dictionary with exactly the six filter
    keys, each holding the object's value for it or [None] when the object
    lacks it; any other key of the object is dropped.  The semantic query
    is the object's [semantic_query] entry; the question is used only
    when the object has no such key. *)
Theorem extract_filters_object env question tr response (parsed : gmap string PyVal) :
  openai_create env (tr ++ [Run "extract_filters"])
                (FILTER_EXTRACTION_PROMPT question) = Ok response ->
  json_loads env (clean_markdown (PyStr.strip response)) = Ok (VDict parsed) ->
  exists filters,
    (extract_filters env question tr).1
    = Ok (filters, dict_get_default parsed "semantic_query" (VStr question)) /\
    forall key,
      filters !! key
      = if bool_decide (key ∈ filter_keys) then Some (dict_get parsed key) else None.
Proof.
  intros Hllm Hjson. rewrite extract_filters_eval, Hllm, Hjson. cbn [fst py_pop].
  eexists. split; [reflexivity|]. intros key. cbn [snd].
  rewrite lookup_keyed. destruct (bool_decide (key ∈ filter_keys)) eqn:E; [|reflexivity].
  apply bool_decide_eq_true_1 in E. f_equal. unfold dict_get.
  rewrite lookup_delete_ne; [reflexivity|].
  intros <-. revert E. unfold filter_keys. rewrite !elem_of_cons, elem_of_nil.
  intuition discriminate.
Qed.

Lemma extract_filters_object_witness :
  exists filters,
    (extract_filters headphones_env "best Sony headphones under $100" []).1
    = Ok (filters,
          dict_get_default headphones_object "semantic_query"
            (VStr "best Sony headphones under $100")) /\
    forall key,
      filters !! key
      = if bool_decide (key ∈ filter_keys)
        then Some (dict_get headphones_object key) else None.
Proof.
  apply (extract_filters_object headphones_env "best Sony headphones under $100" []
           ("```json" ++ nl ++ json_headphones ++ nl ++ "```")%string).
  - reflexivity.
  - vm_compute. reflexivity.
Defined.

Lemma last_cons_nonempty {A} (x : A) l d : l <> [] -> List.last (x :: l) d = List.last l d.
Proof. destruct l; [contradiction|reflexivity]. Qed.

(** X5.  The markdown clean-up on a text of several lines whose first line
    starts with three backticks: the first line is dropped; the last line
    is dropped too when, stripped, it is three backticks, and otherwise
    everything after the first line is kept as it is. *)
Theorem clean_markdown_fence_lines opening rest :
  PyStr.startswith opening triple_backtick = true ->
  one_line opening = true ->
  clean_markdown (opening ++ nl ++ rest)%string =
  if String.eqb (PyStr.strip (PyStr.last_item (PyStr.split_nl rest))) triple_backtick
  then PyStr.join_nl (List.removelast (PyStr.split_nl rest))
  else rest.
Proof.
  intros Hstart Hline. unfold clean_markdown.
  rewrite (startswith_append _ _ _ Hstart).
  rewrite split_nl_app, (split_nl_one_line _ Hline). cbn [app].
  unfold PyStr.last_item.
  rewrite last_cons_nonempty by apply split_nl_aux_nonempty.
  destruct (String.eqb _ triple_backtick).
  - reflexivity.
  - unfold PyStr.slice_from_1. cbn [List.tl]. apply join_split.
Qed.

Lemma clean_markdown_fence_lines_witness :
  clean_markdown ("```json" ++ nl ++ ("{}" ++ nl ++ "  ``` "))%string = "{}"%string /\
  clean_markdown ("```json" ++ nl ++ ("{" ++ nl ++ "}"))%string = ("{" ++ nl ++ "}")%string.
Proof.
  split.
  - exact (clean_markdown_fence_lines "```json" ("{}" ++ nl ++ "  ``` ")%string
             eq_refl eq_refl).
  - exact (clean_markdown_fence_lines "```json" ("{" ++ nl ++ "}")%string
             eq_refl eq_refl).
Defined.

(** X6.  A response of one line that starts with three backticks is cleaned to
    the empty text, whatever follows the backticks on that line. *)
Theorem clean_markdown_one_line content :
  PyStr.startswith content triple_backtick = true ->
  one_line content = true ->
  clean_markdown content = ""%string.
Proof.
  intros Hstart Hline. unfold clean_markdown.
  rewrite Hstart, (split_nl_one_line _ Hline).
  destruct (String.eqb _ _); reflexivity.
Qed.

Lemma clean_markdown_one_line_witness :
  clean_markdown ("```{" ++ dquote ++ "max_price" ++ dquote ++ ": 100}```")%string
  = ""%string.
Proof. apply clean_markdown_one_line; reflexivity. Defined.

(* ===================================================================== *)
(** ** The SQL agent beyond the rejected statements *)
(* ===================================================================== *)

Lemma find_forbidden_none sql :
  ~ has_keyword sql ->
  List.find (fun word => PyStr.contains word (PyStr.strip (PyStr.upper sql))) forbidden
  = None.
Proof.
  intros Hno. destruct (List.find _ forbidden) as [word|] eqn:F; [|reflexivity].
  exfalso. apply Hno. apply List.find_some in F as [Hin Hc]. exists word.
  split; [exact Hin|].
  destruct (forbidden_solid word Hin) as [Hne Hsol].
  now rewrite (contains_strip word _ Hne Hsol) in Hc.
Qed.

(** X7.  A statement that passes the guard (it starts with SELECT once
    upper-cased and stripped, and holds none of the write keywords) is
    sent to the store as it was given, not as the guard read it, and with
    no parameters.  One connection is opened for it and closed again
    whether the store returns rows or raises; what the store returns or
    raises is what [execute_sql_query] returns or raises. *)
Theorem execute_sql_query_accepted env sql tr :
  starts_with_select sql = true -> ~ has_keyword sql ->
  execute_sql_query env sql tr =
  (pg_execute env (tr ++ [Run "execute_sql_query"; DbConnect]) sql,
   tr ++ [Run "execute_sql_query"; DbConnect; DbExecute sql []; DbClose]).
Proof.
  intros Hsel Hno. unfold execute_sql_query. rewrite traceable_eq.
  unfold starts_with_select in Hsel. rewrite Hsel. cbn [negb].
  rewrite (find_forbidden_none _ Hno).
  unfold try_finally, bind, emit, call. rewrite <- !app_assoc. reflexivity.
Qed.

Lemma no_keyword_count_products : ~ has_keyword count_products.
Proof.
  intros (w & Hin & Hc). unfold forbidden in Hin. cbn [In] in Hin.
  destruct Hin as [<-|[<-|[<-|[<-|[<-|[<-|[<-|[]]]]]]]]; vm_compute in Hc; discriminate Hc.
Qed.

Lemma execute_sql_query_accepted_witness :
  execute_sql_query (with_rows [count_row] empty_env) count_products [] =
  (Ok [count_row],
   [] ++ [Run "execute_sql_query"; DbConnect; DbExecute count_products []; DbClose]) /\
  execute_sql_query (with_store_error "relation does not exist" empty_env)
    count_products [] =
  (Raise (DatabaseError "relation does not exist"),
   [] ++ [Run "execute_sql_query"; DbConnect; DbExecute count_products []; DbClose]).
Proof.
  split.
  - exact (execute_sql_query_accepted (with_rows [count_row] empty_env) count_products []
             eq_refl no_keyword_count_products).
  - exact (execute_sql_query_accepted
             (with_store_error "relation does not exist" empty_env) count_products []
             eq_refl no_keyword_count_products).
Defined.

Lemma startswith_trans s w w' :
  PyStr.startswith s w = true -> PyStr.startswith w w' = true ->
  PyStr.startswith s w' = true.
Proof.
  revert s w. induction w' as [|a w' IH]; intros s w Hs Hw; [now destruct s|].
  destruct w as [|b w]; [discriminate|]. destruct s as [|c s]; [discriminate|].
  cbn [PyStr.startswith] in *.
  apply andb_prop in Hs as [Hbc Hs]. apply andb_prop in Hw as [Hab Hw].
  apply Ascii.eqb_eq in Hbc, Hab. subst. rewrite Ascii.eqb_refl. cbn [andb].
  exact (IH _ _ Hs Hw).
Qed.

Lemma contains_prefix w w' s :
  PyStr.startswith w w' = true -> PyStr.contains w s = true ->
  PyStr.contains w' s = true.
Proof.
  intros Hw. induction s as [|c s IH]; cbn [PyStr.contains]; intros H.
  - rewrite orb_false_r in *. exact (startswith_trans _ _ _ H Hw).
  - apply orb_prop in H as [H|H].
    + now rewrite (startswith_trans _ _ _ H Hw).
    + rewrite (IH H). apply orb_true_r.
Qed.

(** X8.  The schema description given to the statement generator lists the
    column [created_at], but no statement that mentions it, in whatever
    letter case, is ever executed: the name holds the keyword CREATE, so
    the guard raises before a connection is opened. *)
Theorem execute_sql_query_created_at env sql tr :
  contains_nocase "created_at" sql = true ->
  exists msg,
    execute_sql_query env sql tr =
    (Raise (ValueError msg), tr ++ [Run "execute_sql_query"]).
Proof.
  intros H. unfold contains_nocase in H.
  apply (contains_lower_upper "created_at" sql eq_refl ltac:(discriminate) eq_refl) in H.
  apply (contains_prefix _ "CREATE") in H; [|reflexivity].
  destruct (starts_with_select sql) eqn:Hsel.
  - destruct (execute_sql_query_keyword env sql tr Hsel) as (word & _ & E).
    + exists "CREATE"%string. split; [|exact H]. unfold forbidden. cbn. tauto.
    + eauto.
  - eexists. now apply execute_sql_query_not_select.
Qed.

Lemma execute_sql_query_created_at_witness :
  exists msg,
    execute_sql_query empty_env newest_first [] =
    (Raise (ValueError msg), [] ++ [Run "execute_sql_query"]).
Proof. apply (execute_sql_query_created_at empty_env newest_first []). reflexivity. Defined.

(** X9.  The statement generator on a fenced answer: the answer is stripped,
    its first line (the opening fence) is dropped, and its last line is
    dropped when it is exactly three backticks; an indented closing fence
    is not recognised and stays in the statement.  The service is called
    once. *)
Theorem generate_sql_query_fenced env question tr response opening rest :
  openai_create env (tr ++ [Run "generate_sql_query"]) (SqlGenerationPrompt question)
  = Ok response ->
  PyStr.strip response = (opening ++ nl ++ rest)%string ->
  PyStr.startswith opening triple_backtick = true ->
  one_line opening = true ->
  generate_sql_query env question tr =
  (Ok (if String.eqb (PyStr.last_item (PyStr.split_nl rest)) triple_backtick
       then PyStr.join_nl (List.removelast (PyStr.split_nl rest))
       else rest),
   tr ++ [Run "generate_sql_query"; LlmCall (SqlGenerationPrompt question)]).
Proof.
  intros Hllm Hstrip Hstart Hline.
  rewrite (generate_sql_query_eval _ _ _ _ Hllm). f_equal. f_equal.
  unfold sql_of_response. rewrite Hstrip.
  rewrite (startswith_append _ _ _ Hstart).
  rewrite split_nl_app, (split_nl_one_line _ Hline). cbn [app].
  unfold PyStr.last_item.
  rewrite last_cons_nonempty by apply split_nl_aux_nonempty.
  destruct (String.eqb _ triple_backtick).
  - reflexivity.
  - unfold PyStr.slice_from_1. cbn [List.tl]. apply join_split.
Qed.

Lemma generate_sql_query_fenced_witness :
  generate_sql_query (sql_env fenced_sql "Six.") "how many products are there?" [] =
  (Ok count_products,
   [] ++ [Run "generate_sql_query";
          LlmCall (SqlGenerationPrompt "how many products are there?")]).
Proof.
  exact (generate_sql_query_fenced (sql_env fenced_sql "Six.")
           "how many products are there?" [] fenced_sql "```sql"
           (count_products ++ nl ++ "```")%string eq_refl eq_refl eq_refl eq_refl).
Defined.

(** X10.  When the generated statement passes the guard and the store raises,
    [sql_pipeline] does not raise: it returns the error text as its
    answer and under [error], with the statement, no rows and no
    [result_count].  The connection was closed and no answer was
    generated. *)
Theorem sql_pipeline_store_error env question tr response e :
  openai_create env (tr ++ [Run "sql_pipeline"; Run "generate_sql_query"])
                (SqlGenerationPrompt question) = Ok response ->
  starts_with_select (sql_of_response response) = true ->
  ~ has_keyword (sql_of_response response) ->
  pg_execute env
    (tr ++ [Run "sql_pipeline"; Run "generate_sql_query";
            LlmCall (SqlGenerationPrompt question); Run "execute_sql_query"; DbConnect])
    (sql_of_response response) = Raise e ->
  sql_pipeline env question tr =
  (Ok {| sql_answer := ("Error executing query: " ++ exn_str e)%string;
         sql_question := question;
         sql_query := sql_of_response response;
         sql_results := [];
         sql_error := Some (exn_str e);
         sql_result_count := None |},
   tr ++ [Run "sql_pipeline"; Run "generate_sql_query";
          LlmCall (SqlGenerationPrompt question); Run "execute_sql_query";
          DbConnect; DbExecute (sql_of_response response) []; DbClose]).
Proof.
  intros Hllm Hsel Hno Hpg. unfold sql_pipeline. rewrite traceable_eq.
  assert (H' : openai_create env ((tr ++ [Run "sql_pipeline"]) ++ [Run "generate_sql_query"])
                 (SqlGenerationPrompt question) = Ok response).
  { now rewrite <- app_assoc. }
  rewrite (bind_ok _ _ _ _ _ (generate_sql_query_eval env question _ response H')).
  pose proof (execute_sql_query_accepted env _
                ((tr ++ [Run "sql_pipeline"]) ++
                 [Run "generate_sql_query"; LlmCall (SqlGenerationPrompt question)])
                Hsel Hno) as E.
  rewrite <- !app_assoc in E. cbn [app] in E. rewrite Hpg in E.
  rewrite <- !app_assoc. cbn [app].
  unfold bind at 1. unfold try_except.
  rewrite (bind_raise _ _ _ _ _ E). reflexivity.
Qed.

Lemma sql_pipeline_store_error_witness :
  sql_pipeline (with_store_error "relation does not exist" (sql_env fenced_sql "Six."))
    "how many products are there?" [] =
  (Ok {| sql_answer := "Error executing query: relation does not exist";
         sql_question := "how many products are there?";
         sql_query := count_products;
         sql_results := [];
         sql_error := Some "relation does not exist"%string;
         sql_result_count := None |},
   [] ++ [Run "sql_pipeline"; Run "generate_sql_query";
          LlmCall (SqlGenerationPrompt "how many products are there?");
          Run "execute_sql_query";
          DbConnect; DbExecute count_products []; DbClose]).
Proof.
  exact (sql_pipeline_store_error
           (with_store_error "relation does not exist" (sql_env fenced_sql "Six."))
           "how many products are there?" [] fenced_sql
           (DatabaseError "relation does not exist")
           eq_refl eq_refl no_keyword_count_products eq_refl).
Defined.

(** X11.  When the generated statement passes the guard, the store returns rows
    and the answer is generated, [sql_pipeline] returns all the rows and
    their number under [result_count], without an [error]; the prompt for
    the answer carries the first ten rows only. *)
Theorem sql_pipeline_answered env question tr response rows answer :
  let tr1 := tr ++ [Run "sql_pipeline"; Run "generate_sql_query";
                    LlmCall (SqlGenerationPrompt question); Run "execute_sql_query";
                    DbConnect] in
  let tr2 := tr1 ++ [DbExecute (sql_of_response response) []; DbClose;
                     Run "generate_sql_answer"] in
  openai_create env (tr ++ [Run "sql_pipeline"; Run "generate_sql_query"])
                (SqlGenerationPrompt question) = Ok response ->
  starts_with_select (sql_of_response response) = true ->
  ~ has_keyword (sql_of_response response) ->
  pg_execute env tr1 (sql_of_response response) = Ok rows ->
  openai_create env tr2 (SqlAnswerPrompt question (take 10 rows)) = Ok answer ->
  sql_pipeline env question tr =
  (Ok {| sql_answer := answer;
         sql_question := question;
         sql_query := sql_of_response response;
         sql_results := rows;
         sql_error := None;
         sql_result_count := Some (length rows) |},
   tr2 ++ [LlmCall (SqlAnswerPrompt question (take 10 rows))]).
Proof.
  cbv zeta. intros Hllm Hsel Hno Hpg Hans. unfold sql_pipeline. rewrite traceable_eq.
  assert (H' : openai_create env ((tr ++ [Run "sql_pipeline"]) ++ [Run "generate_sql_query"])
                 (SqlGenerationPrompt question) = Ok response).
  { now rewrite <- app_assoc. }
  rewrite (bind_ok _ _ _ _ _ (generate_sql_query_eval env question _ response H')).
  pose proof (execute_sql_query_accepted env _
                ((tr ++ [Run "sql_pipeline"]) ++
                 [Run "generate_sql_query"; LlmCall (SqlGenerationPrompt question)])
                Hsel Hno) as E.
  rewrite <- !app_assoc in E. cbn [app] in E. rewrite Hpg in E.
  rewrite <- !app_assoc in *. cbn [app] in *.
  unfold bind at 1. unfold try_except.
  rewrite (bind_ok _ _ _ _ _ E). unfold ret at 1. cbv iota.
  unfold generate_sql_answer, traceable, chat_completion, bind, emit, call, ret.
  rewrite <- !app_assoc. cbn [app]. rewrite Hans. reflexivity.
Qed.

Lemma sql_pipeline_answered_witness :
  (sql_pipeline (with_rows twelve_rows (sql_env fenced_sql "Twelve."))
     "which products rank highest?" []).1 =
  Ok {| sql_answer := "Twelve.";
        sql_question := "which products rank highest?";
        sql_query := count_products;
        sql_results := twelve_rows;
        sql_error := None;
        sql_result_count := Some 12%nat |}.
Proof.
  exact (f_equal fst
           (sql_pipeline_answered (with_rows twelve_rows (sql_env fenced_sql "Twelve."))
              "which products rank highest?" [] fenced_sql twelve_rows "Twelve."
              eq_refl eq_refl no_keyword_count_products eq_refl eq_refl)).
Defined.

Lemma statement_texts_app tr evs :
  statement_texts (tr ++ evs) = statement_texts tr ++ statement_texts evs.
Proof. unfold statement_texts. apply omap_app. Qed.

Lemma build_conditions_pattern env a b c d a' b' c' d' :
  is_not_none a = is_not_none a' -> is_not_none b = is_not_none b' ->
  is_not_none c = is_not_none c' -> is_not_none d = is_not_none d' ->
  (build_conditions env a b c d).1 = (build_conditions env a' b' c' d').1.
Proof.
  intros Ha Hb Hc Hd. unfold build_conditions. rewrite Ha, Hb, Hc, Hd.
  destruct (is_not_none a'), (is_not_none b'), (is_not_none c'), (is_not_none d');
    reflexivity.
Qed.

(** X12.  The filter values never enter the statement text of the candidate
    resolver: two calls whose arguments are [None] in the same places
    send the same text, whatever the values and the limit are (they
    travel as bound parameters). *)
Theorem get_asins_by_filter_text_value_free env a b c d limit a' b' c' d' limit' tr :
  is_not_none a = is_not_none a' -> is_not_none b = is_not_none b' ->
  is_not_none c = is_not_none c' -> is_not_none d = is_not_none d' ->
  statement_texts (get_asins_by_filter env a b c d limit tr).2
  = statement_texts (get_asins_by_filter env a' b' c' d' limit' tr).2.
Proof.
  intros Ha Hb Hc Hd. rewrite !get_asins_by_filter_eval. cbv zeta. cbn [snd].
  rewrite !statement_texts_app. f_equal. cbn.
  now rewrite (build_conditions_pattern env a b c d a' b' c' d' Ha Hb Hc Hd).
Qed.

Lemma get_asins_by_filter_text_value_free_witness :
  statement_texts
    (get_asins_by_filter empty_env VNone (VInt 100) VNone (VStr "Audio") None []).2
  = statement_texts
      (get_asins_by_filter empty_env VNone (VStr "0; DROP TABLE products") VNone
         (VStr "' OR TRUE --") (Some 1000000) []).2.
Proof.
  apply (get_asins_by_filter_text_value_free empty_env); reflexivity.
Defined.


(** X14.  Given a store that answers the resolver's statement as SQL
    prescribes, and whatever the filter values are, a call of the candidate
    resolver that returns was given a limit that is not negative, and
    returns at most that many identifiers, without repetition; with the
    limit omitted, at most 50. *)
Theorem get_asins_by_filter_limit env min_price max_price min_rating category limit tr
    candidates :
  sql_store env ->
  (get_asins_by_filter env min_price max_price min_rating category limit tr).1
  = Ok candidates ->
  0 <= default 50 limit /\
  Z.of_nat (length candidates) <= default 50 limit /\
  NoDup candidates.
Proof.
  intros Hstore H. rewrite get_asins_by_filter_eval in H. cbv zeta in H. cbn [fst] in H.
  destruct (Hstore _ _ _ _ _ H (select_sql_parse env _ _ _ _)) as (Hd & Hl & _).
  destruct (Hl _ (last_snoc _ _)) as [H0 Hlen].
  split; [exact H0|]. split; [lia|]. now apply Hd.
Qed.

Lemma get_asins_by_filter_limit_witness :
  exists candidates,
    (get_asins_by_filter six_env VNone VNone VNone VNone None []).1 = Ok candidates /\
    0 <= default 50 None /\
    Z.of_nat (length candidates) <= default 50 None /\
    NoDup candidates.
Proof.
  eassert (E : (get_asins_by_filter six_env VNone VNone VNone VNone None []).1 = Ok _)
    by (vm_compute; reflexivity).
  eexists. split; [exact E|].
  exact (get_asins_by_filter_limit six_env VNone VNone VNone VNone None [] _
           (test_env_sql_store _ _ _ _) E).
Defined.

(* ===================================================================== *)
(** ** The hybrid retrieval, hit by hit *)
(* ===================================================================== *)

(** The loop appends, for every hit, the hit's three payload entries and
    its score. *)
Lemma extract_results_fields points : forall acc r,
  extract_results points acc = Ok r ->
  map Some (retrieved_context_ids r)
    = map Some (retrieved_context_ids acc) ++ map (hit_field "parent_asin") points /\
  map Some (retrieved_context r)
    = map Some (retrieved_context acc) ++ map (hit_field "description") points /\
  map Some (retrieved_context_ratings r)
    = map Some (retrieved_context_ratings acc) ++ map (hit_field "average_rating") points /\
  similarity_scores r = similarity_scores acc ++ map score points.
Proof.
  induction points as [|p points IH]; intros acc r H.
  - cbn in H. injection H as <-. rewrite !app_nil_r. cbn. repeat split.
  - cbn [extract_results] in H. unfold payload_item, res_bind in H.
    unfold hit_field in *. cbn [map].
    destruct (payload p !! "parent_asin") as [id|]; [|discriminate].
    destruct (payload p !! "description") as [chunk|]; [|discriminate].
    destruct (payload p !! "average_rating") as [rating|]; [|discriminate].
    apply IH in H. cbn [retrieved_context_ids retrieved_context
      retrieved_context_ratings similarity_scores filter_count] in H.
    destruct H as (H1 & H2 & H3 & H4).
    rewrite H1, H2, H3, H4, !map_app, <- !app_assoc.
    cbn. repeat split.
Qed.

(** The loop returns when every hit is complete, and otherwise raises
    [KeyError] for one of the keys it reads. *)
Lemma extract_results_outcome points : forall acc,
  if forallb complete_hit points
  then exists r, extract_results points acc = Ok r
  else exists key, key ∈ hit_keys /\ extract_results points acc = Raise (KeyError key).
Proof.
  induction points as [|p points IH]; intros acc; cbn [forallb].
  - eexists. reflexivity.
  - cbn [extract_results]. unfold payload_item, res_bind, complete_hit, hit_keys, hit_field.
    cbn [forallb].
    destruct (payload p !! "parent_asin") as [id|];
      [|exists "parent_asin"%string; split; [set_solver|reflexivity]].
    destruct (payload p !! "description") as [chunk|];
      [|exists "description"%string; split; [set_solver|reflexivity]].
    destruct (payload p !! "average_rating") as [rating|];
      [|exists "average_rating"%string; split; [set_solver|reflexivity]].
    rewrite !bool_decide_eq_true_2 by eauto. cbn [andb]. apply IH.
Qed.

(** A successful [hybrid_retrieve], hit by hit. *)
Lemma hybrid_retrieve_points env semantic_query (filters : gmap string PyVal) k tr r tr' :
  hybrid_retrieve env semantic_query (VDict filters) k tr = (Ok r, tr') ->
  exists candidates points,
    (get_asins_by_filter env (dict_get filters "min_price")
       (dict_get filters "max_price") (dict_get filters "min_rating")
       (dict_get filters "category") (Some 100) (tr ++ [Run "hybrid_retrieve"])).1
    = Ok candidates /\
    (points = [] \/
     exists ids trq v,
       candidates = map Some ids /\
       query_points env trq v ids (default 10 k) = Ok points) /\
    map Some (retrieved_context_ids r) = map (hit_field "parent_asin") points /\
    map Some (retrieved_context r) = map (hit_field "description") points /\
    map Some (retrieved_context_ratings r) = map (hit_field "average_rating") points /\
    similarity_scores r = map score points.
Proof.
  rewrite hybrid_retrieve_resolved. unfold bind at 1.
  destruct (get_asins_by_filter env _ _ _ _ _ _) as [[candidates|e] tr1] eqn:E;
    [|discriminate].
  intros H. exists candidates. cbn [fst].
  destruct candidates as [|a candidates].
  - injection H as <- _. exists []. split; [reflexivity|]. split; [now left|].
    repeat split.
  - unfold bind, call, lift, ret in H.
    destruct (embedding env tr1 semantic_query) as [v|]; [|discriminate].
    destruct (match_any (a :: candidates)) as [ids|] eqn:Hm; [|discriminate].
    destruct (query_points env _ v _ _) as [points|] eqn:Q; [|discriminate].
    destruct (extract_results points empty_result) as [ex|] eqn:X; [|discriminate].
    injection H as <- _.
    apply extract_results_fields in X. cbn in X.
    destruct X as (X1 & X2 & X3 & X4).
    exists points. split; [reflexivity|].
    split; [right; exists ids; eexists _, v; split; [now apply match_any_ok|exact Q]|].
    cbn [retrieved_context_ids retrieved_context retrieved_context_ratings
         similarity_scores].
    repeat split; assumption.
Qed.

(** X15.  Entries at the same index of the four sequences [hybrid_retrieve]
    returns describe one and the same hit: they are the [parent_asin],
    the [description], the [average_rating] and the score of the hit at
    that index of the vector store's answer, in the store's order. *)
Theorem hybrid_retrieve_index_aligned env semantic_query filters k tr r tr' :
  hybrid_retrieve env semantic_query filters k tr = (Ok r, tr') ->
  exists points,
    (points = [] \/
     exists trq v ids, query_points env trq v ids (default 10 k) = Ok points) /\
    map Some (retrieved_context_ids r) = map (hit_field "parent_asin") points /\
    map Some (retrieved_context r) = map (hit_field "description") points /\
    map Some (retrieved_context_ratings r) = map (hit_field "average_rating") points /\
    similarity_scores r = map score points.
Proof.
  intros H. destruct (hybrid_retrieve_ok_dict _ _ _ _ _ _ _ H) as [d ->].
  apply hybrid_retrieve_points in H as (candidates & points & _ & Hq & Hrest).
  exists points. split; [|exact Hrest].
  destruct Hq as [->|(ids & trq & v & _ & Hq)]; [now left|right; eauto].
Qed.

Lemma hybrid_retrieve_index_aligned_witness :
  exists points,
    (points = [] \/
     exists trq v ids, query_points six_env trq v ids (default 10 (Some 2)) = Ok points) /\
    map Some [VStr "P1"; VStr "P2"] = map (hit_field "parent_asin") points /\
    map Some [VStr "about P1"; VStr "about P2"] = map (hit_field "description") points /\
    map Some [VInt 4; VInt 4] = map (hit_field "average_rating") points /\
    [9 # 10; 8 # 10] = map score points.
Proof.
  eassert (E : hybrid_retrieve six_env (VStr "speakers") (VDict ∅) (Some 2) []
               = (Ok _, _)) by (vm_compute; reflexivity).
  exact (hybrid_retrieve_index_aligned six_env (VStr "speakers") (VDict ∅) (Some 2) []
           _ _ E).
Defined.

(** X16.  Hybrid results respect the filters: given a relational store
    that answers the resolver's statement as SQL prescribes and a vector
    store that honours its [MatchAny] filter, every identifier
    [hybrid_retrieve] returns, for filter values the server reads as
    numbers (integers as much as floats) and any category, is the
    [parent_asin] of a product of the table that passes every filter that
    is present. *)
Theorem hybrid_retrieve_hits_pass_filters env semantic_query
    min_price max_price min_rating category (filters : gmap string PyVal) k tr r tr' :
  sql_store env -> honours_filter env ->
  filters_read env filters min_price max_price min_rating category ->
  hybrid_retrieve env semantic_query (VDict filters) k tr = (Ok r, tr') ->
  Forall (fun id =>
            exists a p, id = VStr a /\ p ∈ products env /\ parent_asin p = Some a /\
                        candidate_predicate env min_price max_price min_rating category p
                        = true)
         (retrieved_context_ids r).
Proof.
  intros Hstore Hfil (T1 & T2 & T3 & T4) H.
  apply hybrid_retrieve_points in H as (candidates & points & Hc & Hq & Hids & _).
  destruct (get_asins_by_filter_answer _ _ _ _ _ _ _ _ Hstore Hc) as (_ & _ & _ & Hrows).
  destruct (Hrows _ _ _ T1 T2 T3) as [Hsel _]. rewrite T4 in Hsel.
  destruct Hq as [->|(ids & trq & v & -> & Hq)].
  { destruct (retrieved_context_ids r); [constructor|discriminate]. }
  apply Hfil in Hq.
  revert Hids. generalize (retrieved_context_ids r) as got.
  induction Hq as [|p points Hp Hq IH]; intros [|id got] Hids; try discriminate Hids.
  - constructor.
  - cbn [map] in Hids. injection Hids as Hid Hids. constructor; [|now apply IH].
    unfold hit_in, hit_id in Hp. unfold hit_field in Hid. rewrite <- Hid in Hp.
    destruct id as [| | | |a| | |]; try discriminate Hp.
    apply bool_decide_eq_true_1 in Hp.
    destruct (Hsel (Some a)) as (a' & prod & E & Hin & Hk & Hpred).
    { apply list_elem_of_fmap. now exists a. }
    injection E as <-. exists a, prod. repeat split; assumption.
Qed.

Lemma under_30_read : filters_read six_env under_30 None (Some 30%Q) None None.
Proof.
  unfold filters_read. repeat split; vm_compute; try reflexivity.
  eexists. split; reflexivity.
Qed.

Lemma hybrid_retrieve_hits_pass_filters_witness :
  Forall (fun id =>
            exists a p, id = VStr a /\ p ∈ products six_env /\ parent_asin p = Some a /\
                        candidate_predicate six_env None (Some 30%Q) None None p = true)
         [VStr "P1"; VStr "P2"; VStr "P3"].
Proof.
  eassert (E : hybrid_retrieve six_env (VStr "speakers") (VDict under_30) (Some 5) []
               = (Ok _, _)) by (vm_compute; reflexivity).
  exact (hybrid_retrieve_hits_pass_filters six_env (VStr "speakers")
           None (Some 30%Q) None None under_30 (Some 5) [] _ _
           (test_env_sql_store _ _ _ _) (test_env_honours_filter _ _ _ _)
           under_30_read E).
Defined.

(** X17.  Once the resolver has returned candidates (identifiers, none of
    them NULL) and the two services have answered, [hybrid_retrieve] returns exactly when every hit carries
    the three payload keys it reads; a hit that lacks one makes the whole
    call raise [KeyError] for one of them, with no partial result. *)
Theorem hybrid_retrieve_incomplete_hit env semantic_query (filters : gmap string PyVal)
    k tr candidates v points :
  let resolved :=
    get_asins_by_filter env (dict_get filters "min_price")
      (dict_get filters "max_price") (dict_get filters "min_rating")
      (dict_get filters "category") (Some 100) (tr ++ [Run "hybrid_retrieve"]) in
  resolved.1 = Ok (map Some candidates) -> candidates <> [] ->
  embedding env resolved.2 semantic_query = Ok v ->
  query_points env (resolved.2 ++ [Embed semantic_query]) v candidates (default 10 k)
  = Ok points ->
  if forallb complete_hit points
  then exists r, (hybrid_retrieve env semantic_query (VDict filters) k tr).1 = Ok r /\
                 length (retrieved_context_ids r) = length points
  else exists key, key ∈ hit_keys /\
                   (hybrid_retrieve env semantic_query (VDict filters) k tr).1
                   = Raise (KeyError key).
Proof.
  cbv zeta. intros Hc Hne He Hq.
  assert (E : (hybrid_retrieve env semantic_query (VDict filters) k tr).1
              = res_bind (extract_results points empty_result) (fun ex =>
                  Ok {| retrieved_context_ids := retrieved_context_ids ex;
                        retrieved_context := retrieved_context ex;
                        retrieved_context_ratings := retrieved_context_ratings ex;
                        similarity_scores := similarity_scores ex;
                        filter_count := length candidates |})).
  { rewrite hybrid_retrieve_resolved. unfold bind at 1.
    destruct (get_asins_by_filter env _ _ _ _ _ _) as [res tr1]. cbn [fst snd] in *.
    subst res. destruct candidates as [|a candidates]; [contradiction|].
    cbn [map]. change (Some a :: map Some candidates) with (map Some (a :: candidates)).
    unfold bind, call, lift, ret. rewrite He, match_any_Some, Hq, length_map.
    destruct (extract_results points empty_result); reflexivity. }
  rewrite E. clear E.
  pose proof (extract_results_outcome points empty_result) as Hout.
  destruct (forallb complete_hit points).
  - destruct Hout as [r Hr]. eexists. rewrite Hr. split; [reflexivity|].
    cbn [retrieved_context_ids]. apply extract_results_fields in Hr as (H1 & _).
    cbn in H1. apply (f_equal length) in H1. now rewrite !length_map in H1.
  - destruct Hout as (key & Hkey & Hr). exists key. rewrite Hr. now split.
Qed.

Lemma hybrid_retrieve_incomplete_hit_witness :
  exists key, key ∈ hit_keys /\
    (hybrid_retrieve bare_env (VStr "speakers") (VDict ∅) (Some 5) []).1
    = Raise (KeyError key).
Proof.
  assert (Hres : (get_asins_by_filter bare_env (dict_get ∅ "min_price")
                    (dict_get ∅ "max_price") (dict_get ∅ "min_rating")
                    (dict_get ∅ "category") (Some 100) ([] ++ [Run "hybrid_retrieve"])).1
                 = Ok (map Some ["P1"; "P2"; "P3"; "P4"; "P5"; "P6"]))
    by (vm_compute; reflexivity).
  exact (hybrid_retrieve_incomplete_hit bare_env (VStr "speakers") ∅ (Some 5) []
           ["P1"; "P2"; "P3"; "P4"; "P5"; "P6"] []
           [point "P1" (9 # 10); bare_point "P2" (8 # 10)]
           Hres ltac:(discriminate) eq_refl eq_refl).
Defined.

(* ===================================================================== *)
(** ** The hybrid pipeline as a whole *)
(* ===================================================================== *)

(** A bind whose continuation is entered only with results the first
    computation can return. *)
Lemma emits_bind_ok {A B} (P : Event -> Prop) (R : A -> Prop) (m : M A) (k : A -> M B) :
  emits P m -> (forall tr a tr', m tr = (Ok a, tr') -> R a) ->
  (forall a, R a -> emits P (k a)) -> emits P (bind m k).
Proof.
  intros Hm HR Hk tr. unfold bind.
  destruct (Hm tr) as (evs & E & F).
  destruct (m tr) as [[a|e] tr1] eqn:Em; cbn [snd] in E; subst tr1.
  - destruct (Hk a (HR _ _ _ Em) (tr ++ evs)) as (evs' & E' & F').
    exists (evs ++ evs'). rewrite E', app_assoc. split; [reflexivity|].
    now apply Forall_app.
  - now exists evs.
Qed.

Lemma runs_of_not_routing name evs :
  name ∈ routing_names -> Forall (fun e => is_routing e = false) evs ->
  runs_of name evs = 0%nat.
Proof.
  intros Hn. induction 1 as [|e evs He _ IH]; [reflexivity|].
  unfold runs_of in *. cbn [List.filter].
  destruct (is_run name e) eqn:E; [|exact IH]. exfalso.
  destruct e; try discriminate E. cbn in E. apply String.eqb_eq in E. subst name0.
  cbn in He. now apply bool_decide_eq_false_1 in He.
Qed.

Lemma hybrid_retrieve_not_routing env semantic_query filters k :
  emits (fun e => is_routing e = false) (hybrid_retrieve env semantic_query filters k).
Proof.
  unfold hybrid_retrieve, get_asins_by_filter. emits_auto.
Qed.

Lemma build_hybrid_prompt_ok env formatted question filters tr prompt tr' :
  build_hybrid_prompt env formatted question filters tr = (Ok prompt, tr') ->
  exists d, filters = VDict d /\
            prompt = HybridPrompt (criteria_text env d) formatted question.
Proof.
  unfold build_hybrid_prompt, traceable, bind, emit, ret, raise.
  destruct filters; cbv beta iota; try discriminate. intros [= <- _].
  eexists. split; reflexivity.
Qed.

Lemma hybrid_pipeline_not_routing env question filters semantic_query top_k :
  filters <> VNone ->
  emits (fun e => is_routing e = false)
        (hybrid_pipeline env question filters semantic_query top_k).
Proof.
  intros Hf. unfold hybrid_pipeline. apply emits_traceable; [reflexivity|]. cbv zeta.
  apply emits_bind.
  { destruct filters; try apply emits_ret. contradiction. }
  intros fs.
  apply emits_bind; [apply hybrid_retrieve_not_routing|]. intros retrieved.
  apply emits_bind; [unfold format_hybrid_context; emits_auto|]. intros formatted.
  apply (emits_bind_ok _ (fun prompt => is_routing (LlmCall prompt) = false)).
  - unfold build_hybrid_prompt. emits_auto.
  - intros tr prompt tr' H.
    apply build_hybrid_prompt_ok in H as (d & _ & ->). reflexivity.
  - intros prompt Hp. unfold hybrid_generate, chat_completion. emits_auto.
Qed.

(** X18.  Called with filters, [hybrid_pipeline] does no routing: it enters
    none of [route_query], [classify_intent], [extract_filters] and sends
    neither the classification nor the extraction prompt, whatever the
    services answer and whether it returns or raises. *)
Theorem hybrid_pipeline_given_filters env question filters semantic_query top_k tr :
  filters <> VNone ->
  exists evs,
    (hybrid_pipeline env question filters semantic_query top_k tr).2 = tr ++ evs /\
    Forall (fun e => is_routing e = false) evs /\
    runs_of "route_query" evs = 0%nat /\
    runs_of "classify_intent" evs = 0%nat /\
    runs_of "extract_filters" evs = 0%nat.
Proof.
  intros Hf.
  destruct (hybrid_pipeline_not_routing env question filters semantic_query top_k Hf tr)
    as (evs & E & F).
  exists evs. split; [exact E|]. split; [exact F|].
  repeat split; apply runs_of_not_routing; first [exact F | repeat constructor].
Qed.

Lemma hybrid_pipeline_given_filters_witness :
  exists evs,
    (hybrid_pipeline six_env "speakers under $30" (VDict under_30) VNone None []).2
    = [] ++ evs /\
    Forall (fun e => is_routing e = false) evs /\
    runs_of "route_query" evs = 0%nat /\
    runs_of "classify_intent" evs = 0%nat /\
    runs_of "extract_filters" evs = 0%nat.
Proof.
  exact (hybrid_pipeline_given_filters six_env "speakers under $30" (VDict under_30)
           VNone None [] ltac:(discriminate)).
Defined.

(** X19.  Called without filters on a question the classifier labels HYBRID,
    [hybrid_pipeline] works with what the router extracted: the result
    echoes the extracted filters, and its semantic query is the extracted
    one, or the question when the extracted one is [None].  A semantic
    query passed by the caller without filters is overwritten. *)
Theorem hybrid_pipeline_routed env question semantic_query top_k tr content r res :
  let tr1 := tr ++ [Run "hybrid_pipeline"] in
  openai_create env (tr1 ++ [Run "route_query"; Run "classify_intent"])
                (INTENT_CLASSIFICATION_PROMPT question) = Ok content ->
  classified_intent content = HYBRID ->
  (extract_filters env question (tr1 ++ classify_events question)).1 = Ok r ->
  (hybrid_pipeline env question VNone semantic_query top_k tr).1 = Ok res ->
  hp_filters res = VDict r.1 /\
  hp_semantic_query res = match r.2 with VNone => VStr question | v => v end.
Proof.
  cbv zeta. intros H Hi Hr.
  unfold hybrid_pipeline. rewrite traceable_eq. cbv zeta.
  unfold bind at 1. unfold bind at 1.
  rewrite (route_query_hybrid _ _ _ _ H Hi), Hr.
  unfold ret at 1. cbn [fst snd].
  set (st := _ ∪ classified_state question content).
  assert (Hf : dict_get_default st "filters" (VDict ∅) = VDict r.1).
  { unfold dict_get_default, st. erewrite lookup_union_Some_l; [reflexivity|].
    rewrite lookup_insert_ne by discriminate. apply lookup_insert_eq. }
  assert (Hs : dict_get_default st "semantic_query" (VStr question) = r.2).
  { unfold dict_get_default, st. erewrite lookup_union_Some_l; [reflexivity|].
    apply lookup_insert_eq. }
  rewrite Hf, Hs. unfold bind.
  destruct (hybrid_retrieve env _ _ _ _) as [[retrieved|e] tr2]; [|discriminate].
  destruct (format_hybrid_context env _ _ _) as [[formatted|e] tr3]; [|discriminate].
  destruct (build_hybrid_prompt env _ _ _ _) as [[prompt|e] tr4]; [|discriminate].
  destruct (hybrid_generate env _ _) as [[answer|e] tr5]; [|discriminate].
  intros [= <-]. cbn [hp_filters hp_semantic_query]. split; [reflexivity|].
  destruct r.2; reflexivity.
Qed.

Lemma extract_filters_headphones :
  (extract_filters headphones_env "best Sony headphones under $100"
     (([] ++ [Run "hybrid_pipeline"]) ++ classify_events "best Sony headphones under $100")).1
  = Ok (headphones_filters, VStr "best headphones").
Proof. vm_compute. reflexivity. Qed.

Lemma hybrid_pipeline_routed_witness :
  exists res,
    (hybrid_pipeline headphones_env "best Sony headphones under $100" VNone
       (VStr "ignored") None []).1 = Ok res /\
    hp_filters res = VDict headphones_filters /\
    hp_semantic_query res = VStr "best headphones".
Proof.
  destruct (hybrid_pipeline headphones_env "best Sony headphones under $100" VNone
              (VStr "ignored") None []) as [[res|e] tr1] eqn:E.
  - exists res. split; [reflexivity|].
    exact (hybrid_pipeline_routed headphones_env "best Sony headphones under $100"
             (VStr "ignored") None [] "HYBRID" (headphones_filters, VStr "best headphones")
             res eq_refl eq_refl extract_filters_headphones (f_equal fst E)).
  - exfalso. vm_compute in E. discriminate E.
Defined.

Lemma format_hybrid_context_eval env context (filters : gmap string PyVal) tr :
  format_hybrid_context env context (VDict filters) tr =
  (Ok (format_hybrid_context_text env context filters),
   tr ++ [Run "format_hybrid_context"]).
Proof. reflexivity. Qed.

Lemma build_hybrid_prompt_eval env formatted question (filters : gmap string PyVal) tr :
  build_hybrid_prompt env formatted question (VDict filters) tr =
  (Ok (HybridPrompt (criteria_text env filters) formatted question),
   tr ++ [Run "build_hybrid_prompt"]).
Proof. reflexivity. Qed.

(** X20.  When the resolver finds no candidate, [hybrid_pipeline] still asks
    the text-generation service for an answer, from a context that is the
    header alone; it returns that answer with empty result sequences and
    [filter_count] 0.  The store is queried once and its connection
    closed; the embedding service and the vector store are not called. *)
Theorem hybrid_pipeline_no_candidates env question (filters : gmap string PyVal)
    semantic_query top_k tr answer :
  let resolved :=
    get_asins_by_filter env (dict_get filters "min_price")
      (dict_get filters "max_price") (dict_get filters "min_rating")
      (dict_get filters "category") (Some 100)
      (tr ++ [Run "hybrid_pipeline"; Run "hybrid_retrieve"]) in
  let prompt :=
    HybridPrompt (criteria_text env filters)
      (format_header env empty_result filters) question in
  resolved.1 = Ok [] ->
  openai_create env
    (resolved.2 ++ [Run "format_hybrid_context"; Run "build_hybrid_prompt";
                    Run "hybrid_generate"]) prompt = Ok answer ->
  exists sql params,
    hybrid_pipeline env question (VDict filters) semantic_query top_k tr =
    (Ok {| hp_answer := answer; hp_question := question; hp_intent := "hybrid";
           hp_filters := VDict filters;
           hp_semantic_query :=
             match semantic_query with VNone => VStr question | v => v end;
           hp_retrieved_context_ids := []; hp_retrieved_context := [];
           hp_similarity_scores := []; hp_filter_count := 0 |},
     tr ++ [Run "hybrid_pipeline"; Run "hybrid_retrieve"; Run "get_asins_by_filter";
            DbConnect; DbExecute sql params; DbClose;
            Run "format_hybrid_context"; Run "build_hybrid_prompt";
            Run "hybrid_generate"; LlmCall prompt]).
Proof.
  cbv zeta. intros Hres Hllm.
  rewrite get_asins_by_filter_eval in Hllm. cbv zeta in Hllm. cbn [snd] in Hllm.
  rewrite <- !app_assoc in Hllm. cbn [app] in Hllm.
  eexists _, _.
  unfold hybrid_pipeline. rewrite traceable_eq. cbv zeta.
  unfold bind at 1. unfold ret at 1. cbn [fst snd].
  unfold bind at 1. rewrite hybrid_retrieve_resolved.
  unfold bind at 1. rewrite <- app_assoc. cbn [app].
  destruct (get_asins_by_filter env _ _ _ _ _ _) as [res tr1] eqn:E.
  cbn [fst] in Hres. subst res.
  rewrite get_asins_by_filter_eval in E. cbv zeta in E. injection E as _ <-.
  unfold ret at 1.
  unfold bind at 1. rewrite format_hybrid_context_eval.
  unfold bind at 1. rewrite build_hybrid_prompt_eval.
  unfold bind at 1.
  unfold hybrid_generate, traceable, chat_completion, bind, emit, call, ret.
  rewrite <- !app_assoc. cbn [app].
  change (format_hybrid_context_text env empty_result filters)
    with (format_header env empty_result filters).
  change (default 50 (Some 100)) with 100 in Hllm.
  rewrite Hllm. destruct semantic_query; reflexivity.
Qed.

Lemma hybrid_pipeline_no_candidates_witness :
  exists sql params,
    hybrid_pipeline empty_env "speakers under $30" (VDict under_30) VNone None [] =
    (Ok {| hp_answer := "rag"; hp_question := "speakers under $30";
           hp_intent := "hybrid"; hp_filters := VDict under_30;
           hp_semantic_query := VStr "speakers under $30";
           hp_retrieved_context_ids := []; hp_retrieved_context := [];
           hp_similarity_scores := []; hp_filter_count := 0 |},
     [] ++ [Run "hybrid_pipeline"; Run "hybrid_retrieve"; Run "get_asins_by_filter";
            DbConnect; DbExecute sql params; DbClose;
            Run "format_hybrid_context"; Run "build_hybrid_prompt";
            Run "hybrid_generate";
            LlmCall (HybridPrompt (criteria_text empty_env under_30)
                       (format_header empty_env empty_result under_30)
                       "speakers under $30")]).
Proof.
  exact (hybrid_pipeline_no_candidates empty_env "speakers under $30" under_30 VNone None
           [] "rag" eq_refl eq_refl).
Defined.

Lemma join_nl_first c x l : exists rest, PyStr.join_nl (String c x :: l) = String c rest.
Proof.
  destruct l as [|y l]; [now exists x|].
  unfold PyStr.join_nl. cbn [PyStr.join]. rewrite append_cons. eauto.
Qed.

Lemma filter_summary_nil env (filters : gmap string PyVal) :
  filter_summary env filters = [] <->
  Forall (fun key => truthy (dict_get filters key) = false) read_keys.
Proof.
  unfold filter_summary, read_keys. cbv zeta.
  rewrite !Forall_cons, Forall_nil.
  destruct (truthy (dict_get filters "min_price")),
           (truthy (dict_get filters "max_price")),
           (truthy (dict_get filters "min_rating")),
           (truthy (dict_get filters "category")); cbn [orb List.app];
    split; try discriminate; try tauto; intros (? & ? & ? & ? & _); discriminate.
Qed.

Lemma filter_summary_first env (filters : gmap string PyVal) :
  filter_summary env filters = [] \/
  exists c x l, filter_summary env filters = String c x :: l /\ c <> "N"%char.
Proof.
  unfold filter_summary. cbv zeta.
  destruct (truthy (dict_get filters "min_price") || truthy (dict_get filters "max_price")).
  { right. cbn [List.app]. eexists "P"%char, _, _. split; [reflexivity|discriminate]. }
  destruct (truthy (dict_get filters "min_rating")).
  { right. cbn [List.app]. eexists "R"%char, _, _. split; [reflexivity|discriminate]. }
  destruct (truthy (dict_get filters "category")).
  { right. cbn [List.app]. eexists "C"%char, _, _. split; [reflexivity|discriminate]. }
  now left.
Qed.

(** X21.  The prompt says "No specific filters" exactly when none of
    [min_price], [max_price], [min_rating] and [category] has a truthy
    value in the filters; [sort_by] and [limit] never show in it. *)
Theorem build_hybrid_prompt_no_filters env formatted question
    (filters : gmap string PyVal) tr :
  (build_hybrid_prompt env formatted question (VDict filters) tr).1
  = Ok (HybridPrompt "No specific filters" formatted question)
  <-> Forall (fun key => truthy (dict_get filters key) = false) read_keys.
Proof.
  rewrite build_hybrid_prompt_eval. cbn [fst]. rewrite <- filter_summary_nil.
  unfold criteria_text. cbv zeta. split.
  - intros [= H]. destruct (filter_summary_first env filters) as [E|(c & x & l & E & Hc)];
      [exact E|].
    rewrite E in H. destruct (join_nl_first c x l) as [rest Hj]. rewrite Hj in H.
    injection H as H _. contradiction.
  - intros ->. reflexivity.
Qed.

Lemma build_hybrid_prompt_no_filters_witness :
  (build_hybrid_prompt empty_env "(Filtered from 6 products)" "three cheapest speakers"
     (VDict sorted_top_3) []).1
  = Ok (HybridPrompt "No specific filters" "(Filtered from 6 products)"
          "three cheapest speakers").
Proof.
  apply (proj2 (build_hybrid_prompt_no_filters empty_env "(Filtered from 6 products)"
                  "three cheapest speakers" sorted_top_3 [])).
  repeat constructor.
Defined.

Lemma hybrid_retrieve_read_keys env semantic_query (d d' : gmap string PyVal) k tr :
  (forall key, key ∈ read_keys -> dict_get d key = dict_get d' key) ->
  hybrid_retrieve env semantic_query (VDict d) k tr
  = hybrid_retrieve env semantic_query (VDict d') k tr.
Proof.
  intros H. rewrite !hybrid_retrieve_resolved.
  rewrite !(H _) by (unfold read_keys; set_solver). reflexivity.
Qed.

Lemma format_hybrid_context_read_keys env context (d d' : gmap string PyVal) tr :
  (forall key, key ∈ read_keys -> dict_get d key = dict_get d' key) ->
  format_hybrid_context env context (VDict d) tr
  = format_hybrid_context env context (VDict d') tr.
Proof.
  intros H. rewrite !format_hybrid_context_eval.
  unfold format_hybrid_context_text, format_header, header_field.
  rewrite !(H _) by (unfold read_keys; set_solver). reflexivity.
Qed.

Lemma build_hybrid_prompt_read_keys env formatted question (d d' : gmap string PyVal) tr :
  (forall key, key ∈ read_keys -> dict_get d key = dict_get d' key) ->
  build_hybrid_prompt env formatted question (VDict d) tr
  = build_hybrid_prompt env formatted question (VDict d') tr.
Proof.
  intros H. rewrite !build_hybrid_prompt_eval.
  unfold criteria_text, filter_summary.
  rewrite !(H _) by (unfold read_keys; set_solver). reflexivity.
Qed.

Lemma hybrid_pipeline_dict env question (d : gmap string PyVal) semantic_query top_k tr :
  hybrid_pipeline env question (VDict d) semantic_query top_k tr =
  (let semantic := match semantic_query with VNone => VStr question | v => v end in
   do retrieved <- hybrid_retrieve env semantic (VDict d) (Some (default 5 top_k));
   do formatted_context <- format_hybrid_context env retrieved (VDict d);
   do prompt <- build_hybrid_prompt env formatted_context question (VDict d);
   do answer <- hybrid_generate env prompt;
   ret {| hp_answer := answer; hp_question := question;
          hp_intent := "hybrid"; hp_filters := VDict d;
          hp_semantic_query := semantic;
          hp_retrieved_context_ids := retrieved_context_ids retrieved;
          hp_retrieved_context := retrieved_context retrieved;
          hp_similarity_scores := similarity_scores retrieved;
          hp_filter_count := filter_count retrieved |}) (tr ++ [Run "hybrid_pipeline"]).
Proof. destruct semantic_query; reflexivity. Qed.

Lemma bind_same {A B} (f : B -> B) (m m' : M A) (k k' : A -> M B) tr :
  m tr = m' tr ->
  (forall a tr1, (k a tr1).2 = (k' a tr1).2 /\
                 res_map f (k a tr1).1 = res_map f (k' a tr1).1) ->
  (bind m k tr).2 = (bind m' k' tr).2 /\
  res_map f (bind m k tr).1 = res_map f (bind m' k' tr).1.
Proof.
  intros Hm Hk. unfold bind. rewrite Hm.
  destruct (m' tr) as [[a|e] tr1]; [apply Hk|split; reflexivity].
Qed.

(** X22.  The pipeline reads four filter fields only.  Two filter dictionaries
    that agree on [min_price], [max_price], [min_rating] and [category]
    give the same events, the same failure or the same result up to the
    echoed filters: an extracted [sort_by] or [limit] changes neither the
    candidates, nor the search, nor the prompt, nor the answer. *)
Theorem hybrid_pipeline_reads_four_fields env question (d d' : gmap string PyVal)
    semantic_query top_k tr :
  (forall key, key ∈ read_keys -> dict_get d key = dict_get d' key) ->
  (hybrid_pipeline env question (VDict d) semantic_query top_k tr).2
  = (hybrid_pipeline env question (VDict d') semantic_query top_k tr).2 /\
  res_map forget_filters (hybrid_pipeline env question (VDict d) semantic_query top_k tr).1
  = res_map forget_filters
      (hybrid_pipeline env question (VDict d') semantic_query top_k tr).1.
Proof.
  intros H. rewrite !hybrid_pipeline_dict. cbv zeta.
  apply bind_same; [now apply hybrid_retrieve_read_keys|]. intros retrieved tr1.
  apply bind_same; [now apply format_hybrid_context_read_keys|]. intros formatted tr2.
  apply bind_same; [now apply build_hybrid_prompt_read_keys|]. intros prompt tr3.
  apply bind_same; [reflexivity|]. intros answer tr4.
  split; reflexivity.
Qed.

Lemma ceiling_30_agree key :
  key ∈ read_keys -> dict_get ceiling_30_sorted key = dict_get ceiling_30 key.
Proof.
  unfold read_keys. rewrite !elem_of_cons, elem_of_nil.
  intros [->|[->|[->|[->|[]]]]]; reflexivity.
Qed.

Lemma hybrid_pipeline_reads_four_fields_witness :
  (hybrid_pipeline six_env "three cheapest speakers under $30" (VDict ceiling_30_sorted)
     VNone None []).2
  = (hybrid_pipeline six_env "three cheapest speakers under $30" (VDict ceiling_30)
       VNone None []).2 /\
  res_map forget_filters
    (hybrid_pipeline six_env "three cheapest speakers under $30" (VDict ceiling_30_sorted)
       VNone None []).1
  = res_map forget_filters
      (hybrid_pipeline six_env "three cheapest speakers under $30" (VDict ceiling_30)
         VNone None []).1.
Proof.
  exact (hybrid_pipeline_reads_four_fields six_env "three cheapest speakers under $30"
           ceiling_30_sorted ceiling_30 VNone None [] ceiling_30_agree).
Defined.

(* ===================================================================== *)
(** ** Connections to the store *)
(* ===================================================================== *)

Section Adds.
Context (Q : list Event -> Prop).
Hypothesis Q_nil : Q [].
Hypothesis Q_app : forall a b, Q a -> Q b -> Q (a ++ b).

Lemma adds_ret {A} (a : A) : adds Q (ret a).
Proof. intros tr. exists []. now rewrite app_nil_r. Qed.

Lemma adds_raise {A} e : adds Q (@raise A e).
Proof. intros tr. exists []. now rewrite app_nil_r. Qed.

Lemma adds_lift {A} (r : Res A) : adds Q (lift r).
Proof. intros tr. exists []. now rewrite app_nil_r. Qed.

Lemma adds_emit e : Q [e] -> adds Q (emit e).
Proof. intros He tr. now exists [e]. Qed.

Lemma adds_call {A} e (oracle : Trace -> Res A) : Q [e] -> adds Q (call e oracle).
Proof. intros He tr. now exists [e]. Qed.

Lemma adds_bind {A B} (m : M A) (k : A -> M B) :
  adds Q m -> (forall a, adds Q (k a)) -> adds Q (bind m k).
Proof.
  intros Hm Hk tr. unfold bind.
  destruct (Hm tr) as (evs & E & F).
  destruct (m tr) as [[a|e] tr1]; cbn [snd] in E; subst tr1.
  - destruct (Hk a (tr ++ evs)) as (evs' & E' & F').
    exists (evs ++ evs'). rewrite E', app_assoc. split; [reflexivity|].
    now apply Q_app.
  - now exists evs.
Qed.

(** The continuation is entered only with what the first computation can
    return. *)
Lemma adds_bind_ok {A B} (R : A -> Prop) (m : M A) (k : A -> M B) :
  adds Q m -> (forall tr a tr', m tr = (Ok a, tr') -> R a) ->
  (forall a, R a -> adds Q (k a)) -> adds Q (bind m k).
Proof.
  intros Hm HR Hk tr. unfold bind.
  destruct (Hm tr) as (evs & E & F).
  destruct (m tr) as [[a|e] tr1] eqn:Em; cbn [snd] in E; subst tr1.
  - destruct (Hk a (HR _ _ _ Em) (tr ++ evs)) as (evs' & E' & F').
    exists (evs ++ evs'). rewrite E', app_assoc. split; [reflexivity|].
    now apply Q_app.
  - now exists evs.
Qed.

Lemma adds_traceable {A} name (body : M A) :
  Q [Run name] -> adds Q body -> adds Q (traceable name body).
Proof. intros Hr Hb. apply adds_bind; [now apply adds_emit | intros _; exact Hb]. Qed.

Lemma adds_try_except {A} (m : M A) (h : Exn -> M A) :
  adds Q m -> (forall e, adds Q (h e)) -> adds Q (try_except m h).
Proof.
  intros Hm Hh tr. unfold try_except.
  destruct (Hm tr) as (evs & E & F).
  destruct (m tr) as [[a|e] tr1]; cbn [snd] in E; subst tr1.
  - now exists evs.
  - destruct (Hh e (tr ++ evs)) as (evs' & E' & F').
    exists (evs ++ evs'). rewrite E', app_assoc. split; [reflexivity|].
    now apply Q_app.
Qed.

Lemma emits_adds {A} (P : Event -> Prop) (m : M A) :
  (forall evs, Forall P evs -> Q evs) -> emits P m -> adds Q m.
Proof.
  intros HPQ Hm tr. destruct (Hm tr) as (evs & E & F). exists evs. auto.
Qed.

End Adds.

Lemma db_closed_app o a b :
  db_closed o a = true -> db_closed o (a ++ b) = db_closed false b.
Proof.
  revert o. induction a as [|e a IH]; intros o H.
  - cbn in H. apply negb_true_iff in H. now subst o.
  - destruct e; cbn [db_closed app] in *; try (now apply IH);
      apply andb_prop in H as [Ho H]; rewrite Ho; cbn [andb]; now apply IH.
Qed.

Lemma db_closed_nil : db_closed false [] = true.
Proof. reflexivity. Qed.

Lemma db_closed_concat a b :
  db_closed false a = true -> db_closed false b = true ->
  db_closed false (a ++ b) = true.
Proof. intros Ha Hb. now rewrite (db_closed_app _ _ _ Ha). Qed.

Lemma db_closed_other evs :
  Forall (fun e => is_db e = false) evs -> db_closed false evs = true.
Proof.
  induction 1 as [|e evs He _ IH]; [reflexivity|].
  destruct e; try discriminate He; exact IH.
Qed.

Ltac closed_step :=
  lazymatch goal with
  | |- adds _ (bind _ _) => apply (adds_bind _ db_closed_concat); [|intro]
  | |- adds _ (traceable _ _) => apply (adds_traceable _ db_closed_concat); [reflexivity|]
  | |- adds _ (try_except _ _) => apply (adds_try_except _ db_closed_concat); [|intro]
  | |- adds _ (ret _) => apply (adds_ret _ db_closed_nil)
  | |- adds _ (raise _) => apply (adds_raise _ db_closed_nil)
  | |- adds _ (lift _) => apply (adds_lift _ db_closed_nil)
  | |- adds _ (call _ _) => apply adds_call; reflexivity
  | |- adds _ (match ?x with _ => _ end) => destruct x
  | |- adds _ (if ?b then _ else _) => destruct b
  | |- adds _ (let _ := _ in _) => cbv zeta
  end.

Lemma closed_get_asins_by_filter env min_price max_price min_rating category limit :
  adds connections_closed
       (get_asins_by_filter env min_price max_price min_rating category limit).
Proof.
  intros tr. rewrite get_asins_by_filter_eval. cbv zeta. cbn [snd].
  eexists. split; reflexivity.
Qed.

Lemma closed_execute_sql_query env sql :
  adds connections_closed (execute_sql_query env sql).
Proof.
  intros tr. unfold execute_sql_query. rewrite traceable_eq.
  destruct (negb _); [eexists; split; reflexivity|].
  destruct (List.find _ forbidden); [eexists; split; reflexivity|].
  unfold try_finally, bind, emit, call. rewrite <- !app_assoc. cbn [app snd].
  eexists. split; reflexivity.
Qed.

Lemma closed_chat_completion env p : adds connections_closed (chat_completion env p).
Proof. unfold chat_completion. closed_step. Qed.

Lemma closed_route_query env question : adds connections_closed (route_query env question).
Proof.
  apply (emits_adds _ (fun e => is_db e = false)); [apply db_closed_other|].
  apply emits_route_query. split; reflexivity.
Qed.

Lemma closed_hybrid_retrieve env semantic_query filters k :
  adds connections_closed (hybrid_retrieve env semantic_query filters k).
Proof.
  unfold hybrid_retrieve. closed_step. cbv zeta.
  do 4 (closed_step; [closed_step|]).
  closed_step; [apply closed_get_asins_by_filter|].
  repeat closed_step.
Qed.

(** X23.  The hybrid pipeline uses the store one connection at a time and
    leaves none open: in the events of any run, returning or raising and
    whatever the services answer, every statement is sent on an open
    connection and every connection opened is closed again. *)
Theorem hybrid_pipeline_connections env question filters semantic_query top_k tr :
  exists evs,
    (hybrid_pipeline env question filters semantic_query top_k tr).2 = tr ++ evs /\
    db_closed false evs = true.
Proof.
  revert tr.
  change (adds connections_closed
            (hybrid_pipeline env question filters semantic_query top_k)).
  unfold hybrid_pipeline. closed_step. cbv zeta.
  closed_step.
  { destruct filters; repeat closed_step. apply closed_route_query. }
  closed_step; [apply closed_hybrid_retrieve|].
  closed_step; [unfold format_hybrid_context; repeat closed_step|].
  closed_step; [unfold build_hybrid_prompt; repeat closed_step|].
  closed_step; [unfold hybrid_generate; closed_step; apply closed_chat_completion|].
  closed_step.
Qed.

(** X24.  The SQL pipeline leaves no connection open: whether the generated
    statement is rejected, fails in the store or returns rows, every
    connection opened is closed again, and a statement is only ever sent
    on an open connection. *)
Theorem sql_pipeline_connections env question tr :
  exists evs,
    (sql_pipeline env question tr).2 = tr ++ evs /\ db_closed false evs = true.
Proof.
  revert tr.
  change (adds connections_closed (sql_pipeline env question)).
  unfold sql_pipeline. closed_step.
  closed_step.
  { unfold generate_sql_query. closed_step.
    closed_step; [apply closed_chat_completion|closed_step]. }
  closed_step.
  { closed_step; [|closed_step].
    closed_step; [apply closed_execute_sql_query|closed_step]. }
  closed_step; [closed_step|].
  closed_step; [|closed_step].
  unfold generate_sql_answer. closed_step. apply closed_chat_completion.
Qed.

(* ===================================================================== *)
(** ** The chat and SQL endpoints *)
(* ===================================================================== *)

Lemma emits_try_except {A} (P : Event -> Prop) (m : M A) (h : Exn -> M A) :
  emits P m -> (forall e, emits P (h e)) -> emits P (try_except m h).
Proof.
  intros Hm Hh tr. unfold try_except.
  destruct (Hm tr) as (evs & E & F).
  destruct (m tr) as [[a|e] tr1]; cbn [snd] in E; subst tr1.
  - now exists evs.
  - destruct (Hh e (tr ++ evs)) as (evs' & E' & F').
    exists (evs ++ evs'). rewrite E', app_assoc. split; [reflexivity|].
    now apply Forall_app.
Qed.

Lemma sql_pipeline_not_routing env question :
  emits (fun e => is_routing e = false) (sql_pipeline env question).
Proof.
  unfold sql_pipeline, generate_sql_query, generate_sql_answer, execute_sql_query,
    chat_completion.
  apply emits_traceable; [reflexivity|].
  apply emits_bind; [emits_auto|]. intros query.
  apply emits_bind.
  { apply emits_try_except; [|intros; apply emits_ret]. emits_auto. }
  intros [e|results]; emits_auto.
Qed.

(** What [route_query] adds and returns: one of the two event sequences;
    a state that holds an intent; and, when that intent is HYBRID, a
    dictionary under [filters]. *)
Lemma route_query_outcome env question tr :
  exists evs,
    (route_query env question tr).2 = tr ++ evs /\
    (evs = classify_events question \/
     evs = classify_events question ++ extract_events question) /\
    forall st, (route_query env question tr).1 = Ok st ->
      exists v, st !! "intent" = Some v /\
        (eq_intent v HYBRID = true -> exists d, dict_get st "filters" = VDict d).
Proof.
  destruct (openai_create env (tr ++ [Run "route_query"; Run "classify_intent"])
              (INTENT_CLASSIFICATION_PROMPT question)) as [content|e] eqn:H.
  - destruct (intent_eqb (classified_intent content) HYBRID) eqn:Hi.
    + apply intent_eqb_eq in Hi. rewrite (route_query_hybrid _ _ _ _ H Hi).
      eexists. split; [reflexivity|]. split; [now right|]. cbn [fst].
      intros st Hst. destruct (extract_filters env question _).1 as [r|]; [|discriminate].
      injection Hst as <-. exists (VIntent HYBRID). split.
      * apply lookup_union_Some_l. rewrite !lookup_insert_ne by discriminate.
        now rewrite classified_state_intent, Hi.
      * intros _. exists r.1. unfold dict_get.
        erewrite lookup_union_Some_l; [reflexivity|].
        rewrite lookup_insert_ne by discriminate. apply lookup_insert_eq.
    + rewrite (route_query_classified _ _ _ _ H). cbv zeta. rewrite Hi.
      eexists. split; [reflexivity|]. split; [now left|]. cbn [fst].
      intros st [= <-]. exists (VIntent (classified_intent content)).
      split; [apply classified_state_intent|]. cbn [eq_intent]. congruence.
  - rewrite (route_query_raise _ _ _ _ H).
    eexists. split; [reflexivity|]. split; [now left|]. discriminate.
Qed.

Lemma runs_of_classify question :
  runs_of "route_query" (classify_events question) = 1%nat /\
  runs_of "classify_intent" (classify_events question) = 1%nat /\
  runs_of "extract_filters" (classify_events question) = 0%nat /\
  runs_of "route_query" (extract_events question) = 0%nat /\
  runs_of "classify_intent" (extract_events question) = 0%nat /\
  runs_of "extract_filters" (extract_events question) = 1%nat.
Proof. repeat split. Qed.

Section Chat.
Context (env : Env) (rag_answer : string -> M string).
Hypothesis rag_not_routing : forall q, emits (fun e => is_routing e = false) (rag_answer q).

(** After the routing, the handler does not route again. *)
Lemma chat_after_routing request_id query st :
  (forall v, st !! "intent" = Some v ->
             eq_intent v HYBRID = true -> exists d, dict_get st "filters" = VDict d) ->
  emits (fun e => is_routing e = false)
    (do intent <- state_item st "intent";
     if eq_intent intent SQL then
       do result <- sql_pipeline env query;
       ret {| chat_request_id := request_id; chat_answer := sql_answer result;
              chat_intent := "sql"; chat_filters := VNone |}
     else if eq_intent intent HYBRID then
       do result <- hybrid_pipeline env query (dict_get st "filters")
                      (dict_get st "semantic_query") None;
       do filters <- validate_filters (hp_filters result);
       ret {| chat_request_id := request_id; chat_answer := hp_answer result;
              chat_intent := "hybrid"; chat_filters := filters |}
     else
       do answer <- rag_answer query;
       ret {| chat_request_id := request_id; chat_answer := answer;
              chat_intent := "rag"; chat_filters := VNone |}).
Proof.
  intros Hst. unfold state_item.
  destruct (st !! "intent") as [v|] eqn:E.
  2:{ intros tr. exists []. split; [now rewrite app_nil_r|constructor]. }
  intros tr. unfold bind at 1. unfold ret at 1. revert tr.
  destruct (eq_intent v SQL).
  { apply emits_bind; [apply sql_pipeline_not_routing|]. intros. apply emits_ret. }
  destruct (eq_intent v HYBRID) eqn:Eh.
  - destruct (Hst v eq_refl Eh) as [d ->].
    apply emits_bind; [now apply hybrid_pipeline_not_routing|]. intros result.
    apply emits_bind; [unfold validate_filters; emits_auto|]. intros. apply emits_ret.
  - apply emits_bind; [apply rag_not_routing|]. intros. apply emits_ret.
Qed.

End Chat.

(** X25.  Every chat request is routed once: whatever the services answer and
    whichever pipeline the request is sent to, its events hold exactly
    one run of [route_query] and one of [classify_intent], and at most
    one of [extract_filters].  In particular the hybrid pipeline, entered
    from this endpoint, is given the extracted filters and does not route
    again.  (The retrieval pipeline is assumed not to route.) *)
Theorem chat_routes_once env rag_answer request_id query tr :
  (forall q, emits (fun e => is_routing e = false) (rag_answer q)) ->
  exists evs,
    (chat env rag_answer request_id query tr).2 = tr ++ evs /\
    runs_of "route_query" evs = 1%nat /\
    runs_of "classify_intent" evs = 1%nat /\
    (runs_of "extract_filters" evs <= 1)%nat.
Proof.
  intros Hrag.
  destruct (route_query_outcome env query tr) as (evs1 & E1 & Hshape & Hst).
  destruct (runs_of_classify query) as (C1 & C2 & C3 & C4 & C5 & C6).
  assert (Hr : runs_of "route_query" evs1 = 1%nat /\
               runs_of "classify_intent" evs1 = 1%nat /\
               (runs_of "extract_filters" evs1 <= 1)%nat).
  { destruct Hshape as [->| ->]; rewrite ?runs_of_app; lia. }
  unfold chat. unfold bind at 1.
  destruct (route_query env query tr) as [[st|e] tr1]; cbn [fst snd] in *; subst tr1.
  - destruct (Hst st eq_refl) as (v & Hv & Hd).
    destruct (chat_after_routing env rag_answer Hrag request_id query st)
      with (tr := tr ++ evs1)
      as (evs2 & E2 & F2).
    { intros v' Hv'. rewrite Hv in Hv'. injection Hv' as <-. exact Hd. }
    exists (evs1 ++ evs2). rewrite E2, app_assoc. split; [reflexivity|].
    rewrite !runs_of_app.
    assert (R1 : runs_of "route_query" evs2 = 0%nat)
      by (apply runs_of_not_routing; [repeat constructor|exact F2]).
    assert (R2 : runs_of "classify_intent" evs2 = 0%nat)
      by (apply runs_of_not_routing; [repeat constructor|exact F2]).
    assert (R3 : runs_of "extract_filters" evs2 = 0%nat)
      by (apply runs_of_not_routing; [repeat constructor|exact F2]).
    lia.
  - exists evs1. split; [reflexivity|]. exact Hr.
Qed.

Lemma plain_rag_not_routing env q : emits (fun e => is_routing e = false) (plain_rag env q).
Proof. unfold plain_rag. emits_auto. Qed.

Lemma chat_routes_once_witness :
  exists evs,
    (chat headphones_env (plain_rag headphones_env) "r-1"
       "best Sony headphones under $100" []).2 = [] ++ evs /\
    runs_of "route_query" evs = 1%nat /\
    runs_of "classify_intent" evs = 1%nat /\
    (runs_of "extract_filters" evs <= 1)%nat.
Proof.
  exact (chat_routes_once headphones_env (plain_rag headphones_env) "r-1"
           "best Sony headphones under $100" [] (plain_rag_not_routing headphones_env)).
Defined.

Lemma hybrid_pipeline_echo env question (d : gmap string PyVal) semantic_query top_k
    tr res tr' :
  hybrid_pipeline env question (VDict d) semantic_query top_k tr = (Ok res, tr') ->
  hp_filters res = VDict d /\ hp_question res = question.
Proof.
  rewrite hybrid_pipeline_dict. cbv zeta. unfold bind.
  destruct (hybrid_retrieve env _ _ _ _) as [[retrieved|e] tr1]; [|discriminate].
  destruct (format_hybrid_context env _ _ _) as [[formatted|e] tr2]; [|discriminate].
  destruct (build_hybrid_prompt env _ _ _ _) as [[prompt|e] tr3]; [|discriminate].
  destruct (hybrid_generate env _ _) as [[answer|e] tr4]; [|discriminate].
  intros [= <- _]. split; reflexivity.
Qed.

(** X26.  The response of the chat endpoint names the pipeline that answered:
    its [intent] is the value of the classified intent.  Its [filters]
    are [None] for RAG and SQL and, for HYBRID, the dictionary the filter
    extractor returned. *)
Theorem chat_response_intent env rag_answer request_id query tr content resp :
  openai_create env (tr ++ [Run "route_query"; Run "classify_intent"])
                (INTENT_CLASSIFICATION_PROMPT query) = Ok content ->
  (chat env rag_answer request_id query tr).1 = Ok resp ->
  chat_request_id resp = request_id /\
  chat_intent resp = intent_value (classified_intent content) /\
  match classified_intent content with
  | HYBRID =>
      exists r, (extract_filters env query (tr ++ classify_events query)).1 = Ok r /\
                chat_filters resp = VDict r.1
  | _ => chat_filters resp = VNone
  end.
Proof.
  intros H. unfold chat. unfold bind at 1.
  destruct (classified_intent content) eqn:Hi.
  - rewrite (route_query_classified _ _ _ _ H). cbv zeta. rewrite Hi. cbn [intent_eqb].
    unfold bind at 1. unfold state_item. rewrite classified_state_intent, Hi.
    unfold ret at 1. cbn [eq_intent intent_eqb]. unfold bind, ret.
    destruct (rag_answer query _) as [[answer|e] tr1]; [|discriminate].
    intros [= <-]. repeat split.
  - rewrite (route_query_classified _ _ _ _ H). cbv zeta. rewrite Hi. cbn [intent_eqb].
    unfold bind at 1. unfold state_item. rewrite classified_state_intent, Hi.
    unfold ret at 1. cbn [eq_intent intent_eqb]. unfold bind at 1. unfold ret.
    destruct (sql_pipeline env query _) as [[result|e] tr1]; [|discriminate].
    intros [= <-]. repeat split.
  - rewrite (route_query_hybrid _ _ _ _ H Hi).
    destruct (extract_filters env query (tr ++ classify_events query)).1 as [r|e];
      [|discriminate].
    set (st := _ ∪ classified_state query content).
    assert (Hint : st !! "intent" = Some (VIntent HYBRID)).
    { apply lookup_union_Some_l. rewrite !lookup_insert_ne by discriminate.
      now rewrite classified_state_intent, Hi. }
    assert (Hf : dict_get st "filters" = VDict r.1).
    { unfold dict_get, st. erewrite lookup_union_Some_l; [reflexivity|].
      rewrite lookup_insert_ne by discriminate. apply lookup_insert_eq. }
    unfold bind at 1. unfold state_item. rewrite Hint.
    unfold ret at 1. cbn [eq_intent intent_eqb]. rewrite Hf.
    unfold bind at 1.
    destruct (hybrid_pipeline env query _ _ _ _) as [[result|e] tr1] eqn:Ep; [|discriminate].
    apply hybrid_pipeline_echo in Ep as [Ep _].
    unfold bind, validate_filters, ret. rewrite Ep.
    intros [= <-]. split; [reflexivity|]. split; [reflexivity|]. eauto.
Qed.

Lemma chat_response_intent_witness :
  exists resp,
    (chat headphones_env (plain_rag headphones_env) "r-1"
       "best Sony headphones under $100" []).1 = Ok resp /\
    chat_request_id resp = "r-1"%string /\
    chat_intent resp = "hybrid"%string /\
    exists r,
      (extract_filters headphones_env "best Sony headphones under $100"
         ([] ++ classify_events "best Sony headphones under $100")).1 = Ok r /\
      chat_filters resp = VDict r.1.
Proof.
  destruct (chat headphones_env (plain_rag headphones_env) "r-1"
              "best Sony headphones under $100" []) as [[resp|e] tr1] eqn:E.
  - exists resp. split; [reflexivity|].
    exact (chat_response_intent headphones_env (plain_rag headphones_env) "r-1"
             "best Sony headphones under $100" [] "HYBRID" resp eq_refl
             (f_equal fst E)).
  - exfalso. vm_compute in E. discriminate E.
Defined.

(** X27.  A classification failure fails the chat request: when the
    classification call raises, the handler raises the same exception;
    no pipeline is run and no default answer is given. *)
Theorem chat_classification_failure env rag_answer request_id query tr e :
  openai_create env (tr ++ [Run "route_query"; Run "classify_intent"])
                (INTENT_CLASSIFICATION_PROMPT query) = Raise e ->
  chat env rag_answer request_id query tr = (Raise e, tr ++ classify_events query).
Proof.
  intros H. unfold chat. unfold bind at 1.
  now rewrite (route_query_raise _ _ _ _ H).
Qed.

Lemma chat_classification_failure_witness :
  chat down_env (plain_rag down_env) "r-3" "tell me about coffee makers" [] =
  (Raise (ServiceError "service unavailable"),
   [] ++ classify_events "tell me about coffee makers").
Proof.
  exact (chat_classification_failure down_env (plain_rag down_env) "r-3"
           "tell me about coffee makers" [] (ServiceError "service unavailable") eq_refl).
Defined.

(** X28.  The SQL endpoint on a rejected statement: when the generated
    statement does not start with SELECT or holds a write keyword, the
    response carries the error text as its answer, the rejected statement
    as [sql_query], and 0 as [result_count] (the pipeline's result has no
    such entry). *)
Theorem sql_endpoint_rejected env request_id query tr response :
  openai_create env (tr ++ [Run "sql_pipeline"; Run "generate_sql_query"])
                (SqlGenerationPrompt query) = Ok response ->
  starts_with_select (sql_of_response response) = false \/
  has_keyword (sql_of_response response) ->
  exists msg,
    (sql env request_id query tr).1 =
    Ok {| sqlr_request_id := request_id;
          sqlr_answer := ("Error executing query: " ++ msg)%string;
          sqlr_sql_query := sql_of_response response;
          sqlr_result_count := 0 |} /\
    Forall (fun e => is_db e = false) (drop (length tr) (sql env request_id query tr).2).
Proof.
  intros Hllm Hbad.
  assert (Hrej : exists msg, forall tr',
            execute_sql_query env (sql_of_response response) tr' =
            (Raise (ValueError msg), tr' ++ [Run "execute_sql_query"])).
  { destruct (starts_with_select (sql_of_response response)) eqn:Hsel.
    - destruct Hbad as [Hbad|Hkw]; [discriminate|].
      destruct (execute_sql_query_keyword env _ [] Hsel Hkw) as (word & _ & E).
      exists ("Forbidden SQL operation: " ++ word)%string. intros tr'.
      destruct (execute_sql_query_keyword env _ tr' Hsel Hkw) as (word' & _ & E').
      rewrite E'. unfold execute_sql_query in E, E'. rewrite traceable_eq in E, E'.
      unfold starts_with_select in Hsel. rewrite Hsel in E, E'. cbn [negb] in E, E'.
      destruct (List.find _ forbidden); [|discriminate E].
      unfold raise in E, E'. congruence.
    - exists "Only SELECT queries are allowed"%string. intros tr'.
      now apply execute_sql_query_not_select. }
  destruct Hrej as [msg Hrej]. exists msg.
  unfold sql, bind. rewrite (sql_pipeline_rejected _ _ _ _ _ Hllm Hrej).
  cbn [fst snd ret sql_answer sql_query sql_result_count]. split; [reflexivity|].
  rewrite drop_app_length. repeat constructor.
Qed.

Lemma sql_endpoint_rejected_witness :
  exists msg,
    (sql (sql_env newest_first "-") "r-2" "newest five products" []).1 =
    Ok {| sqlr_request_id := "r-2";
          sqlr_answer := ("Error executing query: " ++ msg)%string;
          sqlr_sql_query := sql_of_response newest_first;
          sqlr_result_count := 0 |} /\
    Forall (fun e => is_db e = false)
      (drop (length (@nil Event))
         (sql (sql_env newest_first "-") "r-2" "newest five products" []).2).
Proof.
  apply (sql_endpoint_rejected (sql_env newest_first "-") "r-2" "newest five products" []
           newest_first eq_refl).
  right. exists "CREATE"%string. split; [|reflexivity].
  unfold forbidden. cbn [In]. tauto.
Defined.

(* ===================================================================== *)
(** ** The result formatter *)
(* ===================================================================== *)

Lemma format_row_title env err i row formatted :
  text_title row = true \/ null_title row = true ->
  if null_title row
  then format_row env err i row formatted
       = Raise (TypeError "'NoneType' object is not subscriptable")
  else exists text, format_row env err i row formatted = Ok text.
Proof.
  unfold text_title, null_title, format_row. cbv zeta.
  destruct (row !! "title") as [[| | | | | | |]|]; cbn [title_80 res_bind];
    intros [H|H]; try discriminate H; try reflexivity; eexists; reflexivity.
Qed.

Lemma format_rows_titles env err results : forall i formatted,
  Forall (fun row => text_title row = true \/ null_title row = true) results ->
  if existsb null_title results
  then format_rows env err i results formatted
       = Raise (TypeError "'NoneType' object is not subscriptable")
  else exists text, format_rows env err i results formatted = Ok text.
Proof.
  induction results as [|row results IH]; intros i formatted H; cbn [existsb format_rows].
  - eexists. reflexivity.
  - apply Forall_cons in H as [Hrow H].
    pose proof (format_row_title env err i row formatted Hrow) as Hr.
    destruct (null_title row); cbn [orb].
    + now rewrite Hr.
    + destruct Hr as [text ->]. cbn [res_bind]. now apply IH.
Qed.

(** X29.  The formatter slices every title it finds: on rows whose title, when
    present, is text or NULL, it returns a text exactly when no title is
    NULL, and raises [TypeError] as soon as one is, whatever the other
    columns hold. *)
Theorem format_sql_results_null_title env err results question tr :
  Forall (fun row => text_title row = true \/ null_title row = true) results ->
  if existsb null_title results
  then (format_sql_results env err results question tr).1
       = Raise (TypeError "'NoneType' object is not subscriptable")
  else exists text, (format_sql_results env err results question tr).1 = Ok text.
Proof.
  intros H. unfold format_sql_results. rewrite traceable_eq.
  destruct results as [|row results]; [cbn; eauto|].
  unfold lift. cbn [fst].
  exact (format_rows_titles env err (row :: results) 1 _ H).
Qed.

Lemma format_sql_results_null_title_witness :
  (format_sql_results empty_env (TypeError "unhashable type: 'slice'") two_rows
     "kettles" []).1
  = Raise (TypeError "'NoneType' object is not subscriptable").
Proof.
  apply (format_sql_results_null_title empty_env (TypeError "unhashable type: 'slice'")
           two_rows "kettles" []).
  constructor; [left; reflexivity|].
  constructor; [right; reflexivity|].
  constructor.
Defined.
